(** * FlumeScripts: the fetch-and-normalise core

    A shallow embedding of the parts of [data_process.py] and [api_fetch.py]
    that the specification talks about: value coercion ([clean_value]),
    row coercion ([process_csv_file]), the HTTP wrapper ([safe_request]), the
    per-date page loop ([fetch_data_for_date]) and the resumable historical
    fetch ([load_all_historical_data]).

    Parts VIII to X add the code around them: [chunks], the split of the
    pages among the workers in [load_variations_barcodes],
    [load_order_data], the barcode functions ([get_barcode_ids],
    [load_variations_barcodes_page], [process_barcodes]) and the file
    pattern of [process_date_directory].

    Conventions of the model
    - A Python [str] is a Rocq [string]; every character stands for the code
      point of the same number (U+0000 .. U+00FF).  Code points above U+00FF
      are outside the model.
    - Python exceptions are values of [exn]; code that can raise returns a
      [result]; [try_except] is the [try: ... except Exception:] block.
    - Library calls whose behaviour is not fixed by this repository
      ([datetime.strptime], [pytz.timezone], [str] of a datetime) are the
      fields of the class [DateTimeLib]; every theorem holds for every
      instance. *)

From Stdlib Require Import ZArith List Ascii String Bool Lia QArith Qabs.
From Stdlib Require Import SpecFloat.
From stdpp Require Import base option list gmap strings pretty.

Local Open Scope string_scope.
Local Open Scope Z_scope.

(* ===================================================================== *)
(** * Part I — Python strings *)
(* ===================================================================== *)

(** [str.isspace] on one character: the white space of [str.strip()]. *)
Definition py_isspace (c : ascii) : bool :=
  let n := N_of_ascii c in
  (((9 <=? n) && (n <=? 13)) || ((28 <=? n) && (n <=? 32))
   || (n =? 133) || (n =? 160))%N.

Definition py_isdigit (c : ascii) : bool :=
  let n := N_of_ascii c in ((48 <=? n) && (n <=? 57))%N.

Definition digit_value (c : ascii) : Z := Z.of_N (N_of_ascii c) - 48.

Fixpoint drop_while {A} (p : A -> bool) (l : list A) : list A :=
  match l with
  | [] => []
  | x :: l' => if p x then drop_while p l' else l
  end.

Definition lstrip (l : list ascii) : list ascii := drop_while py_isspace l.
Definition rstrip (l : list ascii) : list ascii := rev (drop_while py_isspace (rev l)).

(** [s.strip()] *)
Definition py_strip (s : string) : string :=
  string_of_list_ascii (rstrip (lstrip (list_ascii_of_string s))).

(** [len(s.strip()) == 0] *)
Definition blank (s : string) : bool := (String.length (py_strip s) =? 0)%nat.

Definition lower_char (c : ascii) : ascii :=
  let n := N_of_ascii c in
  if (((65 <=? n) && (n <=? 90))
      || ((192 <=? n) && (n <=? 222) && negb (n =? 215)))%N
  then ascii_of_N (n + 32) else c.

(** [s.lower()] *)
Fixpoint py_lower (s : string) : string :=
  match s with
  | EmptyString => EmptyString
  | String c s' => String (lower_char c) (py_lower s')
  end.

(** [s.split(" ")]: an explicit separator, so empty fields are kept and the
    result is never the empty list. *)
Fixpoint py_split_space (s : string) : list string :=
  match s with
  | EmptyString => [EmptyString]
  | String c s' =>
      if Ascii.eqb c " "%char then EmptyString :: py_split_space s'
      else match py_split_space s' with
           | [] => [String c EmptyString]
           | w :: ws => String c w :: ws
           end
  end.

(** [" ".join(parts)] *)
Fixpoint py_join_space (parts : list string) : string :=
  match parts with
  | [] => EmptyString
  | [w] => w
  | w :: ws => (w ++ " " ++ py_join_space ws)%string
  end.

(** [s in (t1, ..., tn)] for strings *)
Definition str_in (s : string) (l : list string) : bool :=
  existsb (String.eqb s) l.

(* ===================================================================== *)
(** * Part II — exceptions *)
(* ===================================================================== *)

Inductive exn : Type :=
  | KeyError | ValueError | TypeError | AttributeError | InvalidOperation.

Inductive result (A : Type) : Type :=
  | Ok (a : A)
  | Raise (e : exn).
Arguments Ok {A} a.
Arguments Raise {A} e.

#[global] Instance result_ret : MRet result := fun A a => Ok a.
#[global] Instance result_bind : MBind result := fun A B f m =>
  match m with
  | Ok a => f a
  | Raise e => Raise e
  end.

(** [try: body  except Exception as e: handler(e)] *)
Definition try_except {A} (body : result A) (handler : exn -> result A) : result A :=
  match body with
  | Ok a => Ok a
  | Raise e => handler e
  end.

(** [d[k]] on a Python dict kept as an association list (insertion order). *)
Fixpoint assoc {V} (k : string) (d : list (string * V)) : option V :=
  match d with
  | [] => None
  | (k', v) :: d' => if String.eqb k k' then Some v else assoc k d'
  end.

Definition getitem {V} (d : list (string * V)) (k : string) : result V :=
  match assoc k d with
  | Some v => Ok v
  | None => Raise KeyError
  end.

(** [d.keys()] *)
Definition keys {V} (d : list (string * V)) : list string := map fst d.

(* ===================================================================== *)
(** * Part III — Python numbers: [int(str)], [Decimal(str)], [float(Decimal)] *)
(* ===================================================================== *)

(** Decimal digits, a single underscore allowed between two digits. *)
Fixpoint int_digits (acc : Z) (prev_digit : bool) (l : list ascii) : option Z :=
  match l with
  | [] => if prev_digit then Some acc else None
  | c :: l' =>
      if py_isdigit c then int_digits (10 * acc + digit_value c) true l'
      else if Ascii.eqb c "_"%char && prev_digit then int_digits acc false l'
      else None
  end.

(** [int(s)] for a string: surrounding white space, an optional sign, then
    digits.  [None] is [ValueError]. *)
Definition int_of_str (s : string) : option Z :=
  match rstrip (lstrip (list_ascii_of_string s)) with
  | "-"%char :: l => Z.opp <$> int_digits 0 false l
  | "+"%char :: l => int_digits 0 false l
  | l => int_digits 0 false l
  end.

(** A [decimal.Decimal]: sign, coefficient and exponent, or a special value. *)
Inductive Decimal : Type :=
  | DFinite (sign : bool) (coeff : Z) (exp : Z)
  | DInf (sign : bool)
  | DNaN (sign : bool)
  | DsNaN (sign : bool).

Fixpoint span_digits (l : list ascii) : list ascii * list ascii :=
  match l with
  | c :: l' =>
      if py_isdigit c then let '(d, r) := span_digits l' in (c :: d, r)
      else ([], l)
  | [] => ([], [])
  end.

Definition digits_value (l : list ascii) : Z :=
  fold_left (fun acc c => 10 * acc + digit_value c) l 0.

(** The optional exponent, up to the end of the text: E, an optional sign,
    one or more digits. *)
Definition decimal_exponent (l : list ascii) : option Z :=
  match l with
  | [] => Some 0
  | "e"%char :: l' =>
      let '(neg, l'') :=
        match l' with
        | "-"%char :: t => (true, t)
        | "+"%char :: t => (false, t)
        | _ => (false, l')
        end in
      match span_digits l'' with
      | ((_ :: _) as d, []) => Some (if neg then - digits_value d else digits_value d)
      | _ => None
      end
  | _ => None
  end.

(** The numeric alternative of the grammar of [Decimal]: an integer part of
    zero or more digits, an optional point with zero or more digits, at least
    one digit in all, then the optional exponent. *)
Definition decimal_number (sign : bool) (l : list ascii) : option Decimal :=
  let '(int_part, r1) := span_digits l in
  let '(frac, r2) :=
    match r1 with
    | "."%char :: t => span_digits t
    | _ => ([], r1)
    end in
  match (int_part ++ frac)%list with
  | [] => None
  | (_ :: _) as ds =>
      e ← decimal_exponent r2;
      Some (DFinite sign (digits_value ds) (e - Z.of_nat (length frac)))
  end.

(** NaN followed by zero or more digits. *)
Definition decimal_nan (l : list ascii) : bool :=
  match l with
  | "n"%char :: "a"%char :: "n"%char :: d => forallb py_isdigit d
  | _ => false
  end.

(** [Decimal(s)] for a string: [s.strip().replace("_", "")] matched, ignoring
    case, against sign, then number, infinity or NaN.  [None] is
    [decimal.InvalidOperation]. *)
Definition Decimal_of_str (s : string) : option Decimal :=
  let l := filter (fun c => negb (Ascii.eqb c "_"%char))
             (rstrip (lstrip (list_ascii_of_string s))) in
  let '(sign, body) :=
    match l with
    | "-"%char :: t => (true, t)
    | "+"%char :: t => (false, t)
    | _ => (false, l)
    end in
  let body := map lower_char body in
  let text := string_of_list_ascii body in
  if String.eqb text "inf" || String.eqb text "infinity" then Some (DInf sign)
  else if decimal_nan body then Some (DNaN sign)
  else match body with
       | "s"%char :: t => if decimal_nan t then Some (DsNaN sign) else None
       | _ => decimal_number sign body
       end.

(** [Decimal(n)] for an [int] *)
Definition Decimal_of_int (z : Z) : Decimal := DFinite (z <? 0) (Z.abs z) 0.

(** A Python [float] is an IEEE-754 binary64 number. *)
Definition prec64 : Z := 53.
Definition emax64 : Z := 1024.

(** The binary64 number nearest to [coeff * 10^exp] (ties to even), what
    [float(str(d))] computes for a finite [d]. *)
Definition round_decimal (sign : bool) (coeff exp : Z) : spec_float :=
  if coeff =? 0 then S754_zero sign
  else if 0 <=? exp then
    binary_normalize prec64 emax64 (cond_Zopp sign (coeff * 10 ^ exp)) 0 sign
  else
    let '(q, e, l) := SFdiv_core_binary prec64 emax64 coeff 0 (10 ^ (- exp)) 0 in
    binary_round_aux prec64 emax64 sign q e l.

(** [float(d)], i.e. [Decimal.__float__]: a signalling NaN raises. *)
Definition float_of_Decimal (d : Decimal) : result spec_float :=
  match d with
  | DsNaN _ => Raise ValueError
  | DNaN _ => Ok S754_nan
  | DInf s => Ok (S754_infinity s)
  | DFinite s c e => Ok (round_decimal s c e)
  end.



(* ===================================================================== *)
(** * Part IV — data_process.py: schemas and value coercion *)
(* ===================================================================== *)

(** [class SQLType(Enum)] *)
Inductive SQLType : Type := STRING | BOOL | NUMBER | DECIMAL | DATETIME.

(** [DATETIME_FORMAT] *)
Definition DATETIME_FORMAT : string := "%m/%d/%Y %H:%M:%S".

(** [COLUMNS]: table name -> column name -> type, in declaration order. *)
Definition COLUMNS : list (string * list (string * SQLType)) :=
  [ ("orders",
      [ ("plenty_id", STRING); ("o_id", STRING); ("o_plenty_id", STRING);
        ("o_origin_order_id", STRING); ("os_id", STRING);
        ("o_referrer", DECIMAL); ("o_global_referrer", DECIMAL);
        ("o_type", STRING); ("o_is_main_order", BOOL); ("o_is_net", BOOL);
        ("o_is_b2b", BOOL); ("ac_id", STRING); ("o_payment_status", NUMBER);
        ("o_invoice_postal_code", STRING); ("o_invoice_town", STRING);
        ("o_invoice_country", STRING); ("o_delivery_postal_code", STRING);
        ("o_delivery_town", STRING); ("o_delivery_country", STRING);
        ("o_shipping_profile", NUMBER); ("o_parcel_service", NUMBER);
        ("smw_id", STRING); ("smw_country", STRING);
        ("smw_postal_code", STRING); ("o_shipping_provider", STRING);
        ("o_entry_at", DATETIME); ("o_created_at", DATETIME);
        ("o_goods_issue_at", DATETIME); ("o_paid_at", DATETIME);
        ("o_updated_at", DATETIME) ]);
    ("orderItems",
      [ ("plenty_id", STRING); ("oi_id", STRING); ("o_id", STRING);
        ("iv_id", STRING); ("i_id", STRING); ("oi_quantity", DECIMAL);
        ("oi_type_id", NUMBER); ("smw_id", STRING);
        ("oi_updated_at", DATETIME); ("o_created_at", DATETIME);
        ("o_updated_at", DATETIME) ]);
    ("orderItemAmounts",
      [ ("plenty_id", STRING); ("oia_id", STRING); ("oi_id", STRING);
        ("oia_is_system_currency", BOOL); ("oi_price_gross", DECIMAL);
        ("oi_price_net", DECIMAL); ("oi_price_currency", STRING);
        ("oi_exchange_rate", DECIMAL); ("oi_purchase_price", DECIMAL);
        ("oi_updated_at", DATETIME); ("o_created_at", DATETIME) ]) ].

(** [COLUMNS[type_name][key]] *)
Definition column_type (type_name key : string) : result SQLType :=
  schema ← getitem COLUMNS type_name; getitem schema key.

(** The part of the [datetime] and [pytz] libraries that [parse_date] and
    [clean_value] call.  [None] stands for the exception the call raises
    ([ValueError], [UnknownTimeZoneError]). *)
Class DateTimeLib : Type := {
  datetime : Type;
  tzinfo : Type;
  (** [datetime.datetime.strptime(text, format)] *)
  strptime : string -> string -> option datetime;
  (** [pytz.timezone(name)] *)
  pytz_timezone : string -> option tzinfo;
  (** [dt.replace(tzinfo=tz)] *)
  replace_tzinfo : datetime -> tzinfo -> datetime;
  (** [str(dt)] *)
  datetime_str : datetime -> string
}.

Section Coercion.
Context {L : DateTimeLib}.

(** The raw values handed to [clean_value]: what [csv.DictReader] yields
    ([str], [None]) and the native values the function tests for. *)
Inductive raw : Type :=
  | RNone
  | RBool (b : bool)
  | RInt (z : Z)
  | RStr (s : string)
  | RDatetime (d : datetime).

(** The values [clean_value] returns. *)
Inductive value : Type :=
  | VNone
  | VBool (b : bool)
  | VInt (z : Z)
  | VFloat (f : spec_float)
  | VStr (s : string)
  | VDatetime (d : datetime).

(** [str(value)] *)
Definition py_str (v : raw) : string :=
  match v with
  | RNone => "None"
  | RBool true => "True"
  | RBool false => "False"
  | RInt z => pretty z
  | RStr s => s
  | RDatetime d => datetime_str d
  end.

(** [bool(value)] *)
Definition py_bool (v : raw) : bool :=
  match v with
  | RNone => false
  | RBool b => b
  | RInt z => negb (z =? 0)
  | RStr s => negb (String.eqb s "")
  | RDatetime _ => true
  end.

(** [int(value)] *)
Definition py_int (v : raw) : result Z :=
  match v with
  | RBool b => Ok (if b then 1 else 0)
  | RInt z => Ok z
  | RStr s => match int_of_str s with Some z => Ok z | None => Raise ValueError end
  | RNone | RDatetime _ => Raise TypeError
  end.

(** [Decimal(value)] *)
Definition py_Decimal (v : raw) : result Decimal :=
  match v with
  | RBool b => Ok (Decimal_of_int (if b then 1 else 0))
  | RInt z => Ok (Decimal_of_int z)
  | RStr s =>
      match Decimal_of_str s with Some d => Ok d | None => Raise InvalidOperation end
  | RNone | RDatetime _ => Raise TypeError
  end.

(** The [try] block of [parse_date]. *)
Definition parse_date_body (v : raw) : result value :=
  if negb (py_bool v) || blank (py_str v) then Ok VNone
  else
    match v with
    | RStr s =>
        let parts := py_split_space s in
        let tz := List.last parts "" in
        let text := py_join_space (List.removelast parts) in
        match strptime text DATETIME_FORMAT with
        | None => Raise ValueError
        | Some dt =>
            match pytz_timezone tz with
            | None => Raise KeyError
            | Some zone => Ok (VDatetime (replace_tzinfo dt zone))
            end
        end
    | _ => Raise AttributeError
    end.

(** [parse_date(value)]: every exception is logged and turned into [None]. *)
Definition parse_date (v : raw) : value :=
  match parse_date_body v with
  | Ok r => r
  | Raise _ => VNone
  end.

(** [value is None or len(str(value).strip()) == 0] *)
Definition is_empty (v : raw) : bool :=
  match v with
  | RNone => true
  | _ => blank (py_str v)
  end.

(** The tuple of strings a boolean column reads as true. *)
Definition true_words : list string := ["true"; "t"; "yes"; "y"; "1"].

(** The type-specific branch of [clean_value]. *)
Definition convert (column_type : SQLType) (v : raw) : result value :=
  match column_type with
  | STRING => Ok (VStr (py_str v))
  | BOOL =>
      match v with
      | RBool b => Ok (VBool b)
      | RStr s => Ok (VBool (str_in (py_lower s) true_words))
      | _ => Ok (VBool (py_bool v))
      end
  | NUMBER => z ← py_int v; Ok (VInt z)
  | DECIMAL => d ← py_Decimal v; f ← float_of_Decimal d; Ok (VFloat f)
  | DATETIME =>
      match v with
      | RDatetime d => Ok (VDatetime d)
      | _ => Ok (parse_date v)
      end
  end.

(** The safe default of the handler, by column type. *)
Definition default_value (column_type : SQLType) : value :=
  match column_type with
  | STRING => VStr ""
  | BOOL => VBool false
  | NUMBER => VInt 0
  | DECIMAL => VFloat (S754_zero false)
  | DATETIME => VNone
  end.

(** The outer [try] block of [clean_value]. *)
Definition clean_value_body (type_name key : string) (v : raw) : result value :=
  if is_empty v then Ok VNone
  else ty ← column_type type_name key; convert ty v.

(** The inner [try] block of the handler of [clean_value]. *)
Definition clean_value_default (type_name key : string) : result value :=
  ty ← column_type type_name key; Ok (default_value ty).

(** [clean_value(type_name, key, value)] *)
Definition clean_value (type_name key : string) (v : raw) : result value :=
  try_except (clean_value_body type_name key v)
    (fun _ => try_except (clean_value_default type_name key)
                (fun _ => Ok VNone)).

(** [processed_row[key] = v] on a dict kept in insertion order. *)
Fixpoint setitem {V} (d : list (string * V)) (k : string) (v : V) : list (string * V) :=
  match d with
  | [] => [(k, v)]
  | (k', v') :: d' =>
      if String.eqb k k' then (k, v) :: d' else (k', v') :: setitem d' k v
  end.

(** The inner loop of [process_csv_file]: one output cell per schema key. *)
Fixpoint process_columns (type_name : string) (ks : list string)
    (row : gmap string raw) (processed_row : list (string * value))
    : result (list (string * value)) :=
  match ks with
  | [] => Ok processed_row
  | key :: ks' =>
      cell ← match row !! key with
             | Some x => clean_value type_name key x
             | None => Ok VNone
             end;
      process_columns type_name ks' row (setitem processed_row key cell)
  end.

(** The [try] block run for one row of [process_csv_file]. *)
Definition process_row (type_name : string) (row : gmap string raw)
    : result (list (string * value)) :=
  schema ← getitem COLUMNS type_name;
  process_columns type_name (keys schema) row [].

(** The row loop of [process_csv_file]: a row whose processing raises is
    logged and left out. *)
Fixpoint process_rows (type_name : string) (data : list (gmap string raw))
    : list (list (string * value)) :=
  match data with
  | [] => []
  | row :: data' =>
      match process_row type_name row with
      | Ok processed_row => processed_row :: process_rows type_name data'
      | Raise _ => process_rows type_name data'
      end
  end.

(** The columns of [pd.DataFrame(data)]: the keys of the rows in order of
    first appearance. *)
Definition frame_columns (data : list (list (string * value))) : list string :=
  fold_left (fun cols row =>
    fold_left (fun cols k => if str_in k cols then cols else (cols ++ [k])%list)
      (keys row) cols) data [].

(** The column handling of [save_processed_data]: add the missing schema
    columns, then select the schema columns in schema order. *)
Definition save_columns (type_name : string) (data : list (list (string * value)))
    : result (list string) :=
  schema ← getitem COLUMNS type_name;
  let df_columns :=
    fold_left (fun cols column => if str_in column cols then cols else (cols ++ [column])%list)
      (keys schema) (frame_columns data) in
  if forallb (fun column => str_in column df_columns) (keys schema)
  then Ok (keys schema) else Raise KeyError.

End Coercion.

(* ===================================================================== *)
(** * Part V — api_fetch.py: the world the fetcher runs in *)
(* ===================================================================== *)

(** The report-file endpoint: the path
    [report/rawData/{type}/{shopId}/{Y}/{M}/{type}--{Y}-{MM}-{DD}--p{page}--v{version}.csv.gz]
    is determined by the report type, the date, the page and the version. *)
Inductive url : Type :=
  | ReportFile (data_type : string) (date : string) (page : Z) (version : string).

Record request : Type := { rq_method : string; rq_url : url }.

Definition rq_page (rq : request) : Z :=
  match rq_url rq with ReportFile _ _ page _ => page end.
Definition rq_type (rq : request) : string :=
  match rq_url rq with ReportFile data_type _ _ _ => data_type end.

(** A [requests.Response]: status, the [Retry-After] header if present, and
    the body bytes ([t.content]). *)
Record response : Type := {
  status_code : Z;
  retry_after : option string;
  content : string
}.

(** What one call of [s.get] / [s.post] does: it returns a response or
    raises. *)
Inductive outcome : Type :=
  | Responded (r : response)
  | Timeout
  | ConnectionError
  | OtherError.

(** The server, the transport and the session [s] with its mounted retry
    adapter: the outcome of one call of [s.get] / [s.post], given the
    requests sent before it. *)
Definition network : Type := list request -> request -> outcome.

(** A checkpoint ([{type}_metadata.json]) as [json.load] returns it; the key
    [last_update], a wall-clock stamp, is left out. *)
Record metadata : Type := {
  md_type : string;
  md_date : string;
  md_pages_processed : option Z;
  md_version : string;
  md_encoding : option string;
  md_completed : option bool
}.

(** A file of a date directory: a JSON checkpoint, or page text (which
    [json.load] does not read as a checkpoint). *)
Inductive file : Type :=
  | Json (m : metadata)
  | Page (bytes : string).

(** [historical_fetch_status.json]: unreadable, or its [processed_dates]. *)
Inductive status : Type :=
  | StatusBroken
  | StatusDates (processed_dates : list string).

Record world : Type := {
  (** the HTTP requests sent so far, oldest first *)
  attempts : list request;
  (** the [time.sleep] calls so far, in seconds, oldest first *)
  sleeps : list Z;
  (** [DATA_DIR]: date directory -> file name -> file *)
  data_dir : gmap string (gmap string file);
  (** [DATA_DIR / "historical_fetch_status.json"], if it exists *)
  status_file : option status
}.

Definition send (rq : request) (w : world) : world :=
  {| attempts := attempts w ++ [rq]; sleeps := sleeps w;
     data_dir := data_dir w; status_file := status_file w |}.

(** The largest whole number of seconds [time.sleep] takes (a signed 64-bit
    count of nanoseconds). *)
Definition SLEEP_MAX : Z := 9223372036.

(** [time.sleep(secs)]: a negative or oversized length raises. *)
Definition time_sleep (secs : Z) (w : world) : result world :=
  if (0 <=? secs) && (secs <=? SLEEP_MAX) then
    Ok {| attempts := attempts w; sleeps := sleeps w ++ [secs];
          data_dir := data_dir w; status_file := status_file w |}
  else Raise ValueError.

(** [time.sleep] with a constant the code fixes (always accepted). *)
Definition pause (secs : Z) (w : world) : world :=
  {| attempts := attempts w; sleeps := sleeps w ++ [secs];
     data_dir := data_dir w; status_file := status_file w |}.

(** [date_dir.mkdir(exist_ok=True)] *)
Definition mkdir (date : string) (w : world) : world :=
  match data_dir w !! date with
  | Some _ => w
  | None =>
      {| attempts := attempts w; sleeps := sleeps w;
         data_dir := <[date := ∅]> (data_dir w); status_file := status_file w |}
  end.

(** [open(date_dir / name, "w")] and write. *)
Definition write_file (date name : string) (f : file) (w : world) : world :=
  {| attempts := attempts w; sleeps := sleeps w;
     data_dir := <[date := <[name := f]> (default ∅ (data_dir w !! date))]> (data_dir w);
     status_file := status_file w |}.

Definition write_status (dates : list string) (w : world) : world :=
  {| attempts := attempts w; sleeps := sleeps w; data_dir := data_dir w;
     status_file := Some (StatusDates dates) |}.

(** ** Constants *)
Definition REQUEST_RETRIES : Z := 3.
Definition API_RATE_LIMIT_SLEEP : Z := 1.

(** ** [safe_request] *)

(** The [wait_time] of the 429 branch: 60, or [int] of the header. *)
Definition rate_limit_wait (r : response) : Z :=
  match retry_after r with
  | Some h => match int_of_str h with Some n => n | None => 60 end
  | None => 60
  end.

(** The [while current_retry < retry_count] loop.  Every iteration that does
    not return adds one to [current_retry], so [fuel] iterations are enough
    when [fuel >= retry_count - current_retry]
    (lemma [safe_request_loop_fuel]). *)
Fixpoint safe_request_loop (net : network) (fuel : nat) (method : string)
    (u : url) (retry_count current_retry : Z) (w : world)
    : option response * world :=
  match fuel with
  | O => (None, w)
  | S fuel' =>
      if negb (current_retry <? retry_count) then (None, w)
      else
        let m := py_lower method in
        if negb (String.eqb m "get" || String.eqb m "post") then (None, w)
        else
          let rq := {| rq_method := m; rq_url := u |} in
          let w1 := send rq w in
          match net (attempts w) rq with
          | Responded r =>
              if status_code r =? 429 then
                match time_sleep (rate_limit_wait r) w1 with
                | Ok w2 =>
                    safe_request_loop net fuel' method u retry_count
                      (current_retry + 1) w2
                | Raise _ =>
                    safe_request_loop net fuel' method u retry_count
                      (current_retry + 1) (pause 10 w1)
                end
              else (Some r, pause API_RATE_LIMIT_SLEEP w1)
          | Timeout | ConnectionError =>
              let current_retry := current_retry + 1 in
              safe_request_loop net fuel' method u retry_count current_retry
                (pause (5 * current_retry) w1)
          | OtherError =>
              safe_request_loop net fuel' method u retry_count
                (current_retry + 1) (pause 10 w1)
          end
  end.

(** [safe_request(method, url, headers, retry_count=3)]; [None] is the
    Python [None]. *)
Definition safe_request (net : network) (method : string) (u : url)
    (retry_count : Z) (w : world) : option response * world :=
  safe_request_loop net (Z.to_nat retry_count) method u retry_count 0 w.

(** ** [fetch_data_for_date] *)

(** [bool(t)] for the value [safe_request] returns: [None] is false, and a
    [requests.Response] is true exactly when it is [ok]
    ([Response.__bool__] returns [self.ok]), that is when [raise_for_status]
    does not raise: when its status is not a client or server error
    status, 400 to 599. *)
Definition response_bool (t : option response) : bool :=
  match t with
  | None => false
  | Some r => negb ((400 <=? status_code r) && (status_code r <? 600))
  end.

(** [t and t.status_code == code] *)
Definition status_is (t : option response) (code : Z) : bool :=
  response_bool t &&
  match t with Some r => status_code r =? code | None => false end.

Definition continuation (b : N) : bool := ((128 <=? b) && (b <=? 191))%N.

(** Whether [bytes.decode("utf-8")] succeeds: well-formed UTF-8 (no overlong
    forms, no surrogates, nothing above U+10FFFF). *)
Fixpoint utf8_valid (l : list N) : bool :=
  match l with
  | [] => true
  | b0 :: l1 =>
      if (b0 <? 128)%N then utf8_valid l1
      else if ((194 <=? b0) && (b0 <=? 223))%N then
        match l1 with
        | b1 :: l2 => continuation b1 && utf8_valid l2
        | _ => false
        end
      else if ((224 <=? b0) && (b0 <=? 239))%N then
        match l1 with
        | b1 :: b2 :: l3 =>
            continuation b1 && continuation b2
            && (if (b0 =? 224)%N then (160 <=? b1)%N else true)
            && (if (b0 =? 237)%N then (b1 <=? 159)%N else true)
            && utf8_valid l3
        | _ => false
        end
      else if ((240 <=? b0) && (b0 <=? 244))%N then
        match l1 with
        | b1 :: b2 :: b3 :: l4 =>
            continuation b1 && continuation b2 && continuation b3
            && (if (b0 =? 240)%N then (144 <=? b1)%N else true)
            && (if (b0 =? 244)%N then (b1 <=? 143)%N else true)
            && utf8_valid l4
        | _ => false
        end
      else false
  end.

Definition decodes_utf8 (bytes : string) : bool :=
  utf8_valid (map N_of_ascii (list_ascii_of_string bytes)).

(** The three report types and their versions. *)
Definition data_types : list string := ["orderItems"; "orders"; "orderItemAmounts"].
Definition versions : list string := ["4"; "7"; "3"].

(** File names inside a date directory. *)
Definition metadata_file (data_type : string) : string :=
  data_type ++ "_metadata.json".
Definition page_file (data_type : string) (page : Z) : string :=
  data_type ++ "_page_" ++ pretty page ++ ".csv".
Definition page_file_latin1 (data_type : string) (page : Z) : string :=
  data_type ++ "_page_" ++ pretty page ++ "_latin1.csv".

(** The resume check: [start_page]. *)
Definition start_page (data_type : string) (dir : gmap string file) : Z :=
  match dir !! metadata_file data_type with
  | Some (Json m) =>
      let pages_processed := default 0 (md_pages_processed m) in
      if pages_processed >? 0 then pages_processed + 1 else 1
  | Some (Page _) => 1
  | None => 1
  end.

(** The checkpoint written after a page. *)
Definition page_metadata (data_type date version : string) (page : Z)
    (encoding : option string) : metadata :=
  {| md_type := data_type; md_date := date; md_pages_processed := Some page;
     md_version := version; md_encoding := encoding; md_completed := None |}.

(** The [200] branch: save the page and the checkpoint.  Decoding as
    latin-1 cannot fail, and the files of the model can always be written,
    so the two inner handlers that only add one to [page] are not reached. *)
Definition save_page (date data_type version : string) (page : Z)
    (r : response) (w : world) : world :=
  if decodes_utf8 (content r) then
    write_file date (metadata_file data_type)
      (Json (page_metadata data_type date version page None))
      (write_file date (page_file data_type page) (Page (content r)) w)
  else
    write_file date (metadata_file data_type)
      (Json (page_metadata data_type date version page (Some "latin-1")))
      (write_file date (page_file_latin1 data_type page) (Page (content r)) w).

(** The result of a loop run with bounded fuel: it ended, or it is still
    running when the fuel is used up. *)
Inductive run (A : Type) : Type :=
  | Finished (a : A) (w : world)
  | Running (w : world).
Arguments Finished {A} a w.
Arguments Running {A} w.

Definition world_of {A} (r : run A) : world :=
  match r with Finished _ w => w | Running w => w end.

(** The [while not end_reached] loop of one report type; one unit of fuel
    per iteration.  The value is [page] when the loop ends.  The branch
    [elif t is None] is the first case of the match: for [None] the four
    tests [t and ...] before it are all false. *)
Fixpoint fetch_pages (net : network) (fuel : nat)
    (date data_type version : string) (page : Z) (w : world) : run Z :=
  match fuel with
  | O => Running w
  | S fuel' =>
      let '(t, w1) :=
        safe_request net "get" (ReportFile data_type date page version)
          REQUEST_RETRIES w in
      match t with
      | None => Finished page w1
      | Some r =>
          if status_is t 200 then
            fetch_pages net fuel' date data_type version (page + 1)
              (save_page date data_type version page r w1)
          else if status_is t 404 then Finished page w1
          else if status_is t 500 then Finished page w1
          else if status_is t 429 then
            fetch_pages net fuel' date data_type version page (pause 60 w1)
          else
            let st := status_code r in
            let '(page', w2) :=
              if (400 <=? st) && (st <? 500) && negb (st =? 429)
              then (page + 1, w1) else (page, pause 30 w1) in
            if page' >? 50 then Finished page' w2
            else fetch_pages net fuel' date data_type version page' w2
      end
  end.

(** The final checkpoint of one report type. *)
Definition final_metadata (data_type date version : string) (page : Z) : metadata :=
  {| md_type := data_type; md_date := date; md_pages_processed := Some (page - 1);
     md_version := version; md_encoding := None; md_completed := Some true |}.

(** The body of [for type_index in range(len(data_types))], without the
    pause between types. *)
Definition fetch_type (net : network) (fuel : nat) (date data_type version : string)
    (w : world) : run unit :=
  let page0 := start_page data_type (default ∅ (data_dir w !! date)) in
  match fetch_pages net fuel date data_type version page0 w with
  | Finished page w' =>
      Finished tt
        (write_file date (metadata_file data_type)
           (Json (final_metadata data_type date version page)) w')
  | Running w' => Running w'
  end.

(** The loop over the report types, with the 5 s pause after every type but
    the last. *)
Fixpoint fetch_types (net : network) (fuel : nat) (date : string)
    (types : list (string * string)) (w : world) : run unit :=
  match types with
  | [] => Finished tt w
  | (data_type, version) :: rest =>
      match fetch_type net fuel date data_type version w with
      | Finished _ w' =>
          fetch_types net fuel date rest
            (match rest with [] => w' | _ => pause 5 w' end)
      | Running w' => Running w'
      end
  end.

(** [fetch_data_for_date(urlmain, shopid, authorization, target_date)] *)
Definition fetch_data_for_date (net : network) (fuel : nat) (date : string)
    (w : world) : run unit :=
  fetch_types net fuel date (zip data_types versions) (mkdir date w).

(** ** [load_all_historical_data] *)

(** [date_dir.glob("*_metadata.json")] is not empty. *)
Definition is_metadata_name (name : string) : bool :=
  let suffix := "_metadata.json" in
  let n := String.length name in
  let k := String.length suffix in
  (k <=? n)%nat && String.eqb (String.substring (n - k) k name) suffix.

Definition has_metadata (dir : gmap string file) : bool :=
  existsb (fun kv => is_metadata_name (fst kv)) (map_to_list dir).

(** The completion check: the loop over the three types, left at the first
    type that is missing, unreadable or not completed. *)
Fixpoint all_complete (dir : gmap string file) (types : list string) : bool :=
  match types with
  | [] => true
  | data_type :: rest =>
      match dir !! metadata_file data_type with
      | Some (Json m) =>
          if negb (default false (md_completed m)) then false
          else all_complete dir rest
      | Some (Page _) => false
      | None => false
      end
  end.

(** The dates the status file records when the run starts. *)
Definition load_processed_dates (w : world) : gset string :=
  match status_file w with
  | Some (StatusDates l) => list_to_set l
  | Some StatusBroken => ∅
  | None => ∅
  end.

(** [for target_date in chunk]. *)
Fixpoint historical_chunk (net : network) (fuel : nat) (chunk : list string)
    (processed_dates : gset string) (w : world) : run (gset string) :=
  match chunk with
  | [] => Finished processed_dates w
  | date_str :: rest =>
      if bool_decide (date_str ∈ processed_dates) then
        historical_chunk net fuel rest processed_dates w
      else
        let complete :=
          match data_dir w !! date_str with
          | Some dir => has_metadata dir && all_complete dir data_types
          | None => false
          end in
        if complete then
          historical_chunk net fuel rest ({[date_str]} ∪ processed_dates) w
        else
          match fetch_data_for_date net fuel date_str w with
          | Finished _ w1 =>
              let processed_dates := {[date_str]} ∪ processed_dates in
              historical_chunk net fuel rest processed_dates
                (pause 10 (write_status (elements processed_dates) w1))
          | Running w1 => Running w1
          end
  end.

Definition chunk_size : nat := 10.

(** [for i in range(0, len(date_range), chunk_size)], [n] chunks to go. *)
Fixpoint historical_chunks (net : network) (fuel : nat) (n : nat)
    (date_range : list string) (processed_dates : gset string) (w : world)
    : run (gset string) :=
  match n with
  | O => Finished processed_dates w
  | S n' =>
      let chunk := take chunk_size date_range in
      let later := drop chunk_size date_range in
      match historical_chunk net fuel chunk processed_dates w with
      | Finished processed_dates w1 =>
          historical_chunks net fuel n' later processed_dates
            (match later with [] => w1 | _ => pause 60 w1 end)
      | Running w1 => Running w1
      end
  end.

(** [load_all_historical_data], given the list of dates from yesterday back
    to the start date (ISO strings, newest first).  The value is the final
    [processed_dates]. *)
Definition load_all_historical_data (net : network) (fuel : nat)
    (date_range : list string) (w : world) : run (gset string) :=
  historical_chunks net fuel
    ((length date_range + chunk_size - 1) / chunk_size)%nat
    date_range (load_processed_dates w) w.

(* ===================================================================== *)
(** * Part VI — a small instance of the date library, for the examples *)
(* ===================================================================== *)

(** Timestamps in the zero-padded spelling [MM/DD/YYYY HH:MM:SS] and the
    zone UTC only.  The theorems are stated for every instance; this one
    serves to evaluate [clean_value] on concrete inputs. *)
Record sample_datetime : Type := {
  sd_year : Z; sd_month : Z; sd_day : Z;
  sd_hour : Z; sd_minute : Z; sd_second : Z;
  sd_zone : option string
}.

Definition two_digits (a b : ascii) : Z := 10 * digit_value a + digit_value b.

Definition leap_year (y : Z) : bool :=
  ((y mod 4 =? 0) && negb (y mod 100 =? 0)) || (y mod 400 =? 0).

Definition days_in_month (y m : Z) : Z :=
  if m =? 2 then (if leap_year y then 29 else 28)
  else if (m =? 4) || (m =? 6) || (m =? 9) || (m =? 11) then 30 else 31.

Definition sample_strptime (text format : string) : option sample_datetime :=
  if negb (String.eqb format DATETIME_FORMAT) then None
  else
    match list_ascii_of_string text with
    | [m1; m2; s1; d1; d2; s2; y1; y2; y3; y4; s3; h1; h2; s4; n1; n2; s5; c1; c2] =>
        let year := 100 * two_digits y1 y2 + two_digits y3 y4 in
        let month := two_digits m1 m2 in
        let day := two_digits d1 d2 in
        let hour := two_digits h1 h2 in
        let minute := two_digits n1 n2 in
        let second := two_digits c1 c2 in
        if forallb py_isdigit [m1; m2; d1; d2; y1; y2; y3; y4; h1; h2; n1; n2; c1; c2]
           && String.eqb (string_of_list_ascii [s1; s2; s3; s4; s5]) "// ::"
           && (1 <=? year) && (1 <=? month) && (month <=? 12)
           && (1 <=? day) && (day <=? days_in_month year month)
           && (hour <=? 23) && (minute <=? 59) && (second <=? 59)
        then Some {| sd_year := year; sd_month := month; sd_day := day;
                     sd_hour := hour; sd_minute := minute; sd_second := second;
                     sd_zone := None |}
        else None
    | _ => None
    end.

Definition sample_timezone (name : string) : option string :=
  if String.eqb name "UTC" then Some "UTC" else None.

Definition sample_replace (dt : sample_datetime) (zone : string) : sample_datetime :=
  {| sd_year := sd_year dt; sd_month := sd_month dt; sd_day := sd_day dt;
     sd_hour := sd_hour dt; sd_minute := sd_minute dt; sd_second := sd_second dt;
     sd_zone := Some zone |}.

Definition pad (width : nat) (z : Z) : string :=
  let s := pretty z in
  string_of_list_ascii (repeat "0"%char (width - String.length s)) ++ s.

Definition sample_str (dt : sample_datetime) : string :=
  pad 4 (sd_year dt) ++ "-" ++ pad 2 (sd_month dt) ++ "-" ++ pad 2 (sd_day dt)
  ++ " " ++ pad 2 (sd_hour dt) ++ ":" ++ pad 2 (sd_minute dt) ++ ":"
  ++ pad 2 (sd_second dt)
  ++ match sd_zone dt with Some _ => "+00:00" | None => "" end.

#[global] Instance sample_lib : DateTimeLib := {|
  datetime := sample_datetime;
  tzinfo := string;
  strptime := sample_strptime;
  pytz_timezone := sample_timezone;
  replace_tzinfo := sample_replace;
  datetime_str := sample_str
|}.

(** ** Worlds and servers for the examples *)

Definition empty_world : world :=
  {| attempts := []; sleeps := []; data_dir := ∅; status_file := None |}.

(** The request for a page of the orders report of 2024-03-01. *)
Definition orders_page (page : Z) : url := ReportFile "orders" "2024-03-01" page "7".
Definition get_orders_page (page : Z) : request :=
  {| rq_method := "get"; rq_url := orders_page page |}.

Definition respond (status : Z) (header : option string) : outcome :=
  Responded {| status_code := status; retry_after := header;
               content := "o_id,o_type" |}.

(** Three times 429 with [Retry-After: 1], then 200. *)
Definition net_429_then_200 : network :=
  fun hist _ => if (length hist <? 3)%nat then respond 429 (Some "1")
                else respond 200 None.

(** Always 429, with a negative [Retry-After]. *)
Definition net_429_negative : network := fun _ _ => respond 429 (Some "-5").

(** Pages 1 to 3 exist, every later page is answered [not_found]. *)
Definition net_three_pages (not_found : Z) : network :=
  fun _ rq => if rq_page rq <=? 3 then respond 200 None
              else respond not_found None.

(** Every page exists. *)
Definition net_always_200 : network := fun _ _ => respond 200 None.

(* ===================================================================== *)
(** * Part VII — vocabulary of the statements *)
(* ===================================================================== *)

(** The request the page loop sends for a page. *)
Definition page_request (date data_type version : string) (page : Z) : request :=
  {| rq_method := "get"; rq_url := ReportFile data_type date page version |}.

(** The file [name] of the directory of [date], if any. *)
Definition file_at (w : world) (date name : string) : option file :=
  default ∅ (data_dir w !! date) !! name.

(** The names one report type writes. *)
Definition own_name (data_type name : string) : Prop :=
  name = metadata_file data_type
  \/ exists page, name = page_file data_type page
                  \/ name = page_file_latin1 data_type page.

(** The [pages_processed] the checkpoint of a report type records, 0 when
    there is no readable checkpoint or no such key. *)
Definition checkpoint_pages (w : world) (date data_type : string) : Z :=
  match file_at w date (metadata_file data_type) with
  | Some (Json m) => default 0 (md_pages_processed m)
  | _ => 0
  end.

(** The page after the checkpoint. *)
Definition resume_page (w : world) (date data_type : string) : Z :=
  let n := checkpoint_pages w date data_type in
  if 0 <? n then n + 1 else 1.

(** In the requests [new], no page of the report type is below [s], and the
    first request for the report type, if there is one, asks for page [s]. *)
Definition resumes_at (new : list request) (date data_type : string) (s : Z) : Prop :=
  Forall (fun rq => rq_type rq = data_type -> s <= rq_page rq) new
  /\ exists before after,
       new = (before ++ after)%list
       /\ Forall (fun rq => rq_type rq <> data_type) before
       /\ (after = []
           \/ exists version rest,
                after = page_request date data_type version s :: rest).

(** A world with a checkpoint of five pages for the orders of 2024-03-01. *)
Definition checkpoint_world : world :=
  write_file "2024-03-01" (metadata_file "orders")
    (Json (page_metadata "orders" "2024-03-01" "7" 5 None)) empty_world.

(** A date that needs no fetch: it is recorded in the status file, or its
    directory holds the checkpoints of the three report types, each with
    [completed] true. *)
Definition date_done (w : world) (date : string) : Prop :=
  date ∈ load_processed_dates w
  \/ exists dir,
       data_dir w !! date = Some dir
       /\ forall data_type, data_type ∈ data_types ->
            exists m, dir !! metadata_file data_type = Some (Json m)
                      /\ md_completed m = Some true.

(** A world whose status file records two dates. *)
Definition done_world : world :=
  write_status ["2024-03-02"; "2024-03-01"] empty_world.

(* ===================================================================== *)
(** * Part VIII — api_fetch.py: [chunks], the pages of the workers,
      [load_order_data] *)
(* ===================================================================== *)

(** An index of a slice, as Python reads it: a negative index counts from
    the end, and the result is clamped to [0 .. len]. *)
Definition slice_index (len i : Z) : Z :=
  if i <? 0 then Z.max 0 (i + len) else Z.min i len.

(** [l[lo:hi]] *)
Definition py_slice {A} (l : list A) (lo hi : Z) : list A :=
  let len := Z.of_nat (length l) in
  let lo' := slice_index len lo in
  let hi' := slice_index len hi in
  take (Z.to_nat (hi' - lo')) (drop (Z.to_nat lo') l).

(** [range(start, stop)] as a list *)
Definition py_range (start stop : Z) : list Z := seqZ start (stop - start).

(** [range(0, stop, step)] for a positive [step]. *)
Definition py_range_step (stop step : Z) : list Z :=
  map (fun j => Z.of_nat j * step) (seq 0 (Z.to_nat ((stop + step - 1) / step))).

(** [chunks(lst, n)], with the generator it returns run to its end.  [None]
    is the [ZeroDivisionError] of [divmod(len(lst), 0)].  The module
    defines the function and does not call it. *)
Definition chunks {A} (lst : list A) (n : Z) : option (list (list A)) :=
  if n =? 0 then None
  else
    let k := Z.of_nat (length lst) / n in
    let m := Z.of_nat (length lst) mod n in
    Some (map (fun i => py_slice lst (i * k + Z.min i m)
                          ((i + 1) * k + Z.min (i + 1) m))
            (py_range 0 n)).

(** [WORKERS = 1] *)
Definition WORKERS : Z := 1.

(** The pages of the worker processes in [load_variations_barcodes], given
    the [lastPage] of the first page as an integer: nothing when there is
    one page at most; otherwise the pages from 2 to [total_pages], 1000 at
    most, in slices of [len(all_pages) // WORKERS + 1] pages. *)
Definition worker_chunks (total_pages : Z) : list (list Z) :=
  if total_pages <=? 1 then []
  else
    let total_pages := if total_pages >? 1000 then 1000 else total_pages in
    let all_pages := py_range 2 (total_pages + 1) in
    let step := Z.of_nat (length all_pages) / WORKERS + 1 in
    map (fun i => py_slice all_pages i (i + step))
      (py_range_step (Z.of_nat (length all_pages)) step).

(** [for target_date in date_range] of [load_order_data]: the fetch, then a
    pause of 10 s after every date.  [fetch_data_for_date] of the model
    raises nothing, so the handler with its pause of 30 s is not reached. *)
Fixpoint load_order_days (net : network) (fuel : nat) (date_range : list string)
    (w : world) : run unit :=
  match date_range with
  | [] => Finished tt w
  | target_date :: rest =>
      match fetch_data_for_date net fuel target_date w with
      | Finished _ w1 => load_order_days net fuel rest (pause 10 w1)
      | Running w1 => Running w1
      end
  end.

(** [load_order_data], given the dates of the [days_to_fetch] days before
    today (ISO strings, newest first). *)
Definition load_order_data (net : network) (fuel : nat) (date_range : list string)
    (w : world) : run unit :=
  if (length date_range =? 0)%nat then Finished tt w
  else load_order_days net fuel date_range w.

(* ===================================================================== *)
(** * Part IX — JSON values and the barcode functions *)
(* ===================================================================== *)

(** ** JSON values, as [json.load] and [Response.json] return them

    [None], [bool], [int], [str], [list] and [dict] (keys in insertion
    order).  Numbers with a fraction or an exponent ([float]) are outside
    the model. *)
#[warnings="-register-all"]
Inductive json : Type :=
  | JNull
  | JBool (b : bool)
  | JInt (z : Z)
  | JStr (s : string)
  | JList (items : list json)
  | JDict (fields : list (string * json)).

(** [v.get(key, dflt)]: only a [dict] has [get]. *)
Definition py_get (v : json) (key : string) (dflt : json) : result json :=
  match v with
  | JDict d => match assoc key d with Some x => Ok x | None => Ok dflt end
  | _ => Raise AttributeError
  end.

(** [bool(v)] *)
Definition json_truth (v : json) : bool :=
  match v with
  | JNull => false
  | JBool b => b
  | JInt z => negb (z =? 0)
  | JStr s => negb (String.eqb s "")
  | JList l => match l with [] => false | _ => true end
  | JDict d => match d with [] => false | _ => true end
  end.

(** [len(v)] *)
Definition json_len (v : json) : result nat :=
  match v with
  | JStr s => Ok (String.length s)
  | JList l => Ok (length l)
  | JDict d => Ok (length d)
  | _ => Raise TypeError
  end.

(** The values [for x in v] runs through: the items of a list, the keys of
    a dict, the characters of a string. *)
Definition json_iter (v : json) : result (list json) :=
  match v with
  | JList l => Ok l
  | JDict d => Ok (map (fun kv => JStr (fst kv)) d)
  | JStr s => Ok (map (fun c => JStr (String c "")) (list_ascii_of_string s))
  | _ => Raise TypeError
  end.

(** [v is None] *)
Definition is_none (v : json) : bool :=
  match v with JNull => true | _ => false end.

(** Whether [v] can be a key of a dict: a list or a dict cannot. *)
Definition hashable (v : json) : bool :=
  match v with JList _ | JDict _ => false | _ => true end.

(** [v == s] for a string [s] *)
Definition json_is_str (v : json) (s : string) : bool :=
  match v with JStr t => String.eqb t s | _ => false end.

(** [v < 0]: an [int] or a [bool] compares with 0, anything else raises. *)
Definition json_lt_zero (v : json) : result bool :=
  match v with
  | JInt z => Ok (z <? 0)
  | JBool _ => Ok false
  | _ => Raise TypeError
  end.

(** The number an [int] or a [bool] stands for in a comparison. *)
Definition json_int (v : json) : option Z :=
  match v with
  | JInt z => Some z
  | JBool b => Some (if b then 1 else 0)
  | _ => None
  end.

(** [v == z] for an [int] [z] *)
Definition json_eq_int (v : json) (z : Z) : bool :=
  match json_int v with Some y => y =? z | None => false end.

(** [a == b] for two values that can be keys of a dict. *)
Definition key_eq (a b : json) : bool :=
  match json_int a, json_int b with
  | Some x, Some y => x =? y
  | None, None =>
      match a, b with
      | JNull, JNull => true
      | JStr s, JStr t => String.eqb s t
      | _, _ => false
      end
  | _, _ => false
  end.

(** [d[k] = v] on a dict whose keys are JSON values: an equal key keeps
    its place and takes the new value. *)
Fixpoint dict_set (d : list (json * json)) (k v : json) : list (json * json) :=
  match d with
  | [] => [(k, v)]
  | (k', v') :: d' =>
      if key_eq k k' then (k', v) :: d' else (k', v') :: dict_set d' k v
  end.

(** ** [get_barcode_ids] (api_fetch.py) *)

(** The loop over the entries of [get_barcode_ids].  The assignment
    [barcode_map[barcode_name] = barcode_id] raises for a name that cannot
    be a key; the map itself goes to a file only. *)
Fixpoint barcode_ids_loop (entries : list json) (wg1 wg2 : json)
    : result (json * json) :=
  match entries with
  | [] => Ok (wg1, wg2)
  | entry :: rest =>
      barcode_id ← py_get entry "id" JNull;
      barcode_name ← py_get entry "name" JNull;
      if negb (hashable barcode_name) then Raise TypeError
      else
        barcode_ids_loop rest
          (if json_is_str barcode_name "WG1" then barcode_id else wg1)
          (if json_is_str barcode_name "WG2" then barcode_id else wg2)
  end.

(** The [try] block of [get_barcode_ids], given the decoded body of the
    response: the pair it returns, or [None] when it raises. *)
Definition get_barcode_ids (data : json) : option (json * json) :=
  match (_ ← py_get data "isLastPage" (JBool true);
         entries ← py_get data "entries" (JList []);
         items ← json_iter entries;
         barcode_ids_loop items (JInt (-1)) (JInt (-1))) with
  | Ok (wg1, wg2) =>
      match json_lt_zero wg1 with
      | Ok false =>
          match json_lt_zero wg2 with
          | Ok false => Some (wg1, wg2)
          | _ => None
          end
      | _ => None
      end
  | Raise _ => None
  end.

(** ** [load_variations_barcodes_page] (api_fetch.py) *)

(** An entry of the result: the dict with the keys [variation_id], [wg1],
    [wg2] and [all_barcodes]. *)
Record variation_entry : Type := {
  ve_variation_id : json;
  ve_wg1 : json;
  ve_wg2 : json;
  ve_all_barcodes : list (json * json)
}.

(** [for bc in barcodes] *)
Fixpoint variation_barcodes_loop (barcodes : list json) (wg1 wg2 : Z)
    (barcode_dict : list (json * json)) (wg1_code wg2_code : json)
    : result (list (json * json) * json * json) :=
  match barcodes with
  | [] => Ok (barcode_dict, wg1_code, wg2_code)
  | bc :: rest =>
      barcode_id ← py_get bc "barcodeId" JNull;
      barcode_code ← py_get bc "code" JNull;
      if negb (hashable barcode_id) then Raise TypeError
      else
        let barcode_dict := dict_set barcode_dict barcode_id barcode_code in
        if json_eq_int barcode_id wg1 then
          variation_barcodes_loop rest wg1 wg2 barcode_dict barcode_code wg2_code
        else if json_eq_int barcode_id wg2 then
          variation_barcodes_loop rest wg1 wg2 barcode_dict wg1_code barcode_code
        else
          variation_barcodes_loop rest wg1 wg2 barcode_dict wg1_code wg2_code
  end.

(** The body of [for entry in data.get("entries", [])] *)
Definition variation_entry_of (wg1 wg2 : Z) (entry : json) : result variation_entry :=
  variation_id ← py_get entry "id" JNull;
  barcodes ← py_get entry "variationBarcodes" (JList []);
  items ← json_iter barcodes;
  '(barcode_dict, wg1_code, wg2_code) ←
    variation_barcodes_loop items wg1 wg2 [] JNull JNull;
  Ok {| ve_variation_id := variation_id; ve_wg1 := wg1_code;
        ve_wg2 := wg2_code; ve_all_barcodes := barcode_dict |}.

Fixpoint variation_entries (wg1 wg2 : Z) (entries : list json)
    : result (list variation_entry) :=
  match entries with
  | [] => Ok []
  | entry :: rest =>
      e ← variation_entry_of wg1 wg2 entry;
      es ← variation_entries wg1 wg2 rest;
      Ok (e :: es)
  end.

(** The dict [load_variations_barcodes_page] returns; the error dict has no
    [lastPage] and no [total]. *)
Record page_result : Type := {
  pr_page : Z;
  pr_entries : list variation_entry;
  pr_lastPage : option json;
  pr_total : option json;
  pr_error : bool
}.

Definition error_page (page : Z) : page_result :=
  {| pr_page := page; pr_entries := []; pr_lastPage := None;
     pr_total := None; pr_error := true |}.

(** The [try] block of [load_variations_barcodes_page]. *)
Definition variations_page (page wg1 wg2 : Z) (data : json) : result page_result :=
  lastPage ← py_get data "lastPageNumber" (JInt 1);
  total ← py_get data "totalsCount" (JInt 0);
  entries ← py_get data "entries" (JList []);
  items ← json_iter entries;
  es ← variation_entries wg1 wg2 items;
  Ok {| pr_page := page; pr_entries := es; pr_lastPage := Some lastPage;
        pr_total := Some total; pr_error := false |}.

(** What [safe_request] hands to [load_variations_barcodes_page]: a
    response with its status and, if the body is JSON, the decoded body. *)
Record json_response : Type := {
  jr_status : Z;
  jr_json : option json
}.

(** [load_variations_barcodes_page(baseurl, headers, page, wg1, wg2)], given
    the outcome [t] of its request and integer ids [wg1], [wg2].
    [not t or t.status_code != 200] holds for [None] and for every status
    but 200.  The copy of the result that is written to a file for page 1
    and every 50th page is left out ([save_json_data] raises nothing). *)
Definition load_variations_barcodes_page (t : option json_response)
    (page wg1 wg2 : Z) : page_result :=
  match t with
  | None => error_page page
  | Some r =>
      if negb (jr_status r =? 200) then error_page page
      else
        match jr_json r with
        | None => error_page page
        | Some data =>
            match variations_page page wg1 wg2 data with
            | Ok result => result
            | Raise _ => error_page page
            end
        end
  end.

(** ** [process_barcodes] (data_process.py) *)

(** The file [all_variation_barcodes.json]. *)
Inductive json_file : Type :=
  | NoFile
  | NotJson
  | Content (data : json).

(** The body of [for entry in entries]: the row appended for an entry with
    a WG1 or a WG2 code, if any. *)
Definition barcode_row (entry : json) : result (option (list (string * json))) :=
  wg1 ← py_get entry "wg1" JNull;
  wg2 ← py_get entry "wg2" JNull;
  if negb (is_none wg1) || negb (is_none wg2) then
    variation_id ← py_get entry "variation_id" JNull;
    Ok (Some [("variation_id", variation_id); ("wg1", wg1); ("wg2", wg2)])
  else Ok None.

Fixpoint barcode_rows (entries : list json)
    (filtered_entries : list (list (string * json)))
    : result (list (list (string * json))) :=
  match entries with
  | [] => Ok filtered_entries
  | entry :: rest =>
      row ← barcode_row entry;
      barcode_rows rest
        (match row with
         | Some r => (filtered_entries ++ [r])%list
         | None => filtered_entries
         end)
  end.

(** The [try] block of [process_barcodes] once the file is loaded. *)
Definition process_barcodes_body (barcode_data : json)
    : result (list (list (string * json))) :=
  entries ← py_get barcode_data "entries" (JList []);
  if negb (json_truth entries) then Ok []
  else
    _ ← json_len entries;
    items ← json_iter entries;
    barcode_rows items [].

(** [process_barcodes()]: the rows it returns, given that [barcodes.csv]
    and its metadata file, which it writes when there is a row at least,
    can be written. *)
Definition process_barcodes (barcode_file : json_file) : list (list (string * json)) :=
  match barcode_file with
  | NoFile | NotJson => []
  | Content barcode_data =>
      match process_barcodes_body barcode_data with
      | Ok filtered_entries => filtered_entries
      | Raise _ => []
      end
  end.

(* ===================================================================== *)
(** * Part X — data_process.py: the page files of a date directory *)
(* ===================================================================== *)

(** [name.endswith(suffix)] *)
Definition ends_with (suffix name : string) : bool :=
  let n := String.length name in
  let k := String.length suffix in
  (k <=? n)%nat && String.eqb (String.substring (n - k) k name) suffix.

(** Whether a file name matches the pattern [{type_name}_page_*.csv] of
    [process_date_directory], for a type name without the pattern
    characters [*], [?] and [[] (the three report types have none): the
    name starts with [{type_name}_page_], ends with [.csv], and the two do
    not overlap. *)
Definition is_page_csv (type_name name : string) : bool :=
  let stem := type_name ++ "_page_" in
  String.prefix stem name && ends_with ".csv" name
  && (String.length stem + 4 <=? String.length name)%nat.

(** [list(date_dir.glob(f"{type_name}_page_*.csv"))], in the order of the
    directory listing. *)
Definition page_csv_files (type_name : string) (dir : gmap string file) : list string :=
  filter (fun name => is_page_csv type_name name = true) (map fst (map_to_list dir)).

(* ===================================================================== *)
(** * Part XI — vocabulary of the further properties *)
(* ===================================================================== *)

Section CoercionVocabulary.
Context {L : DateTimeLib}.


End CoercionVocabulary.

(** No space in the text. *)
Definition no_space (s : string) : bool :=
  forallb (fun c => negb (Ascii.eqb c " "%char)) (list_ascii_of_string s).

(** The characters [int(str)] can accept: digits, the underscore, a sign
    and white space. *)
Definition int_char (c : ascii) : bool :=
  py_isdigit c || Ascii.eqb c "_"%char || Ascii.eqb c "-"%char
  || Ascii.eqb c "+"%char || py_isspace c.

(** The characters of the texts [Decimal(str)] accepts, once in lower case
    and without underscores: digits, the point, the signs, and the letters
    of the exponent, of [infinity] and of [snan]. *)
Definition decimal_body_char (c : ascii) : bool :=
  py_isdigit c
  || existsb (Ascii.eqb c)
       ["."; "+"; "-"; "e"; "i"; "n"; "f"; "t"; "y"; "a"; "s"]%char.

(** The characters [Decimal(str)] can accept. *)
Definition decimal_char (c : ascii) : bool :=
  decimal_body_char (lower_char c) || Ascii.eqb c "_"%char || py_isspace c.

(** A request that got no response: the call raised. *)
Definition unanswered (o : outcome) : bool :=
  match o with Responded _ => false | _ => true end.

(** No request is answered in time. *)
Definition net_timeout : network := fun _ _ => Timeout.

(** The waits of [n] failed attempts in a row after [current_retry] earlier
    ones: five seconds more each time. *)
Definition backoff (current_retry : Z) (n : nat) : list Z :=
  map (fun i => 5 * (current_retry + Z.of_nat i)) (seq 1 n).

(** What a fetch for [date] may change: [w'] has the status file of [w],
    the directories of the other dates as they are in [w], and every file
    of the directory of [date] that [w] has (possibly rewritten). *)
Definition keeps_other_dates (date : string) (w w' : world) : Prop :=
  status_file w' = status_file w
  /\ (forall d, d <> date -> data_dir w' !! d = data_dir w !! d)
  /\ (forall name, is_Some (file_at w date name) -> is_Some (file_at w' date name)).

(** The state of the page loop of a report type against the world [w] it
    started in.  [next] is the page the loop has reached when it has ended,
    and the page the checkpoint makes the next run start with when it is
    still running.  The checkpoint has not moved back, no page file from
    [next] on has been touched, and every page from [page] up to [next] has
    been requested. *)
Definition behind_checkpoint (date data_type version : string) (page : Z)
    (w : world) (res : run Z) : Prop :=
  let next := match res with
              | Finished pg _ => pg
              | Running w' => resume_page w' date data_type
              end in
  resume_page w date data_type <= next
  /\ (forall p, next <= p ->
        file_at (world_of res) date (page_file data_type p)
        = file_at w date (page_file data_type p)
        /\ file_at (world_of res) date (page_file_latin1 data_type p)
           = file_at w date (page_file_latin1 data_type p))
  /\ exists new : list request,
       attempts (world_of res) = (attempts w ++ new)%list
       /\ forall p, page <= p < next ->
            page_request date data_type version p ∈ new.

(** The cut point before piece [i] of [chunks]. *)
Definition chunk_cut (len n : Z) (i : nat) : nat :=
  Z.to_nat (Z.of_nat i * (len / n) + Z.min (Z.of_nat i) (len mod n)).

(** Whether a JSON value is a [dict]. *)
Definition is_dict (v : json) : bool :=
  match v with JDict _ => true | _ => false end.

(** The field of a dict, [None] when absent. *)
Definition field (key : string) (v : json) : json :=
  match v with
  | JDict d => match assoc key d with Some x => x | None => JNull end
  | _ => JNull
  end.

(** An entry with a WG1 or a WG2 code, and its three columns. *)
Definition has_wg_code (entry : json) : bool :=
  negb (is_none (field "wg1" entry)) || negb (is_none (field "wg2" entry)).

Definition barcode_columns (entry : json) : list (string * json) :=
  [("variation_id", field "variation_id" entry);
   ("wg1", field "wg1" entry); ("wg2", field "wg2" entry)].

(** The id of the last entry named [name], if there is such an entry. *)
Fixpoint last_id_named (name : string) (entries : list json) : option json :=
  match entries with
  | [] => None
  | entry :: rest =>
      match last_id_named name rest with
      | Some v => Some v
      | None =>
          if json_is_str (field "name" entry) name
          then Some (field "id" entry) else None
      end
  end.

(** The code of the last barcode whose id satisfies [p], if there is one. *)
Fixpoint last_code (p : json -> bool) (barcodes : list json) : option json :=
  match barcodes with
  | [] => None
  | bc :: rest =>
      match last_code p rest with
      | Some v => Some v
      | None => if p (field "barcodeId" bc) then Some (field "code" bc) else None
      end
  end.

(** The entry made from an item of the response: its barcodes are dicts,
    its [wg1] is the code of the last barcode with the id [wg1], its [wg2]
    the code of the last barcode with the id [wg2] that has not the id
    [wg1] as well, each [None] when there is no such barcode. *)
Definition entry_of_item (wg1 wg2 : Z) (item : json) (e : variation_entry) : Prop :=
  exists barcodes,
    (py_get item "variationBarcodes" (JList []) ≫= json_iter) = Ok barcodes
    /\ forallb is_dict barcodes = true
    /\ ve_variation_id e = field "id" item
    /\ ve_wg1 e = default JNull (last_code (fun i => json_eq_int i wg1) barcodes)
    /\ ve_wg2 e = default JNull
                    (last_code (fun i => negb (json_eq_int i wg1) && json_eq_int i wg2)
                       barcodes).

(** ** Further worlds and servers for the examples *)

(** Eleven dates, newest first, and a world whose status file records
    them. *)
Definition eleven_days : list string :=
  ["2024-03-11"; "2024-03-10"; "2024-03-09"; "2024-03-08"; "2024-03-07";
   "2024-03-06"; "2024-03-05"; "2024-03-04"; "2024-03-03"; "2024-03-02";
   "2024-03-01"].

Definition eleven_done_world : world := write_status eleven_days empty_world.

(** A response with a small page. *)
Definition small_page : response :=
  {| status_code := 200; retry_after := None; content := "o_id,o_type" |}.

(** Every page is answered 503. *)
Definition net_unavailable : network := fun _ _ => respond 503 None.

(* ===================================================================== *)
(** * Part XII — properties of value and row coercion *)
(* ===================================================================== *)



Lemma pretty_N_char_digit (x : N) : py_isdigit (pretty_N_char x) = true.
Proof.
  unfold pretty_N_char.
  destruct x as [|p]; [reflexivity|].
  do 4 (try (destruct p as [p|p|]; try reflexivity)).
Qed.




Lemma assoc_Some_keys {V} (k : string) (d : list (string * V)) (v : V) :
  assoc k d = Some v -> k ∈ keys d.
Proof.
  induction d as [|[k' v'] d IH]; simpl; [discriminate|].
  destruct (String.eqb_spec k k') as [->|Hne]; intros H.
  - apply elem_of_cons. now left.
  - apply elem_of_cons. right. now apply IH.
Qed.

Lemma keys_assoc {V} (k : string) (d : list (string * V)) :
  k ∈ keys d -> exists v, assoc k d = Some v.
Proof.
  induction d as [|[k' v'] d IH]; simpl; intros Hin.
  - inversion Hin.
  - destruct (String.eqb_spec k k') as [->|Hne]; [eauto|].
    apply elem_of_cons in Hin as [->|Hin]; [congruence|]. now apply IH.
Qed.

Lemma keys_setitem {V} (d : list (string * V)) (k : string) (v : V) :
  k ∉ keys d -> keys (setitem d k v) = (keys d ++ [k])%list.
Proof.
  unfold keys.
  induction d as [|[k' v'] d IH]; simpl; intros Hnot; [reflexivity|].
  apply not_elem_of_cons in Hnot as [Hne Hnot].
  destruct (String.eqb_spec k k') as [->|_]; [congruence|].
  simpl. now rewrite IH.
Qed.

Lemma assoc_setitem_eq {V} (d : list (string * V)) (k : string) (v : V) :
  assoc k (setitem d k v) = Some v.
Proof.
  induction d as [|[k' v'] d IH]; simpl.
  - now rewrite String.eqb_refl.
  - destruct (String.eqb_spec k k') as [->|Hne]; simpl.
    + now rewrite String.eqb_refl.
    + destruct (String.eqb_spec k k'); [congruence|assumption].
Qed.

Lemma assoc_setitem_ne {V} (d : list (string * V)) (k k0 : string) (v : V) :
  k0 <> k -> assoc k0 (setitem d k v) = assoc k0 d.
Proof.
  intros Hne. induction d as [|[k' v'] d IH]; simpl.
  - destruct (String.eqb_spec k0 k); [congruence|reflexivity].
  - destruct (String.eqb_spec k k') as [->|Hkk']; simpl.
    + destruct (String.eqb_spec k0 k'); [congruence|reflexivity].
    + destruct (String.eqb_spec k0 k'); [reflexivity|assumption].
Qed.

(** The three schemas have no repeated column. *)
Lemma COLUMNS_NoDup (type_name : string) (schema : list (string * SQLType)) :
  assoc type_name COLUMNS = Some schema -> NoDup (keys schema).
Proof.
  unfold COLUMNS. simpl.
  repeat (destruct (String.eqb type_name _);
          [intros [= <-]; apply (bool_decide_unpack _); vm_compute; reflexivity|]).
  discriminate.
Qed.

Lemma column_type_Ok (type_name key : string) (ty : SQLType) :
  column_type type_name key = Ok ty <->
  exists schema, assoc type_name COLUMNS = Some schema /\ assoc key schema = Some ty.
Proof.
  unfold column_type, getitem, mbind, result_bind.
  destruct (assoc type_name COLUMNS) as [schema|].
  - destruct (assoc key schema) as [ty'|] eqn:E.
    + split; [intros [= <-]; eauto|intros (s & [= <-] & H); congruence].
    + split; [discriminate|intros (s & [= <-] & H); congruence].
  - split; [discriminate|intros (s & H & _); discriminate].
Qed.

Section CoercionFacts.
Context {L : DateTimeLib}.

Lemma clean_value_declared (type_name key : string) (ty : SQLType) (v : raw) :
  column_type type_name key = Ok ty ->
  clean_value type_name key v =
    if is_empty v then Ok VNone
    else match convert ty v with
         | Ok r => Ok r
         | Raise _ => Ok (default_value ty)
         end.
Proof.
  intros H. unfold clean_value, clean_value_body, clean_value_default.
  rewrite H. destruct (is_empty v); [reflexivity|].
  simpl. unfold mbind, result_bind. destruct (convert ty v); reflexivity.
Qed.

Lemma clean_value_returns (type_name key : string) (ty : SQLType) (v : raw) :
  column_type type_name key = Ok ty ->
  exists r, clean_value type_name key v = Ok r.
Proof.
  intros Hty. rewrite (clean_value_declared _ _ _ _ Hty).
  destruct (is_empty v); [eauto|]. destruct (convert ty v); eauto.
Qed.

End CoercionFacts.

Section CoercionTheorems.
Context {L : DateTimeLib}.





Lemma process_columns_spec (type_name : string) (schema : list (string * SQLType))
    (row : gmap string raw) :
  assoc type_name COLUMNS = Some schema ->
  forall (ks : list string) (acc : list (string * value)),
    NoDup ks ->
    (forall k, k ∈ ks -> k ∈ keys schema) ->
    (forall k, k ∈ ks -> k ∉ keys acc) ->
    exists r,
      process_columns type_name ks row acc = Ok r
      /\ keys r = (keys acc ++ ks)%list
      /\ (forall k, k ∈ ks -> row !! k = None -> assoc k r = Some VNone)
      /\ (forall k x, k ∈ ks -> row !! k = Some x ->
            exists c, clean_value type_name k x = Ok c /\ assoc k r = Some c)
      /\ (forall k, k ∉ ks -> assoc k r = assoc k acc).
Proof.
  intros Hschema ks. induction ks as [|key ks IH]; intros acc Hnd Hdecl Hfresh.
  - exists acc. simpl. rewrite app_nil_r.
    split; [reflexivity|]. split; [reflexivity|].
    split; [intros k Hin; inversion Hin|].
    split; [intros k x Hin; inversion Hin|]. reflexivity.
  - apply NoDup_cons in Hnd as [Hkey Hnd].
    assert (Hcell : exists c,
      match row !! key with
      | Some x => clean_value type_name key x
      | None => Ok VNone
      end = Ok c
      /\ (row !! key = None -> c = VNone)
      /\ (forall x, row !! key = Some x -> clean_value type_name key x = Ok c)).
    { destruct (row !! key) as [x|] eqn:Hrow.
      - destruct (keys_assoc key schema) as [ty Hk].
        { apply Hdecl. left. }
        assert (Hty : column_type type_name key = Ok ty).
        { apply column_type_Ok. eauto. }
        destruct (clean_value_returns type_name key ty x Hty) as [c Hc].
        exists c. split; [assumption|]. split; [discriminate|].
        now intros x' [= <-].
      - exists VNone. split; [reflexivity|]. split; [reflexivity|discriminate]. }
    destruct Hcell as (c & Hc & HcNone & HcSome).
    destruct (IH (setitem acc key c)) as (r & Hr & Hkeys & Hnone & Hsome & Hother).
    + assumption.
    + intros k Hk. apply Hdecl. now right.
    + intros k Hk. rewrite keys_setitem by (apply Hfresh; left).
      intros Hin. apply elem_of_app in Hin as [Hin|Hin].
      * revert Hin. apply Hfresh. now right.
      * apply list_elem_of_singleton in Hin as ->. contradiction.
    + exists r. simpl. rewrite Hc. simpl. unfold mbind, result_bind.
      split; [exact Hr|].
      rewrite keys_setitem in Hkeys by (apply Hfresh; left).
      split; [now rewrite Hkeys, <- app_assoc|].
      split; [|split].
      * intros k Hin Hrow. apply elem_of_cons in Hin as [->|Hin].
        { rewrite Hother by assumption. rewrite assoc_setitem_eq.
          now rewrite HcNone. }
        { now apply Hnone. }
      * intros k x Hin Hrow. apply elem_of_cons in Hin as [->|Hin].
        { exists c. split; [now apply HcSome|].
          rewrite Hother by assumption. apply assoc_setitem_eq. }
        { now apply Hsome. }
      * intros k Hk. apply not_elem_of_cons in Hk as [Hne Hk].
        rewrite Hother by assumption. now apply assoc_setitem_ne.
Qed.

(** C4 — for every table of [COLUMNS] and every raw row, the row loop of
    [process_csv_file] produces an output row (the row is never dropped),
    whose columns are exactly the columns of the schema in schema order;
    a column absent from the raw row holds [None], a column present holds
    what [clean_value] returns.  Hence every row of the result has every
    declared column, and [save_processed_data] writes the schema columns. *)
Theorem process_row_complete (type_name : string)
    (schema : list (string * SQLType)) :
  assoc type_name COLUMNS = Some schema ->
  (forall row : gmap string raw,
     exists processed_row,
       process_row type_name row = Ok processed_row
       /\ keys processed_row = keys schema
       /\ (forall key, key ∈ keys schema -> row !! key = None ->
             assoc key processed_row = Some VNone)
       /\ (forall key x, key ∈ keys schema -> row !! key = Some x ->
             exists c, clean_value type_name key x = Ok c
                       /\ assoc key processed_row = Some c))
  /\ (forall data : list (gmap string raw),
        length (process_rows type_name data) = length data
        /\ Forall (fun processed_row => keys processed_row = keys schema)
             (process_rows type_name data))
  /\ (forall data, save_columns type_name data = Ok (keys schema)).
Proof.
  intros Hschema.
  assert (Hrow : forall row : gmap string raw,
     exists processed_row,
       process_row type_name row = Ok processed_row
       /\ keys processed_row = keys schema
       /\ (forall key, key ∈ keys schema -> row !! key = None ->
             assoc key processed_row = Some VNone)
       /\ (forall key x, key ∈ keys schema -> row !! key = Some x ->
             exists c, clean_value type_name key x = Ok c
                       /\ assoc key processed_row = Some c)).
  { intros row.
    destruct (process_columns_spec type_name schema row Hschema (keys schema) [])
      as (r & Hr & Hkeys & Hnone & Hsome & _).
    - eapply COLUMNS_NoDup; eassumption.
    - auto.
    - intros k _ Hin. inversion Hin.
    - exists r. unfold process_row, getitem. rewrite Hschema. simpl.
      unfold mbind, result_bind. auto. }
  split; [exact Hrow|]. split.
  - intros data. induction data as [|row data [IHlen IHall]]; simpl.
    + split; [reflexivity|constructor].
    + destruct (Hrow row) as (r & -> & Hkeys & _). simpl.
      split; [now rewrite IHlen|]. constructor; assumption.
  - intros data. unfold save_columns, getitem. rewrite Hschema. simpl.
    unfold mbind, result_bind.
    set (cols0 := frame_columns data). clearbody cols0.
    assert (Hfold : forall ks cols,
      let out := fold_left (fun cols column =>
                   if str_in column cols then cols else (cols ++ [column])%list)
                   ks cols in
      (forall k, str_in k cols = true -> str_in k out = true)
      /\ (forall k, k ∈ ks -> str_in k out = true)).
    { clear. induction ks as [|k0 ks IH]; intros cols; simpl.
      - split; [auto|]. intros k Hin. inversion Hin.
      - destruct (str_in k0 cols) eqn:E.
        + destruct (IH cols) as [IH1 IH2]. split; [exact IH1|].
          intros k Hin. apply elem_of_cons in Hin as [->|Hin]; auto.
        + destruct (IH (cols ++ [k0])%list) as [IH1 IH2].
          assert (Hmono : forall k, str_in k cols = true \/ k = k0 ->
                    str_in k (cols ++ [k0])%list = true).
          { intros k Hk. unfold str_in. rewrite existsb_app. simpl.
            destruct Hk as [Hk| ->].
            - unfold str_in in Hk. now rewrite Hk.
            - rewrite String.eqb_refl. now rewrite orb_true_r. }
          split.
          * intros k Hk. apply IH1, Hmono. now left.
          * intros k Hin. apply elem_of_cons in Hin as [->|Hin]; [|auto].
            apply IH1, Hmono. now right. }
    destruct (Hfold (keys schema) cols0) as [_ Hall].
    rewrite (proj2 (forallb_forall _ _)); [reflexivity|].
    intros k Hin. apply Hall. now apply list_elem_of_In.
Qed.

End CoercionTheorems.

(** ** Instances of the theorems at concrete inputs *)






Lemma process_row_complete_witness :
  exists schema processed_row,
    assoc "orderItems" COLUMNS = Some schema
    /\ process_row "orderItems" {[ "oi_id" := RStr "5" ]} = Ok processed_row
    /\ keys processed_row = keys schema
    /\ assoc "oi_quantity" processed_row = Some VNone.
Proof.
  eexists.
  assert (H : assoc "orderItems" COLUMNS = Some _) by reflexivity.
  destruct (proj1 (process_row_complete "orderItems" _ H) {[ "oi_id" := RStr "5" ]})
    as (r & Hr & Hkeys & Hnone & _).
  exists r. split; [exact H|]. split; [exact Hr|]. split; [exact Hkeys|].
  apply Hnone; [|reflexivity].
  apply (bool_decide_unpack _). vm_compute. reflexivity.
Defined.

(* ===================================================================== *)
(** * Part XIII — properties of [safe_request] *)
(* ===================================================================== *)

Lemma time_sleep_Ok (secs : Z) (w w' : world) :
  time_sleep secs w = Ok w' ->
  attempts w' = attempts w /\ sleeps w' = (sleeps w ++ [secs])%list
  /\ data_dir w' = data_dir w /\ status_file w' = status_file w.
Proof.
  unfold time_sleep. destruct ((0 <=? secs) && (secs <=? SLEEP_MAX)); [|discriminate].
  intros [= <-]. repeat split.
Qed.

Lemma time_sleep_accepts (secs : Z) (w : world) :
  0 <= secs <= SLEEP_MAX -> time_sleep secs w = Ok (pause secs w).
Proof.
  intros [H1 H2]. unfold time_sleep.
  apply Z.leb_le in H1. apply Z.leb_le in H2. now rewrite H1, H2.
Qed.

Lemma repeat_snoc {A} (x : A) (k : nat) : (x :: repeat x k = repeat x k ++ [x])%list.
Proof. induction k as [|k IH]; simpl; [reflexivity|]. now rewrite <- IH. Qed.

(** What one call of [safe_request] does to the world: it sends the same
    request some number of times, at most [fuel] and at most
    [retry_count - current_retry] times, writes no file, and a response it
    returns is one the network gave to that request. *)
Lemma safe_request_loop_spec (net : network) (method : string) (u : url)
    (retry_count : Z) :
  let rq := {| rq_method := py_lower method; rq_url := u |} in
  forall (fuel : nat) (current_retry : Z) (w : world),
    exists k : nat,
      let '(t, w') := safe_request_loop net fuel method u retry_count current_retry w in
      attempts w' = (attempts w ++ repeat rq k)%list
      /\ (k <= fuel)%nat
      /\ Z.of_nat k <= Z.max 0 (retry_count - current_retry)
      /\ data_dir w' = data_dir w
      /\ status_file w' = status_file w
      /\ (forall r, t = Some r ->
            status_code r <> 429 /\ exists hist, net hist rq = Responded r)
      /\ (fuel <> O -> current_retry < retry_count ->
          (py_lower method = "get" \/ py_lower method = "post") -> k <> O).
Proof.
  intros rq fuel. induction fuel as [|fuel IH]; intros current_retry w.
  - exists O. simpl. rewrite app_nil_r.
    repeat split; try lia; try discriminate.
  - simpl. destruct (Z.ltb_spec current_retry retry_count) as [Hlt|Hge]; simpl.
    2:{ exists O. simpl. rewrite app_nil_r.
        repeat split; try lia; try discriminate. }
    destruct (String.eqb_spec (py_lower method) "get") as [Hget|Hnget];
      [|destruct (String.eqb_spec (py_lower method) "post") as [Hpost|Hnpost]];
      simpl.
    3:{ exists O. simpl. rewrite app_nil_r.
        repeat split; try lia; try discriminate. intros _ _ [?|?]; congruence. }
    all: fold rq.
    all: assert (Hstep : forall w1 : world,
           attempts w1 = (attempts w ++ [rq])%list ->
           data_dir w1 = data_dir w -> status_file w1 = status_file w ->
           exists k : nat,
             let '(t, w') := safe_request_loop net fuel method u retry_count
                               (current_retry + 1) w1 in
             attempts w' = (attempts w ++ repeat rq k)%list
             /\ (k <= S fuel)%nat
             /\ Z.of_nat k <= Z.max 0 (retry_count - current_retry)
             /\ data_dir w' = data_dir w
             /\ status_file w' = status_file w
             /\ (forall r, t = Some r ->
                   status_code r <> 429 /\ exists hist, net hist rq = Responded r)
             /\ (S fuel <> O -> current_retry < retry_count ->
                 (py_lower method = "get" \/ py_lower method = "post") -> k <> O))
      by (intros w1 Ha Hd Hs;
          destruct (IH (current_retry + 1) w1) as [k Hk];
          exists (S k);
          destruct (safe_request_loop net fuel method u retry_count
                      (current_retry + 1) w1) as [t w'];
          destruct Hk as (Hk1 & Hk2 & Hk3 & Hk4 & Hk5 & Hk6 & _);
          rewrite Hk1, Ha, <- app_assoc; simpl;
          repeat split; try lia; try congruence; apply Hk6; assumption).
    all: destruct (net (attempts w) rq) as [r| | |] eqn:Hnet.
    all: try (apply Hstep; reflexivity).
    all: destruct (Z.eqb_spec (status_code r) 429) as [H429|Hn429].
    all: try (destruct (time_sleep (rate_limit_wait r) (send rq w)) as [w2|e] eqn:Hs;
              [apply time_sleep_Ok in Hs as (Ha & _ & Hd & Hf);
               apply Hstep; [rewrite Ha|rewrite Hd|rewrite Hf]; reflexivity
              |apply Hstep; reflexivity]).
    all: exists 1%nat; simpl;
         split; [reflexivity|]; split; [lia|]; split; [lia|];
         split; [reflexivity|]; split; [reflexivity|];
         split; [intros r' [= <-]; split; [assumption|eauto]
                |intros; discriminate].
Qed.

(** More fuel than [retry_count - current_retry] changes nothing: the loop
    of [safe_request] always ends, and [safe_request] is its result. *)
Lemma safe_request_loop_fuel (net : network) (method : string) (u : url)
    (retry_count : Z) :
  forall (fuel1 fuel2 : nat) (current_retry : Z) (w : world),
    (Z.to_nat (retry_count - current_retry) <= fuel1)%nat ->
    (Z.to_nat (retry_count - current_retry) <= fuel2)%nat ->
    safe_request_loop net fuel1 method u retry_count current_retry w =
    safe_request_loop net fuel2 method u retry_count current_retry w.
Proof.
  induction fuel1 as [|fuel1 IH]; intros fuel2 current_retry w H1 H2.
  - destruct fuel2 as [|fuel2]; [reflexivity|]. simpl.
    destruct (Z.ltb_spec current_retry retry_count); [lia|reflexivity].
  - destruct fuel2 as [|fuel2]; simpl.
    + destruct (Z.ltb_spec current_retry retry_count); [lia|reflexivity].
    + destruct (Z.ltb_spec current_retry retry_count); [|reflexivity]. simpl.
      destruct (negb _); [reflexivity|].
      assert (Hrec : forall w1,
        safe_request_loop net fuel1 method u retry_count (current_retry + 1) w1 =
        safe_request_loop net fuel2 method u retry_count (current_retry + 1) w1)
        by (intros w1; apply IH; lia).
      destruct (net _ _) as [r| | |]; try apply Hrec.
      destruct (status_code r =? 429); [|reflexivity].
      destruct (time_sleep _ _); apply Hrec.
Qed.

(** C6 (amended) — when a request of [safe_request] is answered 429, the
    wait is the integer of the [Retry-After] header when the header is
    present and parses, and 60 otherwise; when [time.sleep] accepts that
    wait (it is not negative and not above [SLEEP_MAX]), the wrapper sleeps
    that long and goes on with the same request, one attempt further: a 429
    uses up one of the [retry_count] attempts.  If it was the last one the result is [None];
    in all, [safe_request] sends the request at most [retry_count] times,
    whatever the responses. *)
Theorem safe_request_rate_limit (net : network) (method : string) (u : url)
    (retry_count current_retry : Z) (fuel : nat) (w : world) (r : response) :
  let rq := {| rq_method := py_lower method; rq_url := u |} in
  (py_lower method = "get" \/ py_lower method = "post") ->
  current_retry < retry_count ->
  net (attempts w) rq = Responded r ->
  status_code r = 429 ->
  (retry_after r = None -> rate_limit_wait r = 60)
  /\ (forall h, retry_after r = Some h -> int_of_str h = None ->
        rate_limit_wait r = 60)
  /\ (forall h n, retry_after r = Some h -> int_of_str h = Some n ->
        rate_limit_wait r = n)
  /\ (0 <= rate_limit_wait r <= SLEEP_MAX ->
      safe_request_loop net (S fuel) method u retry_count current_retry w =
      safe_request_loop net fuel method u retry_count (current_retry + 1)
        {| attempts := attempts w ++ [rq];
           sleeps := sleeps w ++ [rate_limit_wait r];
           data_dir := data_dir w; status_file := status_file w |})
  /\ (0 <= rate_limit_wait r <= SLEEP_MAX ->
      current_retry + 1 = retry_count ->
      fst (safe_request_loop net (S fuel) method u retry_count current_retry w)
      = None)
  /\ (forall w0, exists k : nat,
        attempts (snd (safe_request net method u retry_count w0))
        = (attempts w0 ++ repeat rq k)%list
        /\ Z.of_nat k <= Z.max 0 retry_count).
Proof.
  intros rq Hmethod Hlt Hnet H429.
  assert (Hstep : 0 <= rate_limit_wait r <= SLEEP_MAX ->
      safe_request_loop net (S fuel) method u retry_count current_retry w =
      safe_request_loop net fuel method u retry_count (current_retry + 1)
        {| attempts := attempts w ++ [rq];
           sleeps := sleeps w ++ [rate_limit_wait r];
           data_dir := data_dir w; status_file := status_file w |}).
  { intros Hwait. simpl.
    destruct (Z.ltb_spec current_retry retry_count); [|lia]. simpl.
    replace (String.eqb (py_lower method) "get" || String.eqb (py_lower method) "post")
      with true.
    2:{ destruct Hmethod as [-> | ->]; reflexivity. }
    simpl. fold rq. rewrite Hnet, H429. simpl.
    rewrite time_sleep_accepts by assumption. reflexivity. }
  split; [|split; [|split; [|split; [|split]]]].
  - unfold rate_limit_wait. now intros ->.
  - unfold rate_limit_wait. now intros h -> ->.
  - unfold rate_limit_wait. now intros h n -> ->.
  - exact Hstep.
  - intros Hwait Hlast. rewrite (Hstep Hwait).
    destruct fuel as [|fuel]; [reflexivity|]. simpl.
    destruct (Z.ltb_spec (current_retry + 1) retry_count); [lia|reflexivity].
  - intros w0. unfold safe_request.
    destruct (safe_request_loop_spec net method u retry_count
                (Z.to_nat retry_count) 0 w0) as [k Hk].
    exists k. fold rq in Hk.
    destruct (safe_request_loop net (Z.to_nat retry_count) method u retry_count 0 w0)
      as [t w'].
    destruct Hk as (Hk1 & _ & Hk3 & _). simpl. split; [exact Hk1|].
    now rewrite Z.sub_0_r in Hk3.
Qed.

Lemma safe_request_rate_limit_witness :
  safe_request_loop net_429_then_200 3 "get" (orders_page 1) 3 0 empty_world =
  safe_request_loop net_429_then_200 2 "get" (orders_page 1) 3 1
    {| attempts := [get_orders_page 1]; sleeps := [1];
       data_dir := ∅; status_file := None |}.
Proof.
  refine (proj1 (proj2 (proj2 (proj2
    (safe_request_rate_limit net_429_then_200 "get" (orders_page 1) 3 0 2
       empty_world
       {| status_code := 429; retry_after := Some "1"; content := "o_id,o_type" |}
       _ _ _ _)))) _).
  - left. reflexivity.
  - lia.
  - reflexivity.
  - reflexivity.
  - vm_compute. split; discriminate.
Defined.

(** C6 as stated fails: three answers 429 use up the three attempts, and
    [safe_request] gives up although the next attempt would have been
    answered 200; and a [Retry-After] of -5 parses, but the wrapper cannot
    sleep that long and sleeps 10 s instead. *)
Lemma safe_request_429_counterexample :
  safe_request net_429_then_200 "get" (orders_page 1) 3 empty_world
  = (None, {| attempts := repeat (get_orders_page 1) 3; sleeps := [1; 1; 1];
              data_dir := ∅; status_file := None |})
  /\ net_429_then_200 (repeat (get_orders_page 1) 3) (get_orders_page 1)
     = respond 200 None
  /\ int_of_str "-5" = Some (-5)
  /\ sleeps (snd (safe_request net_429_negative "get" (orders_page 1) 3 empty_world))
     = [10; 10; 10].
Proof.
  split; [vm_compute; reflexivity|]. split; [reflexivity|].
  split; vm_compute; reflexivity.
Qed.

(* ===================================================================== *)
(** * Part XIV — properties of the page loop *)
(* ===================================================================== *)

(** [safe_request] as the page loop calls it: at least one request is sent,
    all for the same page, and no file is touched. *)
Lemma safe_request_get (net : network) (u : url) (w : world) :
  let rq := {| rq_method := "get"; rq_url := u |} in
  exists k : nat,
    let '(t, w1) := safe_request net "get" u REQUEST_RETRIES w in
    attempts w1 = (attempts w ++ rq :: repeat rq k)%list
    /\ data_dir w1 = data_dir w
    /\ status_file w1 = status_file w
    /\ (forall r, t = Some r ->
          status_code r <> 429 /\ exists hist, net hist rq = Responded r).
Proof.
  intros rq. unfold safe_request.
  destruct (safe_request_loop_spec net "get" u REQUEST_RETRIES
              (Z.to_nat REQUEST_RETRIES) 0 w) as [k Hk].
  change {| rq_method := py_lower "get"; rq_url := u |} with rq in Hk.
  destruct (safe_request_loop net (Z.to_nat REQUEST_RETRIES) "get" u
              REQUEST_RETRIES 0 w) as [t w1].
  destruct Hk as (Hk1 & _ & _ & Hk4 & Hk5 & Hk6 & Hk7).
  destruct k as [|k].
  - exfalso. apply Hk7; [discriminate|reflexivity|left; reflexivity|reflexivity].
  - exists k. auto.
Qed.

Lemma attempts_save_page (date data_type version : string) (page : Z)
    (r : response) (w : world) :
  attempts (save_page date data_type version page r w) = attempts w.
Proof. unfold save_page. destruct (decodes_utf8 _); reflexivity. Qed.

(** The branches [t and t.status_code == 404], [== 500] and [== 429] are
    never taken: a response with an error status is false. *)
Lemma status_is_error_false (t : option response) (code : Z) :
  400 <= code < 600 -> status_is t code = false.
Proof.
  intros Hcode. unfold status_is, response_bool. destruct t as [r|]; [|reflexivity].
  destruct (Z.eqb_spec (status_code r) code) as [->|]; [|apply andb_false_r].
  destruct (Z.leb_spec 400 code); [|lia].
  destruct (Z.ltb_spec code 600); [reflexivity|lia].
Qed.

Lemma status_is_200 (r : response) :
  status_is (Some r) 200 = (status_code r =? 200).
Proof.
  unfold status_is, response_bool.
  destruct (Z.eqb_spec (status_code r) 200) as [->|]; [reflexivity|].
  now rewrite andb_false_r.
Qed.

Section PageLoop.
Variable net : network.
Variables date data_type version : string.

Let rq_of (page : Z) : request := page_request date data_type version page.

(** The requests of the page loop, for a set [P] of pages closed under the
    two ways the loop advances: after a 200, and after another response
    when the next page is at most 50. *)
Lemma fetch_pages_requests (P : Z -> Prop) :
  (forall p hist r, P p -> net hist (rq_of p) = Responded r ->
     status_code r = 200 -> P (p + 1)) ->
  (forall p, P p -> p + 1 <= 50 -> P (p + 1)) ->
  forall (fuel : nat) (page : Z) (w : world),
    P page ->
    exists new : list request,
      attempts (world_of (fetch_pages net fuel date data_type version page w))
      = (attempts w ++ new)%list
      /\ Forall (fun rq => exists p, P p /\ rq = rq_of p) new
      /\ (fuel <> O -> exists rest, new = rq_of page :: rest).
Proof.
  intros H200 Hskip fuel.
  induction fuel as [|fuel IH]; intros page w HP.
  - exists []. simpl. rewrite app_nil_r. split; [reflexivity|].
    split; [constructor|congruence].
  - simpl.
    destruct (safe_request_get net (ReportFile data_type date page version) w)
      as [k Hk].
    destruct (safe_request net "get" (ReportFile data_type date page version)
                REQUEST_RETRIES w) as [t w1].
    destruct Hk as (Hatt & _ & _ & Hresp).
    fold (page_request date data_type version page) in Hatt, Hresp.
    fold (rq_of page) in Hatt, Hresp.
    assert (Hblock : Forall (fun rq => exists p, P p /\ rq = rq_of p)
                       (rq_of page :: repeat (rq_of page) k)).
    { constructor; [eauto|]. apply Forall_forall. intros x Hx.
      apply list_elem_of_In, repeat_spec in Hx. subst. eauto. }
    assert (Hstop : forall (p : Z) (w2 : world),
      attempts w2 = attempts w1 ->
      exists new : list request,
        attempts (world_of (Finished p w2)) = (attempts w ++ new)%list
        /\ Forall (fun rq => exists p, P p /\ rq = rq_of p) new
        /\ (S fuel <> O -> exists rest, new = rq_of page :: rest)).
    { intros p w2 Hw2. exists (rq_of page :: repeat (rq_of page) k). simpl.
      rewrite Hw2, Hatt. split; [reflexivity|]. split; [exact Hblock|eauto]. }
    assert (Hgo : forall (p : Z) (w2 : world),
      attempts w2 = attempts w1 -> P p ->
      exists new : list request,
        attempts (world_of (fetch_pages net fuel date data_type version p w2))
        = (attempts w ++ new)%list
        /\ Forall (fun rq => exists p, P p /\ rq = rq_of p) new
        /\ (S fuel <> O -> exists rest, new = rq_of page :: rest)).
    { intros p w2 Hw2 HPp. destruct (IH p w2 HPp) as (new & Hnew & Hall & _).
      exists ((rq_of page :: repeat (rq_of page) k) ++ new)%list.
      rewrite Hnew, Hw2, Hatt, <- app_assoc.
      split; [reflexivity|]. split; [|simpl; eauto].
      apply Forall_app. split; assumption. }
    destruct t as [r|]; [|apply Hstop; reflexivity].
    rewrite status_is_200.
    destruct (Z.eqb_spec (status_code r) 200) as [Hst|Hst].
    { apply Hgo; [apply attempts_save_page|].
      destruct (Hresp r eq_refl) as [_ [hist Hhist]]. eapply H200; eassumption. }
    rewrite !status_is_error_false by lia.
    destruct ((400 <=? status_code r) && (status_code r <? 500)
              && negb (status_code r =? 429)).
    + destruct (Z.gtb_spec (page + 1) 50); [apply Hstop; reflexivity|].
      apply Hgo; [reflexivity|]. apply Hskip; [assumption|lia].
    + destruct (Z.gtb_spec page 50); [apply Hstop; reflexivity|].
      apply Hgo; [reflexivity|assumption].
Qed.

End PageLoop.

(** ** Files written by the page loop *)

Lemma file_at_write_file (w : world) (date name : string) (f : file)
    (date' name' : string) :
  file_at (write_file date name f w) date' name' =
    if decide (date = date' /\ name = name') then Some f
    else file_at w date' name'.
Proof.
  unfold file_at, write_file. simpl.
  destruct (decide (date = date')) as [<-|Hd].
  - rewrite lookup_insert_eq. simpl.
    destruct (decide (name = name')) as [<-|Hn].
    + rewrite lookup_insert_eq. now rewrite decide_True.
    + rewrite lookup_insert_ne by assumption.
      rewrite decide_False by (intros [_ ?]; contradiction). reflexivity.
  - rewrite lookup_insert_ne by assumption.
    rewrite decide_False by (intros [? _]; contradiction). reflexivity.
Qed.

Lemma file_at_mkdir (w : world) (date date' name : string) :
  file_at (mkdir date w) date' name = file_at w date' name.
Proof.
  unfold file_at, mkdir. destruct (data_dir w !! date) eqn:E; [reflexivity|].
  simpl. destruct (decide (date = date')) as [<-|Hd].
  - now rewrite lookup_insert_eq, E.
  - now rewrite lookup_insert_ne.
Qed.

Lemma start_page_file_at (data_type date : string) (w : world) :
  start_page data_type (default ∅ (data_dir w !! date)) =
    match file_at w date (metadata_file data_type) with
    | Some (Json m) =>
        let pages_processed := default 0 (md_pages_processed m) in
        if pages_processed >? 0 then pages_processed + 1 else 1
    | _ => 1
    end.
Proof.
  unfold start_page, file_at.
  destruct (default ∅ (data_dir w !! date) !! metadata_file data_type) as [[m|b]|];
    reflexivity.
Qed.

Lemma file_at_save_page (date data_type version : string) (page : Z)
    (r : response) (w : world) (date' name : string) :
  ~ own_name data_type name ->
  file_at (save_page date data_type version page r w) date' name
  = file_at w date' name.
Proof.
  intros Hown. unfold save_page.
  destruct (decodes_utf8 (content r)); rewrite !file_at_write_file;
    rewrite !decide_False; try reflexivity;
    intros [_ <-]; apply Hown; unfold own_name; eauto.
Qed.

(** The page loop of a report type leaves the files of the others alone. *)
Lemma fetch_pages_files (net : network) (date data_type version : string)
    (date' name : string) :
  ~ own_name data_type name ->
  forall (fuel : nat) (page : Z) (w : world),
    file_at (world_of (fetch_pages net fuel date data_type version page w))
      date' name
    = file_at w date' name.
Proof.
  intros Hown fuel. induction fuel as [|fuel IH]; intros page w; [reflexivity|].
  simpl.
  destruct (safe_request_get net (ReportFile data_type date page version) w)
    as [k Hk].
  destruct (safe_request net "get" (ReportFile data_type date page version)
              REQUEST_RETRIES w) as [t w1].
  destruct Hk as (_ & Hdir & _ & _).
  assert (Hw1 : file_at w1 date' name = file_at w date' name)
    by (unfold file_at; now rewrite Hdir).
  destruct t as [r|]; [|exact Hw1].
  destruct (status_is (Some r) 200).
  { rewrite IH. now rewrite file_at_save_page. }
  destruct (status_is (Some r) 404); [exact Hw1|].
  destruct (status_is (Some r) 500); [exact Hw1|].
  destruct (status_is (Some r) 429); [now rewrite IH|].
  destruct ((400 <=? status_code r) && (status_code r <? 500)
            && negb (status_code r =? 429)).
  - destruct (page + 1 >? 50); [exact Hw1|]. now rewrite IH.
  - destruct (page >? 50); [exact Hw1|]. now rewrite IH.
Qed.

Lemma fetch_type_files (net : network) (fuel : nat)
    (date data_type version : string) (w : world) (date' name : string) :
  ~ own_name data_type name ->
  file_at (world_of (fetch_type net fuel date data_type version w)) date' name
  = file_at w date' name.
Proof.
  intros Hown. unfold fetch_type.
  pose proof (fetch_pages_files net date data_type version date' name Hown fuel
                (start_page data_type (default ∅ (data_dir w !! date))) w) as H.
  destruct (fetch_pages net fuel date data_type version _ w) as [page w'|w'];
    simpl in *; [|exact H].
  rewrite file_at_write_file, decide_False; [exact H|].
  intros [_ <-]. apply Hown. now left.
Qed.

(** The checkpoint of a report type is not a file of another report type. *)
Lemma metadata_not_own (data_type other : string) :
  data_type ∈ data_types -> other ∈ data_types -> data_type <> other ->
  ~ own_name other (metadata_file data_type).
Proof.
  unfold data_types. intros Hd Ho Hne [H|[page [H|H]]]; revert H.
  all: repeat (apply elem_of_cons in Hd as [->|Hd]);
       try (apply elem_of_nil in Hd; contradiction).
  all: repeat (apply elem_of_cons in Ho as [->|Ho]);
       try (apply elem_of_nil in Ho; contradiction).
  all: try congruence.
  all: unfold metadata_file, page_file, page_file_latin1;
       try discriminate.
Qed.

(** ** Where a fetch starts *)

Lemma start_page_resume (w : world) (date data_type : string) :
  start_page data_type (default ∅ (data_dir w !! date))
  = resume_page w date data_type.
Proof.
  rewrite start_page_file_at. unfold resume_page, checkpoint_pages.
  destruct (file_at w date (metadata_file data_type)) as [[m|b]|]; try reflexivity.
  simpl. destruct (Z.gtb_spec (default 0 (md_pages_processed m)) 0);
    destruct (Z.ltb_spec 0 (default 0 (md_pages_processed m))); lia || reflexivity.
Qed.

Lemma fetch_type_requests (net : network) (fuel : nat)
    (date data_type version : string) (w : world) :
  let s := resume_page w date data_type in
  exists new : list request,
    attempts (world_of (fetch_type net fuel date data_type version w))
    = (attempts w ++ new)%list
    /\ Forall (fun rq => exists p, s <= p
                 /\ rq = page_request date data_type version p) new
    /\ (fuel <> O -> exists rest,
          new = page_request date data_type version s :: rest).
Proof.
  intros s. unfold fetch_type. rewrite start_page_resume. fold s.
  destruct (fetch_pages_requests net date data_type version (fun p => s <= p))
    with (fuel := fuel) (page := s) (w := w) as (new & Hnew & Hall & Hfirst).
  - intros; lia.
  - intros; lia.
  - lia.
  - exists new.
    destruct (fetch_pages net fuel date data_type version s w) as [page w'|w'];
      simpl in *; auto.
Qed.

Lemma resume_page_preserved (w w' : world) (date data_type : string) :
  file_at w' date (metadata_file data_type) = file_at w date (metadata_file data_type) ->
  resume_page w' date data_type = resume_page w date data_type.
Proof. unfold resume_page, checkpoint_pages. now intros ->. Qed.

Lemma fetch_types_requests (net : network) (fuel : nat) (date data_type : string) :
  data_type ∈ data_types ->
  forall (types : list (string * string)) (w : world),
    (forall t v, (t, v) ∈ types -> t ∈ data_types) ->
    NoDup types.*1 ->
    exists new : list request,
      attempts (world_of (fetch_types net fuel date types w))
      = (attempts w ++ new)%list
      /\ Forall (fun rq => rq_type rq ∈ types.*1) new
      /\ resumes_at new date data_type (resume_page w date data_type).
Proof.
  intros Hdt types. induction types as [|[t v] types IH]; intros w Hin Hnd.
  - exists []. simpl. rewrite app_nil_r. split; [reflexivity|].
    split; [constructor|]. split; [constructor|].
    exists [], []. split; [reflexivity|]. split; [constructor|now left].
  - simpl in Hnd. apply NoDup_cons in Hnd as [Ht Hnd].
    destruct (fetch_type_requests net fuel date t v w) as (new1 & Hnew1 & Hall1 & Hfirst1).
    assert (Htypes1 : Forall (fun rq => rq_type rq = t) new1).
    { eapply Forall_impl; [exact Hall1|]. intros rq (p & _ & ->). reflexivity. }
    assert (Hin' : forall t' v', (t', v') ∈ types -> t' ∈ data_types).
    { intros t' v' H. eapply Hin. right. exact H. }
    simpl.
    pose proof (fetch_type_files net fuel date t v w date (metadata_file data_type)) as Hfiles.
    destruct (fetch_type net fuel date t v w) as [[] w1|w1] eqn:Hft; simpl in *.
    + set (w2 := match types with [] => w1 | _ :: _ => pause 5 w1 end).
      assert (Hw2a : attempts w2 = attempts w1) by (subst w2; destruct types; reflexivity).
      assert (Hw2f : forall name, file_at w2 date name = file_at w1 date name)
        by (intros; subst w2; destruct types; reflexivity).
      destruct (IH w2 Hin' Hnd) as (new2 & Hnew2 & Hall2 & Hres2).
      exists (new1 ++ new2)%list.
      split; [now rewrite Hnew2, Hw2a, Hnew1, app_assoc|].
      split.
      { apply Forall_app. split.
        - eapply Forall_impl; [exact Htypes1|]. intros rq ->. now left.
        - eapply Forall_impl; [exact Hall2|]. intros rq H. now right. }
      destruct (decide (t = data_type)) as [->|Hne].
      * (* this is the report type of interest *)
        assert (Hother : Forall (fun rq => rq_type rq <> data_type) new2).
        { eapply Forall_impl; [exact Hall2|]. intros rq H E. cbv beta in H. rewrite E in H. contradiction. }
        split.
        { apply Forall_app. split.
          - eapply Forall_impl; [exact Hall1|]. intros rq (p & Hp & ->) _. exact Hp.
          - eapply Forall_impl; [exact Hother|]. intros rq H1 H2. contradiction. }
        exists [], (new1 ++ new2)%list. split; [reflexivity|]. split; [constructor|].
        destruct fuel as [|fuel'].
        { (* no fuel: the type cannot have finished *)
          unfold fetch_type in Hft. simpl in Hft. discriminate. }
        destruct Hfirst1 as [rest ->]; [discriminate|]. right. eauto.
      * (* another report type: the checkpoint is untouched *)
        assert (Hsame : resume_page w2 date data_type = resume_page w date data_type).
        { apply resume_page_preserved. rewrite Hw2f. apply Hfiles.
          apply metadata_not_own; [assumption| |congruence].
          eapply Hin. left. }
        rewrite Hsame in Hres2. destruct Hres2 as (Hge2 & before & after & -> & Hb & Ha).
        split.
        { apply Forall_app. split; [|exact Hge2].
          eapply Forall_impl; [exact Htypes1|]. intros rq -> H. contradiction. }
        exists (new1 ++ before)%list, after. split; [now rewrite app_assoc|].
        split; [|exact Ha].
        apply Forall_app. split; [|exact Hb].
        eapply Forall_impl; [exact Htypes1|]. intros rq ->. exact Hne.
    + exists new1. split; [exact Hnew1|]. split.
      { eapply Forall_impl; [exact Htypes1|]. intros rq ->. now left. }
      destruct (decide (t = data_type)) as [->|Hne].
      * split.
        { eapply Forall_impl; [exact Hall1|]. intros rq (p & Hp & ->) _. exact Hp. }
        exists [], new1. split; [reflexivity|]. split; [constructor|].
        destruct fuel as [|fuel'].
        { left. destruct new1 as [|x new1]; [reflexivity|].
          exfalso. unfold fetch_type in Hft. simpl in Hft.
          injection Hft as <-. simpl in Hnew1.
          apply (f_equal (@List.length _)) in Hnew1.
          rewrite length_app in Hnew1. simpl in Hnew1. lia. }
        destruct Hfirst1 as [rest ->]; [discriminate|]. right. eauto.
      * split.
        { eapply Forall_impl; [exact Htypes1|]. intros rq -> H. contradiction. }
        exists new1, []. split; [now rewrite app_nil_r|]. split; [|now left].
        eapply Forall_impl; [exact Htypes1|]. intros rq ->. exact Hne.
Qed.

(** C1 — the next run of [fetch_data_for_date] for a date: for each of the
    three report types, no request of the run for that type asks for a
    page at or below the [pages_processed] of its checkpoint, and the
    first request for that type asks for page [pages_processed + 1] when
    the checkpoint records [pages_processed > 0], and for page 1 when
    there is no checkpoint or it records 0.  The body of the loop for one
    type, run with some fuel, does send that first request. *)
Theorem fetch_resumes_after_checkpoint (net : network) (fuel : nat)
    (date data_type : string) (w : world) :
  data_type ∈ data_types ->
  let n := checkpoint_pages w date data_type in
  (0 < n -> resume_page w date data_type = n + 1)
  /\ (n <= 0 -> resume_page w date data_type = 1)
  /\ (exists new : list request,
        attempts (world_of (fetch_data_for_date net fuel date w))
        = (attempts w ++ new)%list
        /\ resumes_at new date data_type (resume_page w date data_type))
  /\ (forall version, fuel <> O ->
        exists rest,
          attempts (world_of (fetch_type net fuel date data_type version w))
          = (attempts w ++ page_request date data_type version
                             (resume_page w date data_type) :: rest)%list
          /\ Forall (fun rq => resume_page w date data_type <= rq_page rq) rest).
Proof.
  intros Hdt n. split; [|split; [|split]].
  - unfold resume_page. fold n. intros H. destruct (Z.ltb_spec 0 n); [reflexivity|lia].
  - unfold resume_page. fold n. intros H. destruct (Z.ltb_spec 0 n); [lia|reflexivity].
  - unfold fetch_data_for_date.
    destruct (fetch_types_requests net fuel date data_type Hdt
                (zip data_types versions) (mkdir date w))
      as (new & Hnew & _ & Hres).
    + intros t v Hin. unfold data_types, versions in *. simpl in Hin.
      repeat (apply elem_of_cons in Hin as [[= -> ->]|Hin];
              [apply list_elem_of_In; simpl; auto|]).
      apply elem_of_nil in Hin. contradiction.
    + apply (bool_decide_unpack _). vm_compute. reflexivity.
    + exists new. split.
      * rewrite Hnew. unfold mkdir. destruct (data_dir w !! date); reflexivity.
      * erewrite <- resume_page_preserved; [exact Hres|]. apply file_at_mkdir.
  - intros version Hfuel.
    destruct (fetch_type_requests net fuel date data_type version w)
      as (new & Hnew & Hall & Hfirst).
    destruct (Hfirst Hfuel) as [rest ->]. exists rest. split; [exact Hnew|].
    apply Forall_cons in Hall as [_ Hall].
    eapply Forall_impl; [exact Hall|]. intros rq (p & Hp & ->). exact Hp.
Qed.

Lemma fetch_resumes_after_checkpoint_witness :
  checkpoint_pages checkpoint_world "2024-03-01" "orders" = 5
  /\ exists rest,
       attempts (world_of (fetch_type net_always_200 2 "2024-03-01" "orders" "7"
                             checkpoint_world))
       = get_orders_page 6 :: rest.
Proof.
  split; [vm_compute; reflexivity|].
  assert (Hin : "orders" ∈ data_types) by (apply list_elem_of_In; simpl; auto).
  destruct (fetch_resumes_after_checkpoint net_always_200 2 "2024-03-01" "orders"
              checkpoint_world Hin) as (_ & _ & _ & H).
  destruct (H "7") as (rest & Hrest & _); [discriminate|].
  exists rest. rewrite Hrest.
  assert (E : resume_page checkpoint_world "2024-03-01" "orders" = 6)
    by (vm_compute; reflexivity).
  rewrite E. reflexivity.
Defined.

(** ** The page ceiling *)

(** C5 (amended) — the ceiling of 50 is tested only in the branch for an
    unexpected status, that is after a response other than 200: when the
    page number is above 50 there, the loop ends.  So a fetch of one report
    type that starts at a page of at most 50 never asks for a page above 50
    as long as page 50 is not answered 200; a page answered 200 moves the
    loop on without the test. *)
Theorem page_ceiling (net : network) (fuel : nat)
    (date data_type version : string) (w : world) :
  resume_page w date data_type <= 50 ->
  (forall hist r,
     net hist (page_request date data_type version 50) = Responded r ->
     status_code r <> 200) ->
  (exists new : list request,
     attempts (world_of (fetch_type net fuel date data_type version w))
     = (attempts w ++ new)%list
     /\ Forall (fun rq => rq_page rq <= 50) new)
  /\ (forall (fuel' : nat) (page : Z) (w' w1 : world) (r : response),
        safe_request net "get" (ReportFile data_type date page version)
          REQUEST_RETRIES w' = (Some r, w1) ->
        status_code r <> 200 ->
        let skip := (400 <=? status_code r) && (status_code r <? 500)
                    && negb (status_code r =? 429) in
        50 < (if skip then page + 1 else page) ->
        fetch_pages net (S fuel') date data_type version page w'
        = Finished (if skip then page + 1 else page)
            (if skip then w1 else pause 30 w1)).
Proof.
  intros Hstart Hno200. split.
  - unfold fetch_type. rewrite start_page_resume.
    destruct (fetch_pages_requests net date data_type version (fun p => p <= 50))
      with (fuel := fuel) (page := resume_page w date data_type) (w := w)
      as (new & Hnew & Hall & _).
    + intros p hist r Hp Hnet Hst.
      destruct (Z.eq_dec p 50) as [->|]; [|lia].
      exfalso. exact (Hno200 hist r Hnet Hst).
    + intros; lia.
    + exact Hstart.
    + exists new. split.
      * destruct (fetch_pages net fuel date data_type version _ w); exact Hnew.
      * eapply Forall_impl; [exact Hall|]. intros rq (p & Hp & ->). exact Hp.
  - intros fuel' page w' w1 r Hreq Hst skip Hover. simpl. rewrite Hreq.
    rewrite status_is_200.
    destruct (Z.eqb_spec (status_code r) 200); [contradiction|].
    rewrite !status_is_error_false by lia. fold skip.
    destruct skip.
    + destruct (Z.gtb_spec (page + 1) 50); [reflexivity|lia].
    + destruct (Z.gtb_spec page 50); [reflexivity|lia].
Qed.

Lemma page_ceiling_witness :
  exists new : list request,
    attempts (world_of (fetch_type (net_three_pages 404) 60 "2024-03-01" "orders"
                          "7" empty_world))
    = new
    /\ Forall (fun rq => rq_page rq <= 50) new.
Proof.
  destruct (page_ceiling (net_three_pages 404) 60 "2024-03-01" "orders" "7"
              empty_world) as [(new & Hnew & Hall) _].
  - vm_compute. discriminate.
  - intros hist r [= <-]. discriminate.
  - exists new. split; [exact Hnew|exact Hall].
Defined.

(** C5 as stated fails: when every page is answered 200, a fresh fetch
    asks for page 51. *)
Lemma page_ceiling_counterexample :
  last (attempts (world_of (fetch_type net_always_200 51 "2024-03-01" "orders"
                              "7" empty_world)))
  = Some (get_orders_page 51)
  /\ 50 < rq_page (get_orders_page 51).
Proof.
  split; [vm_compute; reflexivity|reflexivity].
Qed.

(** ** The end of the page sequence *)

Lemma safe_request_answered (net : network) (u : url) (w : world) (r : response) :
  net (attempts w) {| rq_method := "get"; rq_url := u |} = Responded r ->
  status_code r <> 429 ->
  safe_request net "get" u REQUEST_RETRIES w
  = (Some r, pause API_RATE_LIMIT_SLEEP (send {| rq_method := "get"; rq_url := u |} w)).
Proof.
  intros Hnet Hst. unfold safe_request.
  change (Z.to_nat REQUEST_RETRIES) with 3%nat. cbn [safe_request_loop].
  change (0 <? REQUEST_RETRIES) with true.
  change (py_lower "get") with "get". change (String.eqb "get" "get") with true.
  cbn [negb orb]. rewrite Hnet.
  destruct (Z.eqb_spec (status_code r) 429); [contradiction|reflexivity].
Qed.

Lemma fetch_pages_500_runs (date data_type version : string) :
  forall (fuel : nat) (page : Z) (w : world),
    page <= 4 ->
    exists w',
      fetch_pages (net_three_pages 500) fuel date data_type version page w
      = Running w'.
Proof.
  induction fuel as [|fuel IH]; intros page w Hpage; [simpl; eauto|].
  cbn [fetch_pages].
  destruct (Z.leb_spec page 3) as [Hle|Hgt].
  - rewrite (safe_request_answered _ _ _
               {| status_code := 200; retry_after := None; content := "o_id,o_type" |}).
    + rewrite status_is_200. cbn. apply IH. lia.
    + unfold net_three_pages, respond. cbn [rq_page rq_url].
      destruct (Z.leb_spec page 3); [reflexivity|lia].
    + discriminate.
  - rewrite (safe_request_answered _ _ _
               {| status_code := 500; retry_after := None; content := "o_id,o_type" |}).
    + rewrite status_is_200. rewrite !status_is_error_false by lia. cbn.
      destruct (Z.gtb_spec page 50); [lia|]. apply IH. lia.
    + unfold net_three_pages, respond. cbn [rq_page rq_url].
      destruct (Z.leb_spec page 3); [lia|reflexivity].
    + discriminate.
Qed.

(** C2 on the code — the scenario of the specification: a fresh fetch of
    the orders of 2024-03-01, pages 1 to 3 answered 200, every later page
    answered 404.  The loop does not stop at page 4: a 404 response is
    false as a condition, so the test [t and t.status_code == 404] fails
    and the branch for unexpected status codes adds one to the page, up to
    the ceiling.  Pages 1 to 50 are requested, three page files are
    written, and the final checkpoint records 50 pages, not 3.  When the
    later pages are answered 500 instead, the loop asks for page 4 again
    and again and never ends. *)
Theorem fetch_three_pages_then_404 :
  let run := fetch_type (net_three_pages 404) 60 "2024-03-01" "orders" "7"
               empty_world in
  (exists w', run = Finished tt w')
  /\ rq_page <$> attempts (world_of run) = Z.of_nat <$> seq 1 50
  /\ file_at (world_of run) "2024-03-01" (metadata_file "orders")
     = Some (Json (final_metadata "orders" "2024-03-01" "7" 51))
  /\ md_pages_processed (final_metadata "orders" "2024-03-01" "7" 51) = Some 50
  /\ size (default ∅ (data_dir (world_of run) !! "2024-03-01")) = 4%nat
  /\ (forall page, In page [1; 2; 3] ->
        file_at (world_of run) "2024-03-01" (page_file "orders" page)
        = Some (Page "o_id,o_type"))
  /\ (forall fuel, exists w',
        fetch_type (net_three_pages 500) fuel "2024-03-01" "orders" "7" empty_world
        = Running w').
Proof.
  cbv zeta.
  split; [eexists; vm_compute; reflexivity|].
  split; [vm_compute; reflexivity|].
  split; [vm_compute; reflexivity|].
  split; [reflexivity|].
  split; [vm_compute; reflexivity|].
  split.
  - intros page [<-|[<-|[<-|[]]]]; vm_compute; reflexivity.
  - intros fuel. unfold fetch_type.
    destruct (fetch_pages_500_runs "2024-03-01" "orders" "7" fuel
                (start_page "orders" (default ∅ (data_dir empty_world !! "2024-03-01")))
                empty_world) as [w' Hw'].
    + vm_compute. discriminate.
    + rewrite Hw'. eauto.
Qed.

(* ===================================================================== *)
(** * Part XV — the historical fetch *)
(* ===================================================================== *)

Lemma all_complete_true (dir : gmap string file) (types : list string) :
  (forall data_type, data_type ∈ types ->
     exists m, dir !! metadata_file data_type = Some (Json m)
               /\ md_completed m = Some true) ->
  all_complete dir types = true.
Proof.
  induction types as [|t types IH]; intros H; [reflexivity|]. simpl.
  destruct (H t) as (m & -> & ->); [left|]. simpl.
  apply IH. intros dt Hdt. apply H. now right.
Qed.

Lemma has_metadata_true (dir : gmap string file) (f : file) :
  dir !! metadata_file "orderItems" = Some f -> has_metadata dir = true.
Proof.
  intros H. unfold has_metadata. apply existsb_exists.
  exists (metadata_file "orderItems", f). split.
  - apply list_elem_of_In, elem_of_map_to_list. exact H.
  - reflexivity.
Qed.

Section Historical.
Variable net : network.
Variable fuel : nat.
Variable w0 : world.

(** A chunk of dates that are all done leaves the world untouched. *)
Lemma historical_chunk_idle (chunk : list string) :
  (forall d, d ∈ chunk -> date_done w0 d) ->
  forall (processed : gset string) (w : world),
    data_dir w = data_dir w0 ->
    load_processed_dates w0 ⊆ processed ->
    exists processed',
      historical_chunk net fuel chunk processed w = Finished processed' w
      /\ processed ⊆ processed'.
Proof.
  induction chunk as [|d chunk IH]; intros Hdone processed w Hdir Hsub.
  - exists processed. split; [reflexivity|set_solver].
  - cbn [historical_chunk].
    assert (Hrest : forall d', d' ∈ chunk -> date_done w0 d')
      by (intros d' H; apply Hdone; now right).
    destruct (bool_decide_reflect (d ∈ processed)) as [Hin|Hnot].
    + apply IH; assumption.
    + destruct (Hdone d) as [Hstatus|(dir & Hd & Hall)]; [left| |].
      * exfalso. apply Hnot. set_solver.
      * rewrite Hdir, Hd.
        destruct (Hall "orderItems") as (m & Hm & _);
          [apply list_elem_of_In; simpl; auto|].
        rewrite (has_metadata_true dir _ Hm).
        rewrite (all_complete_true dir data_types Hall). cbn [andb].
        destruct (IH Hrest ({[d]} ∪ processed) w Hdir) as (p' & Hp' & Hsub');
          [set_solver|].
        exists p'. split; [exact Hp'|set_solver].
Qed.

Lemma historical_chunks_idle :
  forall (n : nat) (date_range : list string) (processed : gset string) (w : world),
    (forall d, d ∈ date_range -> date_done w0 d) ->
    data_dir w = data_dir w0 ->
    load_processed_dates w0 ⊆ processed ->
    exists processed' w',
      historical_chunks net fuel n date_range processed w = Finished processed' w'
      /\ attempts w' = attempts w
      /\ data_dir w' = data_dir w
      /\ status_file w' = status_file w
      /\ processed ⊆ processed'.
Proof.
  induction n as [|n IH]; intros date_range processed w Hdone Hdir Hsub.
  - exists processed, w. simpl. repeat split. set_solver.
  - simpl.
    destruct (historical_chunk_idle (take chunk_size date_range)) with
      (processed := processed) (w := w) as (p1 & Hp1 & Hsub1); try assumption.
    { intros d Hd. apply Hdone.
      rewrite <- (take_drop chunk_size date_range). apply elem_of_app. now left. }
    rewrite Hp1.
    set (w1 := match drop chunk_size date_range with
               | [] => w | _ :: _ => pause 60 w end).
    assert (Hw1 : attempts w1 = attempts w /\ data_dir w1 = data_dir w
                  /\ status_file w1 = status_file w)
      by (subst w1; destruct (drop chunk_size date_range); repeat split).
    destruct Hw1 as (Ha & Hd & Hs).
    destruct (IH (drop chunk_size date_range) p1 w1) as (p2 & w2 & Hp2 & Ha2 & Hd2 & Hs2 & Hsub2).
    { intros d Hin. apply Hdone.
      rewrite <- (take_drop chunk_size date_range). apply elem_of_app. now right. }
    { congruence. }
    { set_solver. }
    exists p2, w2. split; [exact Hp2|].
    repeat split; try congruence. set_solver.
Qed.

End Historical.

(** C7 — run again over a range of dates that are all done (recorded in
    [processed_dates], or with the three checkpoints completed),
    [load_all_historical_data] ends without sending a request and without
    touching a file: [fetch_data_for_date] is not called for any date.
    Only the pauses between the blocks of ten dates remain. *)
Theorem historical_rerun_is_idle (net : network) (fuel : nat)
    (date_range : list string) (w : world) :
  (forall d, d ∈ date_range -> date_done w d) ->
  exists processed w',
    load_all_historical_data net fuel date_range w = Finished processed w'
    /\ attempts w' = attempts w
    /\ data_dir w' = data_dir w
    /\ status_file w' = status_file w
    /\ load_processed_dates w ⊆ processed.
Proof.
  intros Hdone. unfold load_all_historical_data.
  apply (historical_chunks_idle net fuel w); [assumption|reflexivity|set_solver].
Qed.

Lemma historical_rerun_is_idle_witness :
  exists processed w',
    load_all_historical_data net_always_200 5 ["2024-03-02"; "2024-03-01"] done_world
    = Finished processed w'
    /\ attempts w' = [].
Proof.
  destruct (historical_rerun_is_idle net_always_200 5 ["2024-03-02"; "2024-03-01"]
              done_world) as (processed & w' & H & Ha & _).
  - intros d Hd. left.
    change (load_processed_dates done_world)
      with (list_to_set ["2024-03-02"; "2024-03-01"] : gset string).
    apply elem_of_list_to_set. exact Hd.
  - exists processed, w'. split; [exact H|exact Ha].
Defined.

(* ===================================================================== *)
(** * Part XVI — further properties of value and row coercion *)
(* ===================================================================== *)

Section WellTyped.
Context {L : DateTimeLib}.



End WellTyped.



Lemma digit_not_space (c : ascii) : py_isdigit c = true -> py_isspace c = false.
Proof.
  destruct c as [[] [] [] [] [] [] [] []]; try discriminate; reflexivity.
Qed.

Lemma digit_value_pretty_N_char (x : N) :
  (x < 10)%N -> digit_value (pretty_N_char x) = Z.of_N x.
Proof.
  intros H.
  assert (x = 0 \/ x = 1 \/ x = 2 \/ x = 3 \/ x = 4 \/ x = 5 \/ x = 6
          \/ x = 7 \/ x = 8 \/ x = 9)%N as Hx by lia.
  repeat destruct Hx as [->|Hx]; try subst x; reflexivity.
Qed.

Lemma list_ascii_of_string_app (s t : string) :
  list_ascii_of_string (s ++ t) = (list_ascii_of_string s ++ list_ascii_of_string t)%list.
Proof.
  induction s as [|c s IH]; [reflexivity|].
  change (String c s ++ t) with (String c (s ++ t)). simpl. now rewrite IH.
Qed.

(** Decimal printing prepends the digits of the number. *)
Lemma pretty_N_go_value (x : N) : forall s,
  exists d, list_ascii_of_string (pretty_N_go x s)
            = (d ++ list_ascii_of_string s)%list
            /\ forallb py_isdigit d = true
            /\ ((0 < x)%N -> d <> [])
            /\ forall acc, fold_left (fun acc c => 10 * acc + digit_value c) d acc
                           = acc * 10 ^ Z.of_nat (length d) + Z.of_N x.
Proof.
  induction (N.lt_wf_0 x) as [x _ IH]. intros s.
  destruct (N.eq_dec x 0%N) as [->|Hx].
  - exists []. rewrite pretty_N_go_0. split; [reflexivity|]. split; [reflexivity|].
    split; [lia|]. intros acc. simpl. lia.
  - rewrite pretty_N_go_step by lia.
    destruct (IH (x `div` 10)%N) with (s := String (pretty_N_char (x `mod` 10)) s)
      as (d & Hd & Hall & _ & Hval).
    { apply N.div_lt; lia. }
    exists (d ++ [pretty_N_char (x `mod` 10)])%list. split; [|split; [|split]].
    + rewrite Hd. simpl. now rewrite <- app_assoc.
    + rewrite forallb_app, Hall. simpl. now rewrite pretty_N_char_digit.
    + intros _. destruct d; discriminate.
    + intros acc. rewrite fold_left_app. simpl. rewrite Hval.
      rewrite digit_value_pretty_N_char by (apply N.mod_lt; lia).
      rewrite length_app. simpl. rewrite Nat2Z.inj_add, Z.pow_add_r by lia.
      change (10 ^ Z.of_nat 1) with 10.
      rewrite N2Z.inj_div, N2Z.inj_mod. change (Z.of_N 10) with 10.
      pose proof (Z.div_mod (Z.of_N x) 10). lia.
Qed.

Lemma int_digits_all (d : list ascii) : forall (acc : Z) (prev : bool),
  forallb py_isdigit d = true ->
  (d <> [] \/ prev = true) ->
  int_digits acc prev d
  = Some (fold_left (fun acc c => 10 * acc + digit_value c) d acc).
Proof.
  induction d as [|c d IH]; intros acc prev Hall Hne.
  - destruct Hne as [Hne| ->]; [contradiction|reflexivity].
  - simpl in *. apply andb_prop in Hall as [Hc Hall]. rewrite Hc.
    apply IH; [assumption|now right].
Qed.

Lemma drop_while_head {A} (p : A -> bool) (x : A) (l : list A) :
  p x = false -> drop_while p (x :: l) = x :: l.
Proof. intros H. simpl. now rewrite H. Qed.

(** Text that starts and ends with a character that is not white space is
    left as it is by [strip]. *)
Lemma strip_trimmed (x y : ascii) (l : list ascii) :
  py_isspace x = false -> py_isspace y = false ->
  rstrip (lstrip (x :: l ++ [y])) = (x :: l ++ [y])%list.
Proof.
  intros Hx Hy. unfold rstrip, lstrip.
  rewrite drop_while_head by assumption.
  assert (E : rev (x :: l ++ [y]) = y :: rev (x :: l)).
  { change (x :: l ++ [y])%list with ((x :: l) ++ [y])%list.
    now rewrite rev_app_distr. }
  rewrite E, drop_while_head by assumption. rewrite <- E.
  apply rev_involutive.
Qed.

Lemma strip_digits (d : list ascii) :
  forallb py_isdigit d = true -> rstrip (lstrip d) = d.
Proof.
  intros Hall. destruct d as [|x d]; [reflexivity|].
  pose proof Hall as Hx. simpl in Hx. apply andb_prop in Hx as [Hx _].
  apply digit_not_space in Hx.
  destruct d as [|x' d].
  - unfold rstrip, lstrip. simpl. rewrite Hx. simpl. now rewrite Hx.
  - destruct (@exists_last _ (x' :: d)) as (l & y & E); [discriminate|].
    rewrite E in *. apply strip_trimmed; [assumption|].
    apply digit_not_space. simpl in Hall. apply andb_prop in Hall as [_ Hall].
    rewrite forallb_app in Hall.
    apply andb_prop in Hall as [_ Hy]. simpl in Hy. now rewrite andb_true_r in Hy.
Qed.

Lemma strip_minus_digits (d : list ascii) :
  forallb py_isdigit d = true -> d <> [] ->
  rstrip (lstrip ("-"%char :: d)) = ("-"%char :: d)%list.
Proof.
  intros Hall Hne.
  destruct (@exists_last _ d Hne) as (l & y & ->).
  apply strip_trimmed; [reflexivity|].
  apply digit_not_space. rewrite forallb_app in Hall.
  apply andb_prop in Hall as [_ Hy]. simpl in Hy. now rewrite andb_true_r in Hy.
Qed.

Lemma int_of_digits (d : list ascii) :
  forallb py_isdigit d = true -> d <> [] ->
  int_of_str (string_of_list_ascii d)
  = Some (fold_left (fun acc c => 10 * acc + digit_value c) d 0)
  /\ int_of_str (String "-"%char (string_of_list_ascii d))
     = Some (- fold_left (fun acc c => 10 * acc + digit_value c) d 0).
Proof.
  intros Hall Hne. unfold int_of_str. split.
  - rewrite list_ascii_of_string_of_list_ascii, strip_digits by assumption.
    rewrite <- (int_digits_all d 0 false Hall (or_introl Hne)).
    destruct d as [|c d]; [contradiction|].
    simpl in Hall. apply andb_prop in Hall as [Hc _].
    destruct c as [[] [] [] [] [] [] [] []]; try discriminate Hc; reflexivity.
  - simpl list_ascii_of_string.
    rewrite list_ascii_of_string_of_list_ascii, strip_minus_digits by assumption.
    now rewrite (int_digits_all d 0 false Hall (or_introl Hne)).
Qed.

(** [int(str(z)) == z] *)
Lemma int_of_str_pretty (z : Z) : int_of_str (pretty z) = Some z.
Proof.
  assert (Hpos : forall p, exists d,
            pretty (N.pos p) = string_of_list_ascii d
            /\ forallb py_isdigit d = true /\ d <> []
            /\ fold_left (fun acc c => 10 * acc + digit_value c) d 0 = Z.pos p).
  { intros p. unfold pretty, pretty_N. rewrite decide_False by discriminate.
    destruct (pretty_N_go_value (N.pos p) "") as (d & Hd & Hall & Hne & Hval).
    exists d. simpl in Hd. rewrite app_nil_r in Hd.
    split; [now rewrite <- Hd, string_of_list_ascii_of_string|].
    split; [assumption|]. split; [apply Hne; lia|].
    rewrite Hval. simpl. lia. }
  destruct z as [|p|p].
  - reflexivity.
  - destruct (Hpos p) as (d & E & Hall & Hne & Hval).
    change (pretty (Z.pos p)) with (pretty (N.pos p)). rewrite E.
    destruct (int_of_digits d Hall Hne) as [-> _]. now rewrite Hval.
  - destruct (Hpos p) as (d & E & Hall & Hne & Hval).
    change (pretty (Z.neg p)) with (String "-"%char (pretty (N.pos p))). rewrite E.
    destruct (int_of_digits d Hall Hne) as [_ ->]. now rewrite Hval.
Qed.

Section NumberRoundTrip.
Context {L : DateTimeLib}.


End NumberRoundTrip.


Lemma py_split_space_nonempty (s : string) : py_split_space s <> [].
Proof.
  induction s as [|c s IH]; simpl; [discriminate|].
  destruct (Ascii.eqb c " "); [discriminate|].
  destruct (py_split_space s); discriminate.
Qed.

(** A text without a space is a single field. *)
Lemma py_split_space_word (s : string) :
  no_space s = true -> py_split_space s = [s].
Proof.
  unfold no_space. induction s as [|c s IH]; simpl; [reflexivity|].
  intros H. apply andb_prop in H as [Hc H].
  apply negb_true_iff in Hc. rewrite Hc, (IH H). reflexivity.
Qed.

(** The fields of [text ++ " " ++ word] are those of [text], then [word]. *)
Lemma py_split_space_snoc (text word : string) :
  no_space word = true ->
  py_split_space (text ++ " " ++ word) = (py_split_space text ++ [word])%list.
Proof.
  intros Hw. induction text as [|c text IH].
  - change ("" ++ " " ++ word) with (String " " word). simpl.
    now rewrite (py_split_space_word _ Hw).
  - change (String c text ++ " " ++ word) with (String c (text ++ " " ++ word)).
    simpl. destruct (Ascii.eqb c " "); [now rewrite IH|].
    rewrite IH. pose proof (py_split_space_nonempty text).
    destruct (py_split_space text); [contradiction|reflexivity].
Qed.

(** Joining the fields with a space gives the text back. *)
Lemma py_join_split_space (s : string) : py_join_space (py_split_space s) = s.
Proof.
  induction s as [|c s IH]; [reflexivity|]. simpl.
  pose proof (py_split_space_nonempty s) as Hne.
  destruct (Ascii.eqb_spec c " ") as [->|Hc].
  - destruct (py_split_space s) as [|w ws]; [contradiction|].
    change (py_join_space ("" :: w :: ws)) with ("" ++ " " ++ py_join_space (w :: ws)).
    now rewrite IH.
  - destruct (py_split_space s) as [|w ws]; [contradiction|].
    destruct ws as [|w' ws].
    + simpl in *. now rewrite IH.
    + change (py_join_space (String c w :: w' :: ws))
        with (String c w ++ " " ++ py_join_space (w' :: ws)).
      change (py_join_space (w :: w' :: ws))
        with (w ++ " " ++ py_join_space (w' :: ws)) in IH.
      now rewrite <- IH.
Qed.

Section ZoneOfDate.
Context {L : DateTimeLib}.

(** X3 — [parse_date] takes the last word of the text, split at single
    spaces, for the name of the time zone and gives all that is before it to
    [strptime]: for a zone name [tz] without a space, the text
    [text ++ " " ++ tz] is read as the timestamp [text] in the zone [tz],
    and is [None] when [strptime] or [pytz.timezone] rejects its part; a
    text of one word is taken for a zone name with the empty timestamp. *)
Theorem parse_date_zone_is_last_word (text tz : string) :
  no_space tz = true ->
  (blank (text ++ " " ++ tz) = false ->
   parse_date (RStr (text ++ " " ++ tz)) =
     match strptime text DATETIME_FORMAT, pytz_timezone tz with
     | Some dt, Some zone => VDatetime (replace_tzinfo dt zone)
     | _, _ => VNone
     end)
  /\ (blank tz = false ->
      parse_date (RStr tz) =
        match strptime "" DATETIME_FORMAT, pytz_timezone tz with
        | Some dt, Some zone => VDatetime (replace_tzinfo dt zone)
        | _, _ => VNone
        end).
Proof.
  intros Htz.
  assert (Hne : forall s, blank s = false -> negb (String.eqb s "") = true).
  { intros [|c s]; [discriminate|reflexivity]. }
  split; intros Hb; unfold parse_date, parse_date_body; simpl py_bool; simpl py_str;
    rewrite (Hne _ Hb), Hb; simpl.
  - rewrite (py_split_space_snoc _ _ Htz), last_last, removelast_last.
    rewrite py_join_split_space.
    destruct (strptime text DATETIME_FORMAT); [|reflexivity].
    destruct (pytz_timezone tz); reflexivity.
  - rewrite (py_split_space_word _ Htz). simpl.
    destruct (strptime "" DATETIME_FORMAT); [|reflexivity].
    destruct (pytz_timezone tz); reflexivity.
Qed.

End ZoneOfDate.

Lemma parse_date_zone_is_last_word_witness :
  parse_date (L := sample_lib) (RStr "03/01/2024 10:30:00 UTC")
  = VDatetime {| sd_year := 2024; sd_month := 3; sd_day := 1;
                 sd_hour := 10; sd_minute := 30; sd_second := 0;
                 sd_zone := Some "UTC" |}.
Proof.
  destruct (parse_date_zone_is_last_word (L := sample_lib)
              "03/01/2024 10:30:00" "UTC" eq_refl) as [H _].
  exact (H eq_refl).
Defined.

Section EmptyRows.
Context {L : DateTimeLib}.

(** X4 — the row loop of [process_csv_file] returns no row only when it is
    given none or when the table has no schema in [COLUMNS]: for a table
    with a schema no row of the file makes the loop give up, however broken
    its cells are. *)
Theorem process_rows_empty_iff (type_name : string) (data : list (gmap string raw)) :
  process_rows type_name data = [] <-> data = [] \/ assoc type_name COLUMNS = None.
Proof.
  split.
  - intros H. destruct data as [|row data]; [now left|]. right.
    destruct (assoc type_name COLUMNS) as [schema|] eqn:Hs; [|reflexivity].
    exfalso. simpl in H.
    destruct (process_columns_spec type_name schema row Hs (keys schema) [])
      as (r & Hr & _).
    + eapply COLUMNS_NoDup, Hs.
    + auto.
    + intros k _ Hk. inversion Hk.
    + unfold process_row, getitem in H. rewrite Hs in H. simpl in H.
      unfold mbind, result_bind in H. rewrite Hr in H. discriminate.
  - intros [->|Hs]; [reflexivity|].
    induction data as [|row data IH]; [reflexivity|]. simpl.
    unfold process_row, getitem. now rewrite Hs.
Qed.

End EmptyRows.

Lemma drop_while_keeps {A} (p : A -> bool) (x : A) (l : list A) :
  x ∈ l -> p x = false -> x ∈ drop_while p l.
Proof.
  induction l as [|y l IH]; intros Hin Hp; [inversion Hin|].
  simpl. destruct (p y) eqn:Hy; [|exact Hin].
  apply elem_of_cons in Hin as [->|Hin]; [congruence|now apply IH].
Qed.

Lemma strip_keeps (x : ascii) (l : list ascii) :
  x ∈ l -> py_isspace x = false -> x ∈ rstrip (lstrip l).
Proof.
  intros Hin Hx. unfold rstrip, lstrip.
  apply list_elem_of_In, in_rev, list_elem_of_In.
  rewrite rev_involutive. apply drop_while_keeps; [|assumption].
  apply list_elem_of_In. rewrite <- in_rev. apply list_elem_of_In.
  now apply drop_while_keeps.
Qed.

Lemma int_digits_chars (l : list ascii) : forall (acc : Z) (prev : bool) (z : Z),
  int_digits acc prev l = Some z ->
  Forall (fun c => py_isdigit c = true \/ c = "_"%char) l.
Proof.
  induction l as [|c l IH]; intros acc prev z H; [constructor|].
  simpl in H. destruct (py_isdigit c) eqn:Hd.
  - constructor; [now left|]. eapply IH, H.
  - destruct (Ascii.eqb_spec c "_") as [->|Hc]; simpl in H; [|discriminate].
    destruct prev; [|discriminate].
    constructor; [now right|]. eapply IH, H.
Qed.

(** [int(s)] raises when [s] holds a character that no integer literal
    has. *)
Lemma int_of_str_foreign (s : string) (c : ascii) :
  c ∈ list_ascii_of_string s -> int_char c = false -> int_of_str s = None.
Proof.
  intros Hin Hc. unfold int_char in Hc.
  repeat (apply orb_false_elim in Hc as [Hc ?]).
  assert (Hs : c ∈ rstrip (lstrip (list_ascii_of_string s)))
    by now apply strip_keeps.
  assert (Hno : forall l acc prev, c ∈ l -> int_digits acc prev l = None).
  { intros l acc prev Hl.
    destruct (int_digits acc prev l) as [z|] eqn:E; [|reflexivity].
    apply int_digits_chars in E. rewrite Forall_forall in E.
    destruct (E c Hl) as [Hd| ->]; [congruence|discriminate]. }
  unfold int_of_str.
  destruct (rstrip (lstrip (list_ascii_of_string s))) as [|x l]; [inversion Hs|].
  assert (Htail : x = "-"%char \/ x = "+"%char -> c ∈ l).
  { intros Hx. apply elem_of_cons in Hs as [->|Hs]; [|exact Hs].
    destruct Hx as [-> | ->]; discriminate. }
  destruct (Ascii.eqb_spec x "-") as [->|Hm].
  { rewrite (Hno l 0 false); [reflexivity|]. apply Htail. now left. }
  destruct (Ascii.eqb_spec x "+") as [->|Hp].
  { apply Hno, Htail. now right. }
  transitivity (int_digits 0 false (x :: l)); [|now apply Hno].
  destruct x as [[] [] [] [] [] [] [] []]; try reflexivity; congruence.
Qed.

Lemma blank_foreign (s : string) (c : ascii) :
  c ∈ list_ascii_of_string s -> py_isspace c = false -> blank s = false.
Proof.
  intros Hin Hc. unfold blank, py_strip.
  pose proof (strip_keeps c _ Hin Hc) as Hs.
  destruct (rstrip (lstrip (list_ascii_of_string s))); [inversion Hs|reflexivity].
Qed.

Section ForeignNumber.
Context {L : DateTimeLib}.

(** X5 — in a NUMBER column a text with a character that [int] accepts
    nowhere (anything but a digit, an underscore, a sign or white space)
    becomes 0: "12.5" is stored as 0, not as a number near it. *)
Theorem clean_value_number_foreign_character (type_name key s : string) (c : ascii) :
  column_type type_name key = Ok NUMBER ->
  c ∈ list_ascii_of_string s ->
  int_char c = false ->
  clean_value type_name key (RStr s) = Ok (VInt 0).
Proof.
  intros Hty Hin Hc. rewrite (clean_value_declared _ _ _ _ Hty).
  assert (Hsp : py_isspace c = false).
  { unfold int_char in Hc. now apply orb_false_elim in Hc as [_ ?]. }
  unfold is_empty. simpl py_str. rewrite (blank_foreign s c Hin Hsp).
  simpl. now rewrite (int_of_str_foreign s c Hin Hc).
Qed.

End ForeignNumber.

Lemma clean_value_number_foreign_character_witness :
  clean_value (L := sample_lib) "orders" "o_payment_status" (RStr "12.5")
  = Ok (VInt 0).
Proof.
  apply (clean_value_number_foreign_character "orders" "o_payment_status" "12.5"
           "."%char).
  - reflexivity.
  - apply list_elem_of_In. simpl. right. right. left. reflexivity.
  - reflexivity.
Defined.

Lemma span_digits_spec (l d r : list ascii) :
  span_digits l = (d, r) -> l = (d ++ r)%list /\ forallb py_isdigit d = true.
Proof.
  revert d r. induction l as [|c l IH]; intros d r H.
  - injection H as <- <-. split; reflexivity.
  - simpl in H. destruct (py_isdigit c) eqn:Hc.
    + destruct (span_digits l) as [d' r'] eqn:E. injection H as <- <-.
      destruct (IH d' r' eq_refl) as [-> Hd]. split; [reflexivity|].
      simpl. now rewrite Hc.
    + injection H as <- <-. split; reflexivity.
Qed.

Lemma digits_body (d : list ascii) :
  forallb py_isdigit d = true -> forallb decimal_body_char d = true.
Proof.
  intros H. apply forallb_forall. intros c Hc.
  rewrite forallb_forall in H. unfold decimal_body_char. now rewrite (H c Hc).
Qed.

Lemma span_all_digits (t : list ascii) :
  match span_digits t with
  | (_ :: _, []) => True
  | _ => False
  end -> forallb decimal_body_char t = true.
Proof.
  intros Ht. destruct (span_digits t) as [d r] eqn:E.
  apply span_digits_spec in E as [-> Hd].
  destruct d; [contradiction|]. destruct r; [|contradiction].
  rewrite app_nil_r. now apply digits_body.
Qed.

Lemma decimal_exponent_chars (l : list ascii) (e : Z) :
  decimal_exponent l = Some e -> forallb decimal_body_char l = true.
Proof.
  unfold decimal_exponent. destruct l as [|c l]; [reflexivity|].
  destruct (Ascii.eqb_spec c "e") as [->|Hc].
  2:{ destruct c as [[] [] [] [] [] [] [] []]; try discriminate; congruence. }
  intros H. change (forallb decimal_body_char ("e"%char :: l))
    with (forallb decimal_body_char l).
  destruct l as [|x t]; [discriminate|].
  destruct (Ascii.eqb_spec x "-") as [->|Hm].
  { change (forallb decimal_body_char ("-"%char :: t))
      with (forallb decimal_body_char t). apply span_all_digits.
    destruct (span_digits t) as [[|? ?] [|? ?]]; try discriminate; exact I. }
  destruct (Ascii.eqb_spec x "+") as [->|Hp].
  { change (forallb decimal_body_char ("+"%char :: t))
      with (forallb decimal_body_char t). apply span_all_digits.
    destruct (span_digits t) as [[|? ?] [|? ?]]; try discriminate; exact I. }
  apply span_all_digits.
  assert (E : (let '(neg, l'') :=
                 match x :: t with
                 | "-"%char :: t0 => (true, t0)
                 | "+"%char :: t0 => (false, t0)
                 | _ => (false, x :: t)
                 end in
               match span_digits l'' with
               | ((_ :: _) as d, []) =>
                   Some (if neg then - digits_value d else digits_value d)
               | _ => None
               end)
              = match span_digits (x :: t) with
                | ((_ :: _) as d, []) => Some (digits_value d)
                | _ => None
                end).
  { destruct x as [[] [] [] [] [] [] [] []]; try reflexivity; congruence. }
  rewrite E in H.
  destruct (span_digits (x :: t)) as [[|? ?] [|? ?]]; try discriminate; exact I.
Qed.

Lemma decimal_number_chars (sign : bool) (l : list ascii) (d : Decimal) :
  decimal_number sign l = Some d -> forallb decimal_body_char l = true.
Proof.
  unfold decimal_number.
  destruct (span_digits l) as [int_part r1] eqn:E1.
  apply span_digits_spec in E1 as [-> Hint].
  destruct (match r1 with
            | "."%char :: t => span_digits t
            | _ => ([], r1)
            end) as [frac r2] eqn:E2.
  destruct (int_part ++ frac)%list; [discriminate|].
  destruct (decimal_exponent r2) as [e|] eqn:Ee; [|discriminate].
  intros _. rewrite forallb_app, (digits_body _ Hint). simpl.
  apply decimal_exponent_chars in Ee.
  destruct r1 as [|c t]; [reflexivity|].
  destruct (Ascii.eqb_spec c ".") as [->|Hc].
  - apply span_digits_spec in E2 as [-> Hf].
    change (forallb decimal_body_char ("."%char :: frac ++ r2))
      with (forallb decimal_body_char (frac ++ r2)).
    rewrite forallb_app, Ee, (digits_body _ Hf). reflexivity.
  - assert (E : (frac, r2) = ([], c :: t)).
    { rewrite <- E2. destruct c as [[] [] [] [] [] [] [] []]; try reflexivity; congruence. }
    injection E as -> ->. exact Ee.
Qed.

Lemma decimal_nan_chars (l : list ascii) :
  decimal_nan l = true -> forallb decimal_body_char l = true.
Proof.
  destruct l as [|c1 [|c2 [|c3 d]]]; try discriminate.
  - destruct c1 as [[] [] [] [] [] [] [] []]; discriminate.
  - destruct c1 as [[] [] [] [] [] [] [] []]; try discriminate.
    destruct c2 as [[] [] [] [] [] [] [] []]; discriminate.
  - destruct (Ascii.eqb_spec c1 "n") as [->|H1].
    2:{ destruct c1 as [[] [] [] [] [] [] [] []]; try discriminate; congruence. }
    destruct (Ascii.eqb_spec c2 "a") as [->|H2].
    2:{ destruct c2 as [[] [] [] [] [] [] [] []]; try discriminate; congruence. }
    destruct (Ascii.eqb_spec c3 "n") as [->|H3].
    2:{ destruct c3 as [[] [] [] [] [] [] [] []]; try discriminate; congruence. }
    simpl. apply digits_body.
Qed.

(** The part of [Decimal(str)] after the sign. *)
Lemma decimal_body_chars (sign : bool) (body : list ascii) (d : Decimal) :
  (let text := string_of_list_ascii body in
   if String.eqb text "inf" || String.eqb text "infinity" then Some (DInf sign)
   else if decimal_nan body then Some (DNaN sign)
   else match body with
        | "s"%char :: t => if decimal_nan t then Some (DsNaN sign) else None
        | _ => decimal_number sign body
        end) = Some d ->
  forallb decimal_body_char body = true.
Proof.
  cbv zeta.
  destruct (String.eqb_spec (string_of_list_ascii body) "inf") as [E|_].
  { intros _. apply (f_equal list_ascii_of_string) in E.
    rewrite list_ascii_of_string_of_list_ascii in E. now subst body. }
  destruct (String.eqb_spec (string_of_list_ascii body) "infinity") as [E|_].
  { intros _. apply (f_equal list_ascii_of_string) in E.
    rewrite list_ascii_of_string_of_list_ascii in E. now subst body. }
  simpl orb. cbv iota.
  destruct (decimal_nan body) eqn:Hnan; [intros _; now apply decimal_nan_chars|].
  destruct body as [|c t]; [apply decimal_number_chars|].
  destruct (Ascii.eqb_spec c "s") as [->|Hc].
  - destruct (decimal_nan t) eqn:Ht; [|discriminate].
    intros _. simpl. now apply decimal_nan_chars.
  - intros H. apply (decimal_number_chars sign (c :: t) d). rewrite <- H.
    destruct c as [[] [] [] [] [] [] [] []]; try reflexivity; congruence.
Qed.

(** [Decimal(s)] raises when [s] holds a character that no decimal literal
    has. *)
Lemma Decimal_of_str_foreign (s : string) (c : ascii) :
  c ∈ list_ascii_of_string s -> decimal_char c = false -> Decimal_of_str s = None.
Proof.
  intros Hin Hc. unfold decimal_char in Hc.
  apply orb_false_elim in Hc as [Hc Hsp]. apply orb_false_elim in Hc as [Hbody Hus].
  assert (Hstrip : c ∈ rstrip (lstrip (list_ascii_of_string s)))
    by now apply strip_keeps.
  unfold Decimal_of_str.
  set (l := filter (fun c => negb (Ascii.eqb c "_"%char))
              (rstrip (lstrip (list_ascii_of_string s)))).
  assert (Hl : c ∈ l).
  { subst l. apply list_elem_of_filter. split; [|exact Hstrip].
    now rewrite Hus. }
  clearbody l.
  assert (Hnot : forall sign body,
            c ∈ body ->
            (let body := map lower_char body in
             let text := string_of_list_ascii body in
             if String.eqb text "inf" || String.eqb text "infinity" then Some (DInf sign)
             else if decimal_nan body then Some (DNaN sign)
             else match body with
                  | "s"%char :: t => if decimal_nan t then Some (DsNaN sign) else None
                  | _ => decimal_number sign body
                  end) = None).
  { intros sign body Hb. cbv zeta.
    match goal with |- ?t = None => destruct t as [d|] eqn:E; [|reflexivity] end.
    apply (decimal_body_chars sign (map lower_char body) d) in E.
    rewrite forallb_forall in E.
    rewrite (E (lower_char c)) in Hbody; [discriminate|].
    apply in_map. now apply list_elem_of_In. }
  destruct l as [|x t]; [inversion Hl|].
  assert (Hx : c <> "-"%char /\ c <> "+"%char).
  { split; intros ->; discriminate. }
  destruct (Ascii.eqb_spec x "-") as [->|Hm].
  { apply Hnot. apply elem_of_cons in Hl as [->|Hl]; [now destruct Hx|exact Hl]. }
  destruct (Ascii.eqb_spec x "+") as [->|Hp].
  { apply Hnot. apply elem_of_cons in Hl as [->|Hl]; [now destruct Hx|exact Hl]. }
  etransitivity; [|exact (Hnot false (x :: t) Hl)].
  destruct x as [[] [] [] [] [] [] [] []]; try reflexivity; congruence.
Qed.

Section ForeignDecimal.
Context {L : DateTimeLib}.

(** X6 — in a DECIMAL column a text with a character that no spelling of a
    decimal number has (a comma, for one) becomes 0.0: "1,5" is stored as
    0.0. *)
Theorem clean_value_decimal_foreign_character (type_name key s : string) (c : ascii) :
  column_type type_name key = Ok DECIMAL ->
  c ∈ list_ascii_of_string s ->
  decimal_char c = false ->
  clean_value type_name key (RStr s) = Ok (VFloat (S754_zero false)).
Proof.
  intros Hty Hin Hc. rewrite (clean_value_declared _ _ _ _ Hty).
  assert (Hsp : py_isspace c = false).
  { unfold decimal_char in Hc. now apply orb_false_elim in Hc as [_ ?]. }
  unfold is_empty. simpl py_str. rewrite (blank_foreign s c Hin Hsp).
  simpl. now rewrite (Decimal_of_str_foreign s c Hin Hc).
Qed.

End ForeignDecimal.

Lemma clean_value_decimal_foreign_character_witness :
  clean_value (L := sample_lib) "orderItems" "oi_quantity" (RStr "1,5")
  = Ok (VFloat (S754_zero false)).
Proof.
  apply (clean_value_decimal_foreign_character "orderItems" "oi_quantity" "1,5"
           ","%char).
  - reflexivity.
  - apply list_elem_of_In. simpl. right. left. reflexivity.
  - reflexivity.
Defined.

(* ===================================================================== *)
(** * Part XVII — further properties of [safe_request] and of the page loop *)
(* ===================================================================== *)

Lemma backoff_S (c : Z) (n : nat) :
  backoff c (S n) = 5 * (c + 1) :: backoff (c + 1) n.
Proof.
  unfold backoff. simpl seq. rewrite map_cons.
  replace (5 * (c + Z.of_nat 1)) with (5 * (c + 1)) by lia. f_equal.
  rewrite <- seq_shift, map_map. apply map_ext. intros i. lia.
Qed.

(** The loop of [safe_request] when no attempt gets a response in time. *)
Lemma safe_request_loop_unanswered (net : network) (method : string) (u : url)
    (retry_count : Z) :
  let rq := {| rq_method := py_lower method; rq_url := u |} in
  (py_lower method = "get" \/ py_lower method = "post") ->
  (forall hist, net hist rq = Timeout \/ net hist rq = ConnectionError) ->
  forall (fuel : nat) (current_retry : Z) (w : world),
    fuel = Z.to_nat (retry_count - current_retry) ->
    safe_request_loop net fuel method u retry_count current_retry w
    = (None, {| attempts := attempts w ++ repeat rq fuel;
                sleeps := sleeps w ++ backoff current_retry fuel;
                data_dir := data_dir w; status_file := status_file w |}).
Proof.
  intros rq Hm Hnet fuel. induction fuel as [|fuel IH]; intros c w Hfuel.
  - simpl. unfold backoff. simpl. rewrite !app_nil_r. now destruct w.
  - simpl. destruct (Z.ltb_spec c retry_count) as [Hlt|Hge]; [|lia]. simpl.
    assert (Hok : String.eqb (py_lower method) "get"
                  || String.eqb (py_lower method) "post" = true).
    { destruct Hm as [-> | ->]; reflexivity. }
    rewrite Hok. simpl. fold rq.
    rewrite backoff_S.
    destruct (Hnet (attempts w)) as [-> | ->];
      rewrite IH by lia; simpl; rewrite <- !app_assoc; reflexivity.
Qed.

(** X7 — when every attempt of a get or post request ends in a time-out or
    a connection error, [safe_request] sends the request [retry_count]
    times, sleeps 5, 10, 15, ... seconds after the failures (5 seconds more
    each time, also after the last failure), returns [None] and writes no
    file. *)
Theorem safe_request_backoff (net : network) (method : string) (u : url)
    (retry_count : Z) (w : world) :
  let rq := {| rq_method := py_lower method; rq_url := u |} in
  (py_lower method = "get" \/ py_lower method = "post") ->
  (forall hist, net hist rq = Timeout \/ net hist rq = ConnectionError) ->
  safe_request net method u retry_count w
  = (None, {| attempts := attempts w ++ repeat rq (Z.to_nat retry_count);
              sleeps := sleeps w ++ backoff 0 (Z.to_nat retry_count);
              data_dir := data_dir w; status_file := status_file w |}).
Proof.
  intros rq Hm Hnet. unfold safe_request.
  apply safe_request_loop_unanswered; [assumption|assumption|f_equal; lia].
Qed.

Lemma safe_request_backoff_witness :
  safe_request net_timeout "get" (orders_page 1) 3 empty_world
  = (None, {| attempts := repeat (get_orders_page 1) 3; sleeps := [5; 10; 15];
              data_dir := ∅; status_file := None |}).
Proof.
  exact (safe_request_backoff net_timeout "get" (orders_page 1) 3 empty_world
           (or_introl eq_refl) (fun _ => or_introl eq_refl)).
Defined.

(** When [safe_request] gives up, it has sent the request [retry_count]
    times, unless the method is unknown or [retry_count] is not positive. *)
Lemma safe_request_loop_None (net : network) (method : string) (u : url)
    (retry_count : Z) :
  let rq := {| rq_method := py_lower method; rq_url := u |} in
  (py_lower method = "get" \/ py_lower method = "post") ->
  forall (fuel : nat) (current_retry : Z) (w w' : world),
    fuel = Z.to_nat (retry_count - current_retry) ->
    safe_request_loop net fuel method u retry_count current_retry w = (None, w') ->
    attempts w' = (attempts w ++ repeat rq fuel)%list
    /\ length (sleeps w') = (length (sleeps w) + fuel)%nat.
Proof.
  intros rq Hm fuel. induction fuel as [|fuel IH]; intros c w w' Hfuel.
  - simpl. intros [= <-]. rewrite app_nil_r. split; [reflexivity|lia].
  - simpl. destruct (Z.ltb_spec c retry_count) as [Hlt|Hge]; [|lia]. simpl.
    assert (Hok : String.eqb (py_lower method) "get"
                  || String.eqb (py_lower method) "post" = true).
    { destruct Hm as [-> | ->]; reflexivity. }
    rewrite Hok. simpl. fold rq.
    assert (Hstep : forall w1 : world,
              attempts w1 = (attempts w ++ [rq])%list ->
              length (sleeps w1) = S (length (sleeps w)) ->
              safe_request_loop net fuel method u retry_count (c + 1) w1 = (None, w') ->
              attempts w' = (attempts w ++ rq :: repeat rq fuel)%list
              /\ length (sleeps w') = (length (sleeps w) + S fuel)%nat).
    { intros w1 Ha Hs H. apply IH in H as [H1 H2]; [|lia].
      rewrite H1, H2, Ha, Hs, <- app_assoc. split; [reflexivity|lia]. }
    assert (Hpause : forall secs w0, length (sleeps (pause secs w0))
                                     = S (length (sleeps w0))).
    { intros secs w0. simpl. rewrite length_app. simpl. lia. }
    destruct (net (attempts w) rq) as [r| | |].
    + destruct (status_code r =? 429); [|discriminate].
      destruct (time_sleep (rate_limit_wait r) (send rq w)) as [w2|e] eqn:Hs.
      * apply time_sleep_Ok in Hs as (Ha & Hsl & _ & _).
        apply Hstep; [now rewrite Ha|]. rewrite Hsl, length_app. simpl. lia.
      * apply Hstep; [reflexivity|now rewrite Hpause].
    + apply Hstep; [reflexivity|now rewrite Hpause].
    + apply Hstep; [reflexivity|now rewrite Hpause].
    + apply Hstep; [reflexivity|now rewrite Hpause].
Qed.

(** X8 — whatever the server does, [safe_request] writes no file; a response
    it returns is one the server gave to this very request and never has the
    status 429; and when it returns [None] for a get or post request, it
    has sent the request exactly [retry_count] times and has slept once
    after each attempt. *)
Theorem safe_request_outcome (net : network) (method : string) (u : url)
    (retry_count : Z) (w : world) :
  let rq := {| rq_method := py_lower method; rq_url := u |} in
  let '(t, w') := safe_request net method u retry_count w in
  data_dir w' = data_dir w
  /\ status_file w' = status_file w
  /\ (forall r, t = Some r ->
        status_code r <> 429 /\ exists hist, net hist rq = Responded r)
  /\ (t = None ->
      (py_lower method = "get" \/ py_lower method = "post") ->
      attempts w' = (attempts w ++ repeat rq (Z.to_nat retry_count))%list
      /\ length (sleeps w') = (length (sleeps w) + Z.to_nat retry_count)%nat).
Proof.
  intros rq. unfold safe_request.
  destruct (safe_request_loop_spec net method u retry_count
              (Z.to_nat retry_count) 0 w) as [k Hk].
  destruct (safe_request_loop net (Z.to_nat retry_count) method u retry_count 0 w)
    as [t w'] eqn:E.
  destruct Hk as (_ & _ & _ & Hd & Hs & Hr & _).
  split; [assumption|]. split; [assumption|]. split; [assumption|].
  intros -> Hm.
  apply (safe_request_loop_None net method u retry_count Hm) in E;
    [assumption|f_equal; lia].
Qed.

Lemma keeps_refl (date : string) (w : world) : keeps_other_dates date w w.
Proof. repeat split; auto. Qed.

Lemma keeps_trans (date : string) (w1 w2 w3 : world) :
  keeps_other_dates date w1 w2 -> keeps_other_dates date w2 w3 ->
  keeps_other_dates date w1 w3.
Proof.
  intros (Hs1 & Hd1 & Hf1) (Hs2 & Hd2 & Hf2). split; [congruence|]. split.
  - intros d Hd. now rewrite Hd2, Hd1.
  - auto.
Qed.

Lemma keeps_same_files (date : string) (w w' : world) :
  data_dir w' = data_dir w -> status_file w' = status_file w ->
  keeps_other_dates date w w'.
Proof.
  intros Hd Hs. split; [assumption|]. split.
  - intros d _. now rewrite Hd.
  - intros name. unfold file_at. now rewrite Hd.
Qed.

Lemma keeps_write_file (date name : string) (f : file) (w : world) :
  keeps_other_dates date w (write_file date name f w).
Proof.
  split; [reflexivity|]. split.
  - intros d Hd. simpl. now rewrite lookup_insert_ne.
  - intros name' H. rewrite file_at_write_file.
    destruct (decide _); [eauto|assumption].
Qed.

Lemma keeps_mkdir (date : string) (w : world) :
  keeps_other_dates date w (mkdir date w).
Proof.
  split; [unfold mkdir; now destruct (data_dir w !! date)|]. split.
  - intros d Hd. unfold mkdir. destruct (data_dir w !! date); [reflexivity|].
    simpl. now rewrite lookup_insert_ne.
  - intros name. now rewrite file_at_mkdir.
Qed.

Lemma keeps_save_page (date data_type version : string) (page : Z)
    (r : response) (w : world) :
  keeps_other_dates date w (save_page date data_type version page r w).
Proof.
  unfold save_page. destruct (decodes_utf8 _);
    (eapply keeps_trans; [apply keeps_write_file|apply keeps_write_file]).
Qed.

Lemma fetch_pages_keeps (net : network) (date data_type version : string) :
  forall (fuel : nat) (page : Z) (w : world),
    keeps_other_dates date w
      (world_of (fetch_pages net fuel date data_type version page w)).
Proof.
  induction fuel as [|fuel IH]; intros page w; [apply keeps_refl|].
  simpl.
  destruct (safe_request_get net (ReportFile data_type date page version) w)
    as [k Hk].
  destruct (safe_request net "get" (ReportFile data_type date page version)
              REQUEST_RETRIES w) as [t w1].
  destruct Hk as (_ & Hdir & Hst & _).
  assert (Hw1 : keeps_other_dates date w w1) by now apply keeps_same_files.
  assert (Hgo : forall p w2, keeps_other_dates date w1 w2 ->
            keeps_other_dates date w
              (world_of (fetch_pages net fuel date data_type version p w2))).
  { intros p w2 H. eapply keeps_trans; [exact Hw1|].
    eapply keeps_trans; [exact H|apply IH]. }
  destruct t as [r|]; [|exact Hw1].
  destruct (status_is (Some r) 200); [apply Hgo, keeps_save_page|].
  destruct (status_is (Some r) 404); [exact Hw1|].
  destruct (status_is (Some r) 500); [exact Hw1|].
  destruct (status_is (Some r) 429); [now apply Hgo, keeps_same_files|].
  destruct ((400 <=? status_code r) && (status_code r <? 500)
            && negb (status_code r =? 429)).
  - destruct (page + 1 >? 50); [exact Hw1|]. apply Hgo, keeps_refl.
  - destruct (page >? 50);
      [eapply keeps_trans; [exact Hw1|now apply keeps_same_files]|].
    now apply Hgo, keeps_same_files.
Qed.

Lemma fetch_type_keeps (net : network) (fuel : nat)
    (date data_type version : string) (w : world) :
  keeps_other_dates date w
    (world_of (fetch_type net fuel date data_type version w)).
Proof.
  unfold fetch_type.
  pose proof (fetch_pages_keeps net date data_type version fuel
                (start_page data_type (default ∅ (data_dir w !! date))) w) as H.
  destruct (fetch_pages net fuel date data_type version _ w) as [page w'|w'];
    simpl in *; [|exact H].
  eapply keeps_trans; [exact H|apply keeps_write_file].
Qed.

(** The requests of the loop over the report types. *)
Lemma fetch_types_keeps (net : network) (fuel : nat) (date : string) :
  forall (types : list (string * string)) (w : world),
    keeps_other_dates date w (world_of (fetch_types net fuel date types w))
    /\ exists new : list request,
         attempts (world_of (fetch_types net fuel date types w))
         = (attempts w ++ new)%list
         /\ Forall (fun rq => exists t v p,
                      (t, v) ∈ types /\ rq = page_request date t v p) new.
Proof.
  induction types as [|[t v] types IH]; intros w.
  - split; [apply keeps_refl|]. exists []. simpl. rewrite app_nil_r.
    split; [reflexivity|constructor].
  - simpl.
    pose proof (fetch_type_keeps net fuel date t v w) as Hk.
    destruct (fetch_type_requests net fuel date t v w) as (new1 & Hnew1 & Hall1 & _).
    assert (Hall1' : Forall (fun rq => exists t0 v0 p,
                       (t0, v0) ∈ (t, v) :: types
                       /\ rq = page_request date t0 v0 p) new1).
    { eapply Forall_impl; [exact Hall1|]. intros rq (p & _ & ->).
      exists t, v, p. split; [left|reflexivity]. }
    destruct (fetch_type net fuel date t v w) as [[] w1|w1]; simpl in *.
    + set (w2 := match types with [] => w1 | _ :: _ => pause 5 w1 end).
      assert (Hw2 : keeps_other_dates date w1 w2)
        by (subst w2; destruct types; [apply keeps_refl|now apply keeps_same_files]).
      assert (Hw2a : attempts w2 = attempts w1) by (subst w2; destruct types; reflexivity).
      destruct (IH w2) as (Hk2 & new2 & Hnew2 & Hall2).
      split.
      { eapply keeps_trans; [exact Hk|]. eapply keeps_trans; [exact Hw2|exact Hk2]. }
      exists (new1 ++ new2)%list.
      split; [now rewrite Hnew2, Hw2a, Hnew1, app_assoc|].
      apply Forall_app. split; [exact Hall1'|].
      eapply Forall_impl; [exact Hall2|]. intros rq (t0 & v0 & p & Hin & ->).
      exists t0, v0, p. split; [now right|reflexivity].
    + split; [exact Hk|]. exists new1. split; [exact Hnew1|exact Hall1'].
Qed.

(** X9 — a fetch for a date, finished or cut short, leaves the status file
    and the directories of all other dates as they are, removes no file
    from the directory of its date, and sends nothing but requests for
    pages of the three reports of that date, each with the version of its
    report. *)
Theorem fetch_data_for_date_frame (net : network) (fuel : nat) (date : string)
    (w : world) :
  let w' := world_of (fetch_data_for_date net fuel date w) in
  status_file w' = status_file w
  /\ (forall d, d <> date -> data_dir w' !! d = data_dir w !! d)
  /\ (forall name, is_Some (file_at w date name) -> is_Some (file_at w' date name))
  /\ exists new : list request,
       attempts w' = (attempts w ++ new)%list
       /\ Forall (fun rq => exists t v p,
                    (t, v) ∈ zip data_types versions
                    /\ rq = page_request date t v p) new.
Proof.
  intros w'. subst w'. unfold fetch_data_for_date.
  destruct (fetch_types_keeps net fuel date (zip data_types versions) (mkdir date w))
    as (Hk & new & Hnew & Hall).
  pose proof (keeps_trans _ _ _ _ (keeps_mkdir date w) Hk) as (H1 & H2 & H3).
  split; [exact H1|]. split; [exact H2|]. split; [exact H3|].
  exists new. split; [|exact Hall].
  rewrite Hnew. unfold mkdir. now destruct (data_dir w !! date).
Qed.

Lemma safe_request_loop_unanswered_None (net : network) (method : string) (u : url)
    (retry_count : Z) :
  (forall hist rq, unanswered (net hist rq) = true) ->
  forall (fuel : nat) (current_retry : Z) (w : world),
    fst (safe_request_loop net fuel method u retry_count current_retry w) = None.
Proof.
  intros Hnet fuel. induction fuel as [|fuel IH]; intros c w; [reflexivity|].
  simpl. destruct (negb (c <? retry_count)); [reflexivity|].
  destruct (negb _); [reflexivity|].
  pose proof (Hnet (attempts w) {| rq_method := py_lower method; rq_url := u |}) as H.
  destruct (net _ _); try apply IH. discriminate.
Qed.

(** During an outage the loop of a report type ends at once, after the
    three attempts of [safe_request] for its first page. *)
Lemma fetch_type_unanswered (net : network) (fuel : nat)
    (date data_type version : string) (w : world) :
  (forall hist rq, unanswered (net hist rq) = true) ->
  exists w1,
    fetch_type net (S fuel) date data_type version w
    = Finished tt
        (write_file date (metadata_file data_type)
           (Json (final_metadata data_type date version
                    (resume_page w date data_type))) w1)
    /\ data_dir w1 = data_dir w
    /\ status_file w1 = status_file w
    /\ attempts w1
       = (attempts w
          ++ repeat (page_request date data_type version
                       (resume_page w date data_type)) 3)%list.
Proof.
  intros Hnet. unfold fetch_type. rewrite start_page_resume.
  set (s := resume_page w date data_type). simpl.
  pose proof (safe_request_loop_unanswered_None net "get"
                (ReportFile data_type date s version) REQUEST_RETRIES Hnet
                (Z.to_nat REQUEST_RETRIES) 0 w) as Hnone.
  destruct (safe_request_loop_spec net "get"
              (ReportFile data_type date s version) REQUEST_RETRIES
              (Z.to_nat REQUEST_RETRIES) 0 w) as [k Hspec].
  pose proof (safe_request_loop_None net "get"
                (ReportFile data_type date s version) REQUEST_RETRIES
                (or_introl eq_refl) (Z.to_nat REQUEST_RETRIES) 0 w) as Hcount.
  unfold safe_request in *.
  destruct (safe_request_loop net (Z.to_nat REQUEST_RETRIES) "get"
              (ReportFile data_type date s version) REQUEST_RETRIES 0 w)
    as [t w1].
  simpl in Hnone. subst t.
  destruct Hspec as (_ & _ & _ & Hd & Hs & _).
  destruct (Hcount w1 eq_refl eq_refl) as [Ha _].
  exists w1. split; [reflexivity|]. split; [assumption|]. split; [assumption|].
  exact Ha.
Qed.

Lemma metadata_file_other (t t' : string) :
  t ∈ data_types -> t' ∈ data_types -> t <> t' ->
  metadata_file t <> metadata_file t'.
Proof.
  intros Ht Ht' Hne E.
  apply (metadata_not_own t t' Ht Ht' Hne). left. exact E.
Qed.

Lemma fetch_types_unanswered (net : network) (fuel : nat) (date : string) :
  (forall hist rq, unanswered (net hist rq) = true) ->
  forall (types : list (string * string)) (w : world),
    (forall t v, (t, v) ∈ types -> t ∈ data_types) ->
    NoDup types.*1 ->
    exists w',
      fetch_types net (S fuel) date types w = Finished tt w'
      /\ (forall t v, (t, v) ∈ types ->
            file_at w' date (metadata_file t)
            = Some (Json (final_metadata t date v (resume_page w date t))))
      /\ (forall name, (forall t, t ∈ types.*1 -> name <> metadata_file t) ->
            file_at w' date name = file_at w date name)
      /\ length (attempts w') = (length (attempts w) + 3 * length types)%nat.
Proof.
  intros Hnet types. induction types as [|[t v] types IH]; intros w Hin Hnd.
  - exists w. split; [reflexivity|]. split; [intros t v H; inversion H|].
    split; [reflexivity|simpl; lia].
  - simpl in Hnd. apply NoDup_cons in Hnd as [Ht Hnd].
    assert (Hin' : forall t' v', (t', v') ∈ types -> t' ∈ data_types).
    { intros t' v' H. eapply Hin. right. exact H. }
    assert (Htd : t ∈ data_types) by (eapply Hin; left).
    destruct (fetch_type_unanswered net fuel date t v w Hnet)
      as (w1 & Hft & Hd1 & _ & Ha1).
    cbn [fetch_types]. rewrite Hft.
    set (wt := write_file date (metadata_file t)
                 (Json (final_metadata t date v (resume_page w date t))) w1).
    set (w2 := match types with [] => wt | _ :: _ => pause 5 wt end).
    assert (Hw2f : forall name, file_at w2 date name = file_at wt date name)
      by (intros; subst w2; destruct types; reflexivity).
    assert (Hw2a : attempts w2 = attempts w1) by (subst w2; destruct types; reflexivity).
    assert (Hw1f : forall name, file_at w1 date name = file_at w date name)
      by (intros; unfold file_at; now rewrite Hd1).
    destruct (IH w2 Hin' Hnd) as (w' & Hrun & Hmeta & Hother & Hlen).
    exists w'. split; [exact Hrun|]. split; [|split].
    + intros t' v' H. apply elem_of_cons in H as [[= -> ->]|H].
      * rewrite Hother, Hw2f.
        { subst wt. rewrite file_at_write_file, decide_True; [reflexivity|auto]. }
        intros t' Ht' E. apply Ht.
        assert (t' ∈ data_types).
        { apply list_elem_of_fmap in Ht' as ([a b] & -> & Hab). eapply Hin'. exact Hab. }
        destruct (decide (t = t')) as [->|Hne]; [exact Ht'|].
        exfalso. now apply (metadata_file_other t t').
      * rewrite (Hmeta t' v' H). do 3 f_equal.
        apply resume_page_preserved. rewrite Hw2f. subst wt.
        rewrite file_at_write_file, decide_False; [apply Hw1f|].
        intros [_ E]. 
        assert (t <> t').
        { intros ->. apply Ht. apply list_elem_of_fmap. exists (t', v'). auto. }
        apply (metadata_file_other t t'); eauto.
    + intros name Hname. rewrite Hother, Hw2f.
      * subst wt. rewrite file_at_write_file, decide_False; [apply Hw1f|].
        intros [_ E]. apply (Hname t); [left|]. now rewrite E.
      * intros t' Ht'. apply Hname. now right.
    + rewrite Hlen, Hw2a, Ha1, length_app, repeat_length. simpl. lia.
Qed.

(** X10 — when no request gets a response (time-outs, connection errors),
    [fetch_data_for_date] still ends: after three attempts for each report
    type, nine in all, it writes for each of the three types a checkpoint
    with [completed] true and the page count of the checkpoint it found (0
    without one) and touches no other file.  A later historical run over
    that date then sends no request: the date counts as fetched although no
    page was loaded. *)
Theorem outage_marks_date_complete (net : network) (fuel : nat) (date : string)
    (w : world) :
  (forall hist rq, unanswered (net hist rq) = true) ->
  exists w',
    fetch_data_for_date net (S fuel) date w = Finished tt w'
    /\ length (attempts w') = (length (attempts w) + 9)%nat
    /\ (forall data_type, data_type ∈ data_types ->
          exists m,
            file_at w' date (metadata_file data_type) = Some (Json m)
            /\ md_completed m = Some true
            /\ md_pages_processed m
               = Some (Z.max 0 (checkpoint_pages w date data_type)))
    /\ (forall name, (forall t, t ∈ data_types -> name <> metadata_file t) ->
          file_at w' date name = file_at w date name)
    /\ (forall (net' : network) (fuel' : nat),
          exists processed w'',
            load_all_historical_data net' fuel' [date] w' = Finished processed w''
            /\ attempts w'' = attempts w').
Proof.
  intros Hnet. unfold fetch_data_for_date.
  destruct (fetch_types_unanswered net fuel date Hnet
              (zip data_types versions) (mkdir date w))
    as (w' & Hrun & Hmeta & Hother & Hlen).
  { intros t v H. unfold data_types, versions in *. simpl in H.
    repeat (apply elem_of_cons in H as [[= -> ->]|H]);
      try (apply list_elem_of_In; simpl; auto; fail).
    inversion H. }
  { unfold data_types, versions. simpl.
    repeat (apply NoDup_cons; split;
            [intros H; repeat (apply elem_of_cons in H as [H|H]; [discriminate|]);
             inversion H|]).
    apply NoDup_nil. exact I. }
  assert (Hdone : forall data_type, data_type ∈ data_types ->
            exists m, file_at w' date (metadata_file data_type) = Some (Json m)
                      /\ md_completed m = Some true
                      /\ md_pages_processed m
                         = Some (Z.max 0 (checkpoint_pages w date data_type))).
  { intros t Ht.
    assert (exists v, (t, v) ∈ zip data_types versions) as [v Hv].
    { unfold data_types, versions in *. simpl.
      repeat (apply elem_of_cons in Ht as [->|Ht]);
        [eexists; apply list_elem_of_In; simpl; eauto..|inversion Ht]. }
    pose proof (Hmeta t v Hv) as Hm.
    rewrite (resume_page_preserved w (mkdir date w)) in Hm by apply file_at_mkdir.
    eexists. split; [exact Hm|]. split; [reflexivity|].
    cbn [md_pages_processed final_metadata]. f_equal.
    unfold resume_page. destruct (Z.ltb_spec 0 (checkpoint_pages w date t)); lia. }
  exists w'. split; [exact Hrun|]. split.
  { rewrite Hlen. unfold mkdir. destruct (data_dir w !! date); simpl; lia. }
  split; [exact Hdone|]. split.
  { intros name Hname. rewrite Hother; [apply file_at_mkdir|].
    intros t Ht. apply Hname.
    apply list_elem_of_fmap in Ht as ([a b] & -> & Hab).
    apply elem_of_zip_l in Hab. exact Hab. }
  intros net' fuel'. unfold load_all_historical_data.
  destruct (historical_chunks_idle net' fuel' w'
              ((length [date] + chunk_size - 1) / chunk_size)%nat [date]
              (load_processed_dates w') w')
    as (p & w'' & Hp & Ha & _); [|reflexivity|set_solver|eauto].
  intros d Hd. apply list_elem_of_singleton in Hd as ->. right.
  destruct (data_dir w' !! date) as [dir|] eqn:Hdir.
  - exists dir. split; [reflexivity|]. intros t Ht.
    destruct (Hdone t Ht) as (m & Hm & Hc & _). exists m. split; [|exact Hc].
    unfold file_at in Hm. now rewrite Hdir in Hm.
  - exfalso. destruct (Hdone "orders") as (m & Hm & _).
    { apply list_elem_of_In; simpl; auto. }
    unfold file_at in Hm. rewrite Hdir in Hm. simpl in Hm.
    rewrite lookup_empty in Hm. discriminate.
Qed.

Lemma outage_marks_date_complete_witness :
  exists w',
    fetch_data_for_date net_timeout 1 "2024-03-01" empty_world = Finished tt w'
    /\ length (attempts w') = 9%nat
    /\ forall (net' : network) (fuel' : nat),
         exists processed w'',
           load_all_historical_data net' fuel' ["2024-03-01"] w'
           = Finished processed w''
           /\ attempts w'' = attempts w'.
Proof.
  destruct (outage_marks_date_complete net_timeout 0 "2024-03-01" empty_world
              (fun _ _ => eq_refl)) as (w' & H1 & H2 & _ & _ & H5).
  exists w'. split; [exact H1|]. split; [exact H2|exact H5].
Defined.

Lemma map_pages_cons {A} (g : Z -> A) (p : Z) (m : nat) :
  map (fun i => g (p + Z.of_nat i)) (seq 0 (S m))
  = g p :: map (fun i => g (p + 1 + Z.of_nat i)) (seq 0 m).
Proof.
  change (seq 0 (S m)) with (0%nat :: seq 1 m).
  rewrite map_cons, Z.add_0_r. f_equal.
  rewrite <- seq_shift, map_map. apply map_ext. intros i. f_equal. lia.
Qed.

Section Scan.
Variable net : network.
Variables date data_type version : string.
Variable k : Z.

Let rq_of (page : Z) : request := page_request date data_type version page.

(** The server has the pages up to [k] and answers every request for a
    later page with a client error other than 429. *)
Hypothesis Hfound : forall hist p, 1 <= p <= k ->
  exists r, net hist (rq_of p) = Responded r /\ status_code r = 200.
Hypothesis Hmissing : forall hist p, k < p ->
  exists r, net hist (rq_of p) = Responded r
            /\ 400 <= status_code r < 500 /\ status_code r <> 429.

Lemma fetch_pages_found (fuel : nat) (page : Z) (w : world) :
  1 <= page <= k ->
  exists w1,
    fetch_pages net (S fuel) date data_type version page w
    = fetch_pages net fuel date data_type version (page + 1) w1
    /\ attempts w1 = (attempts w ++ [rq_of page])%list.
Proof.
  intros Hp. destruct (Hfound (attempts w) page Hp) as (r & Hr & Hst).
  cbn [fetch_pages].
  rewrite (safe_request_answered net _ w r Hr) by lia.
  rewrite status_is_200, Hst. simpl.
  eexists. split; [reflexivity|]. now rewrite attempts_save_page.
Qed.

Lemma fetch_pages_missing (fuel : nat) (page : Z) (w : world) :
  k < page ->
  exists w1,
    fetch_pages net (S fuel) date data_type version page w
    = (if page + 1 >? 50 then Finished (page + 1) w1
       else fetch_pages net fuel date data_type version (page + 1) w1)
    /\ attempts w1 = (attempts w ++ [rq_of page])%list.
Proof.
  intros Hp. destruct (Hmissing (attempts w) page Hp) as (r & Hr & Hst & H429).
  cbn [fetch_pages].
  rewrite (safe_request_answered net _ w r Hr) by assumption.
  rewrite status_is_200.
  destruct (Z.eqb_spec (status_code r) 200) as [E|_]; [lia|].
  rewrite !status_is_error_false by lia.
  destruct (Z.leb_spec 400 (status_code r)); [|lia].
  destruct (Z.ltb_spec (status_code r) 500); [|lia].
  destruct (Z.eqb_spec (status_code r) 429); [contradiction|].
  cbn [andb negb].
  eexists. split; [reflexivity|reflexivity].
Qed.

(** From [page] on, the loop asks for every page once, up to page
    [last = max page 50 (k + 1)], and ends with [page = last + 1]. *)
Lemma fetch_pages_scan (n : nat) : forall (fuel : nat) (page : Z) (w : world),
  1 <= page ->
  Z.of_nat (S n) = Z.max page (Z.max 50 (k + 1)) + 1 - page ->
  (n < fuel)%nat ->
  exists w',
    fetch_pages net fuel date data_type version page w
    = Finished (Z.max page (Z.max 50 (k + 1)) + 1) w'
    /\ attempts w'
       = (attempts w ++ map (fun i => rq_of (page + Z.of_nat i)) (seq 0 (S n)))%list.
Proof.
  induction n as [|n IH]; intros fuel page w Hp Hn Hfuel;
    (destruct fuel as [|fuel]; [lia|]).
  - (* the last page of the scan *)
    destruct (fetch_pages_missing fuel page w) as (w1 & Hrun & Ha); [lia|].
    destruct (Z.gtb_spec (page + 1) 50); [|lia].
    exists w1. rewrite Hrun. split; [f_equal; lia|].
    rewrite Ha. simpl. now rewrite Z.add_0_r.
  - assert (Hnext : forall w1,
              attempts w1 = (attempts w ++ [rq_of page])%list ->
              exists w',
                fetch_pages net fuel date data_type version (page + 1) w1
                = Finished (Z.max page (Z.max 50 (k + 1)) + 1) w'
                /\ attempts w'
                   = (attempts w
                      ++ map (fun i => rq_of (page + Z.of_nat i)) (seq 0 (S (S n))))%list).
    { intros w1 Ha.
      destruct (IH fuel (page + 1) w1) as (w' & Hrun & Ha'); [lia|lia|lia|].
      exists w'. split; [rewrite Hrun; f_equal; lia|].
      rewrite Ha', Ha, <- app_assoc. f_equal.
      now rewrite (map_pages_cons rq_of page (S n)). }
    destruct (Z.le_gt_cases page k) as [Hle|Hgt].
    + destruct (fetch_pages_found fuel page w) as (w1 & Hrun & Ha); [lia|].
      rewrite Hrun. now apply Hnext.
    + destruct (fetch_pages_missing fuel page w) as (w1 & Hrun & Ha); [lia|].
      rewrite Hrun. destruct (Z.gtb_spec (page + 1) 50); [lia|]. now apply Hnext.
Qed.

End Scan.

(** X11 — a missing page does not end the page loop when the server answers
    it with a client error, 404 included: if the pages 1 to [k] are answered
    200 and all later ones 4xx other than 429, [fetch_data_for_date] asks,
    for a report type, for every page from the resume page up to page 50
    (up to page [k + 1] or the resume page when that is later), each once,
    and then writes a checkpoint with [completed] true whose
    [pages_processed] is that last page, not [k]. *)
Theorem fetch_scans_to_the_ceiling (net : network) (fuel : nat)
    (date data_type version : string) (k : Z) (w : world) :
  (forall hist p, 1 <= p <= k ->
     exists r, net hist (page_request date data_type version p) = Responded r
               /\ status_code r = 200) ->
  (forall hist p, k < p ->
     exists r, net hist (page_request date data_type version p) = Responded r
               /\ 400 <= status_code r < 500 /\ status_code r <> 429) ->
  let first := resume_page w date data_type in
  let last := Z.max first (Z.max 50 (k + 1)) in
  (Z.to_nat (last - first) < fuel)%nat ->
  exists w',
    fetch_type net fuel date data_type version w = Finished tt w'
    /\ rq_page <$> attempts w'
       = ((rq_page <$> attempts w)
          ++ ((fun i => first + Z.of_nat i) <$> seq 0 (S (Z.to_nat (last - first)))))%list
    /\ file_at w' date (metadata_file data_type)
       = Some (Json {| md_type := data_type; md_date := date;
                       md_pages_processed := Some last; md_version := version;
                       md_encoding := None; md_completed := Some true |}).
Proof.
  intros Hfound Hmissing first last Hfuel.
  assert (Hfirst : 1 <= first).
  { subst first. unfold resume_page.
    destruct (Z.ltb_spec 0 (checkpoint_pages w date data_type)); lia. }
  unfold fetch_type. rewrite start_page_resume. fold first.
  destruct (fetch_pages_scan net date data_type version k Hfound Hmissing
              (Z.to_nat (last - first)) fuel first w) as (w1 & Hrun & Ha);
    [assumption|subst last; lia|assumption|].
  rewrite Hrun. fold last.
  eexists. split; [reflexivity|]. split.
  - cbn [attempts write_file]. rewrite Ha, fmap_app. f_equal.
    rewrite <- list_fmap_compose. reflexivity.
  - rewrite file_at_write_file, decide_True by auto.
    unfold final_metadata. replace (last + 1 - 1) with last by lia. reflexivity.
Qed.

Lemma fetch_scans_to_the_ceiling_witness :
  exists w',
    fetch_type (net_three_pages 404) 60 "2024-03-01" "orders" "7" empty_world
    = Finished tt w'
    /\ rq_page <$> attempts w' = (fun i => 1 + Z.of_nat i) <$> seq 0 50.
Proof.
  assert (Hfound : forall hist p, 1 <= p <= 3 ->
            exists r, net_three_pages 404 hist (page_request "2024-03-01" "orders" "7" p)
                      = Responded r /\ status_code r = 200).
  { intros hist p Hp. unfold net_three_pages.
    change (rq_page (page_request "2024-03-01" "orders" "7" p)) with p.
    destruct (Z.leb_spec p 3); [|lia]. eexists. split; reflexivity. }
  assert (Hmissing : forall hist p, 3 < p ->
            exists r, net_three_pages 404 hist (page_request "2024-03-01" "orders" "7" p)
                      = Responded r
                      /\ 400 <= status_code r < 500 /\ status_code r <> 429).
  { intros hist p Hp. unfold net_three_pages.
    change (rq_page (page_request "2024-03-01" "orders" "7" p)) with p.
    destruct (Z.leb_spec p 3); [lia|]. eexists. split; [reflexivity|simpl; lia]. }
  assert (Hfuel : (Z.to_nat (Z.max (resume_page empty_world "2024-03-01" "orders")
                               (Z.max 50 (3 + 1))
                             - resume_page empty_world "2024-03-01" "orders") < 60)%nat).
  { vm_compute. lia. }
  destruct (fetch_scans_to_the_ceiling (net_three_pages 404) 60 "2024-03-01" "orders"
              "7" 3 empty_world Hfound Hmissing Hfuel) as (w' & H1 & H2 & _).
  exists w'. split; [exact H1|exact H2].
Defined.

Lemma string_app_cons (c : ascii) (s t : string) :
  String c s ++ t = String c (s ++ t).
Proof. reflexivity. Qed.

Lemma string_app_assoc (s t u : string) : (s ++ t) ++ u = s ++ (t ++ u).
Proof.
  induction s as [|c s IH]; [reflexivity|].
  now rewrite !string_app_cons, IH.
Qed.

Lemma string_app_inv_head (s x y : string) : s ++ x = s ++ y -> x = y.
Proof.
  induction s as [|c s IH]; simpl; [auto|]. intros [= H]. auto.
Qed.

Lemma string_app_inv_tail (x y u : string) : x ++ u = y ++ u -> x = y.
Proof.
  intros H. apply (f_equal list_ascii_of_string) in H.
  rewrite !list_ascii_of_string_app in H. apply app_inv_tail in H.
  rewrite <- (string_of_list_ascii_of_string x),
    <- (string_of_list_ascii_of_string y).
  now rewrite H.
Qed.

Lemma page_file_inj (data_type : string) (p q : Z) :
  page_file data_type p = page_file data_type q -> p = q.
Proof.
  unfold page_file. intros H.
  apply string_app_inv_head, (string_app_inv_head "_page_"), string_app_inv_tail in H.
  exact (pretty_Z_inj _ _ H).
Qed.

Lemma page_file_latin1_inj (data_type : string) (p q : Z) :
  page_file_latin1 data_type p = page_file_latin1 data_type q -> p = q.
Proof.
  unfold page_file_latin1. intros H.
  apply string_app_inv_head, (string_app_inv_head "_page_"), string_app_inv_tail in H.
  exact (pretty_Z_inj _ _ H).
Qed.

(** No page has a plain name that is the latin-1 name of a page: the
    number of a page has no letter. *)
Lemma page_file_not_latin1 (data_type : string) (p q : Z) :
  page_file data_type p <> page_file_latin1 data_type q.
Proof.
  unfold page_file, page_file_latin1. intros H.
  apply string_app_inv_head, (string_app_inv_head "_page_") in H.
  change "_latin1.csv" with ("_latin1" ++ ".csv") in H.
  rewrite <- string_app_assoc in H. apply string_app_inv_tail in H.
  pose proof (int_of_str_pretty p) as Hp. rewrite H in Hp.
  rewrite (int_of_str_foreign _ "l"%char) in Hp; [discriminate| |reflexivity].
  rewrite list_ascii_of_string_app. apply elem_of_app. right.
  apply list_elem_of_In. simpl. tauto.
Qed.

Lemma page_files_not_metadata (data_type : string) (p : Z) :
  page_file data_type p <> metadata_file data_type
  /\ page_file_latin1 data_type p <> metadata_file data_type.
Proof.
  unfold page_file, page_file_latin1, metadata_file.
  split; intros H; apply string_app_inv_head in H; simpl in H; discriminate H.
Qed.

(** Saving a page touches the files of no other page. *)
Lemma file_at_save_page_other (date data_type version : string) (page : Z)
    (r : response) (w : world) (p : Z) :
  p <> page ->
  file_at (save_page date data_type version page r w) date (page_file data_type p)
  = file_at w date (page_file data_type p)
  /\ file_at (save_page date data_type version page r w) date
       (page_file_latin1 data_type p)
     = file_at w date (page_file_latin1 data_type p).
Proof.
  intros Hp. destruct (page_files_not_metadata data_type p) as [Hm Hm'].
  unfold save_page. destruct (decodes_utf8 (content r));
    rewrite !file_at_write_file; split;
    repeat match goal with
      | |- context [decide ?P] => destruct (decide P) as [[_ E]|_]
      end; try reflexivity; exfalso.
  all: try (now apply Hm); try (now apply Hm').
  all: try (apply Hp; symmetry; eapply page_file_inj; exact E).
  all: try (apply Hp; symmetry; eapply page_file_latin1_inj; exact E).
  all: try (eapply page_file_not_latin1; exact E).
  all: try (eapply page_file_not_latin1; symmetry; exact E).
Qed.

(** After a page is saved, the checkpoint makes the next run start with
    the page after it. *)
Lemma resume_page_save_page (date data_type version : string) (page : Z)
    (r : response) (w : world) :
  1 <= page ->
  resume_page (save_page date data_type version page r w) date data_type = page + 1.
Proof.
  intros Hp. unfold resume_page, checkpoint_pages, save_page.
  destruct (decodes_utf8 (content r)); rewrite file_at_write_file;
    (destruct (decide _) as [_|N]; [|exfalso; apply N; now split]); simpl;
    destruct (Z.ltb_spec 0 page); lia.
Qed.

Lemma fetch_pages_checkpoint (net : network) (date data_type version : string) :
  forall (fuel : nat) (page : Z) (w : world),
    1 <= page ->
    resume_page w date data_type <= page ->
    behind_checkpoint date data_type version page w
      (fetch_pages net fuel date data_type version page w).
Proof.
  induction fuel as [|fuel IH]; intros page w Hpage Hres.
  { simpl. split; [simpl; lia|]. split; [auto|].
    exists []. split; [simpl; now rewrite app_nil_r|]. simpl. intros p Hp. lia. }
  cbn [fetch_pages].
  destruct (safe_request_get net (ReportFile data_type date page version) w)
    as [k Hk].
  destruct (safe_request net "get" (ReportFile data_type date page version)
              REQUEST_RETRIES w) as [t w1].
  destruct Hk as (Hatt & Hdir & _ & _).
  fold (page_request date data_type version page) in Hatt.
  set (rq := page_request date data_type version page) in *.
  assert (Hsame : forall w2, data_dir w2 = data_dir w1 ->
            (forall name, file_at w2 date name = file_at w date name)
            /\ resume_page w2 date data_type = resume_page w date data_type).
  { intros w2 H2.
    assert (Hf : forall name, file_at w2 date name = file_at w date name)
      by (intros name; unfold file_at; now rewrite H2, Hdir).
    split; [exact Hf|]. apply resume_page_preserved, Hf. }
  (* the loop ends with this iteration *)
  assert (Hstop : forall pg w2, page <= pg <= page + 1 ->
            data_dir w2 = data_dir w1 -> attempts w2 = attempts w1 ->
            behind_checkpoint date data_type version page w (Finished pg w2)).
  { intros pg w2 Hpg H2 Ha2. destruct (Hsame w2 H2) as [Hf _].
    split; [simpl; lia|]. split; [intros p _; split; apply Hf|].
    exists (rq :: repeat rq k). split; [simpl; now rewrite Ha2|].
    simpl. intros p Hp. assert (p = page) as -> by lia. left. }
  (* the loop goes on without saving a page *)
  assert (Hcont : forall page' w2, page <= page' <= page + 1 ->
            data_dir w2 = data_dir w1 -> attempts w2 = attempts w1 ->
            behind_checkpoint date data_type version page w
              (fetch_pages net fuel date data_type version page' w2)).
  { intros page' w2 Hpg H2 Ha2. destruct (Hsame w2 H2) as [Hf Hr].
    destruct (IH page' w2) as (Hle & Hfiles & new & Hnew & Hreq); [lia|lia|].
    split; [now rewrite <- Hr|].
    split; [intros p Hp; rewrite <- !Hf; now apply Hfiles|].
    exists ((rq :: repeat rq k) ++ new)%list.
    split; [now rewrite Hnew, Ha2, Hatt, <- app_assoc|].
    intros p Hp. apply elem_of_app.
    destruct (decide (p = page)) as [->|Hne]; [left; left|].
    right. apply Hreq. lia. }
  destruct t as [r|]; [|apply Hstop; [lia|reflexivity|reflexivity]].
  destruct (status_is (Some r) 200).
  { (* the page is saved *)
    destruct (Hsame w1 eq_refl) as [Hf Hr].
    destruct (IH (page + 1) (save_page date data_type version page r w1))
      as (Hle & Hfiles & new & Hnew & Hreq);
      [lia|rewrite resume_page_save_page by lia; lia|].
    rewrite resume_page_save_page in Hle by lia.
    split; [lia|].
    split.
    - intros p Hp. destruct (Hfiles p Hp) as [H1 H2].
      destruct (file_at_save_page_other date data_type version page r w1 p)
        as [H3 H4]; [lia|].
      rewrite H1, H2, H3, H4, !Hf. split; reflexivity.
    - exists ((rq :: repeat rq k) ++ new)%list.
      split; [now rewrite Hnew, attempts_save_page, Hatt, <- app_assoc|].
      intros p Hp. apply elem_of_app.
      destruct (decide (p = page)) as [->|Hne]; [left; left|].
      right. apply Hreq. lia. }
  destruct (status_is (Some r) 404); [apply Hstop; [lia|reflexivity|reflexivity]|].
  destruct (status_is (Some r) 500); [apply Hstop; [lia|reflexivity|reflexivity]|].
  destruct (status_is (Some r) 429); [apply Hcont; [lia|reflexivity|reflexivity]|].
  destruct ((400 <=? status_code r) && (status_code r <? 500)
            && negb (status_code r =? 429)).
  - destruct (page + 1 >? 50);
      [apply Hstop|apply Hcont]; solve [lia|reflexivity].
  - destruct (page >? 50);
      [apply Hstop|apply Hcont]; solve [lia|reflexivity].
Qed.

(** X12 — the checkpoint of a report type stays behind the pages that are
    saved: whether the page loop of [fetch_data_for_date] for a report type
    has ended or is cut off after some iterations, the page the next run
    resumes with is not before the page this run resumed with, no page file
    from that page on has been written, and every page from the resume page
    of this run up to it has been requested in this run.  So the next run
    loads no saved page again and passes over no page that was not asked
    for. *)
Theorem checkpoint_stays_behind_saved_pages (net : network) (fuel : nat)
    (date data_type version : string) (w : world) :
  let w' := world_of (fetch_type net fuel date data_type version w) in
  let first := resume_page w date data_type in
  let next := resume_page w' date data_type in
  first <= next
  /\ (forall p, next <= p ->
        file_at w' date (page_file data_type p)
        = file_at w date (page_file data_type p)
        /\ file_at w' date (page_file_latin1 data_type p)
           = file_at w date (page_file_latin1 data_type p))
  /\ exists new : list request,
       attempts w' = (attempts w ++ new)%list
       /\ forall p, first <= p < next ->
            page_request date data_type version p ∈ new.
Proof.
  cbv zeta. unfold fetch_type. rewrite start_page_resume.
  assert (Hfirst : 1 <= resume_page w date data_type).
  { unfold resume_page. destruct (Z.ltb_spec 0 (checkpoint_pages w date data_type)); lia. }
  pose proof (fetch_pages_checkpoint net date data_type version fuel
                (resume_page w date data_type) w Hfirst (Z.le_refl _)) as H.
  destruct (fetch_pages net fuel date data_type version
              (resume_page w date data_type) w) as [pg w1|w1];
    [|exact H].
  destruct H as (Hle & Hfiles & new & Hnew & Hreq). simpl in Hle, Hfiles, Hnew, Hreq.
  cbn [world_of].
  assert (Hnext : resume_page
                    (write_file date (metadata_file data_type)
                       (Json (final_metadata data_type date version pg)) w1)
                    date data_type = pg).
  { unfold resume_page, checkpoint_pages. rewrite file_at_write_file.
    destruct (decide _) as [_|N]; [|exfalso; apply N; now split]. simpl.
    destruct (Z.ltb_spec 0 (pg - 1)); lia. }
  rewrite Hnext. split; [exact Hle|]. split.
  - intros p Hp. destruct (Hfiles p Hp) as [H1 H2].
    destruct (page_files_not_metadata data_type p) as [Hm Hm'].
    rewrite !file_at_write_file.
    destruct (decide _) as [[_ E]|_]; [exfalso; now apply Hm|].
    destruct (decide _) as [[_ E]|_]; [exfalso; now apply Hm'|].
    split; assumption.
  - exists new. split; [exact Hnew|exact Hreq].
Qed.

Lemma fetch_pages_server_error (net : network) (date data_type version : string)
    (page : Z) :
  page <= 50 ->
  (forall hist, exists r,
     net hist (page_request date data_type version page) = Responded r
     /\ 500 <= status_code r < 600) ->
  forall (fuel : nat) (w : world),
    exists w',
      fetch_pages net fuel date data_type version page w = Running w'
      /\ attempts w'
         = (attempts w ++ repeat (page_request date data_type version page) fuel)%list
      /\ sleeps w'
         = (sleeps w ++ concat (repeat [API_RATE_LIMIT_SLEEP; 30] fuel))%list
      /\ data_dir w' = data_dir w.
Proof.
  intros Hpage Hnet. induction fuel as [|fuel IH]; intros w.
  { exists w. simpl. now rewrite !app_nil_r. }
  cbn [fetch_pages].
  destruct (Hnet (attempts w)) as (r & Hr & Hst).
  rewrite (safe_request_answered net _ w r Hr) by lia.
  rewrite status_is_200. destruct (Z.eqb_spec (status_code r) 200) as [E|_]; [lia|].
  rewrite !status_is_error_false by lia.
  destruct (Z.leb_spec 400 (status_code r)); [|lia].
  destruct (Z.ltb_spec (status_code r) 500); [lia|]. cbn [andb].
  destruct (Z.gtb_spec page 50); [lia|].
  destruct (IH (pause 30 (pause API_RATE_LIMIT_SLEEP
                            (send (page_request date data_type version page) w))))
    as (w' & Hrun & Ha & Hs & Hd).
  exists w'. split; [exact Hrun|]. split; [|split].
  - rewrite Ha. simpl. now rewrite <- app_assoc.
  - rewrite Hs. simpl. now rewrite <- !app_assoc.
  - rewrite Hd. reflexivity.
Qed.

(** X13 — a server error never ends the page loop: when the page a report
    type resumes with is not above 50 and every request for it is answered
    with a status from 500 to 599, [fetch_data_for_date] asks for this one
    page again and again, a second after each response and 30 seconds
    more, writes no file and never comes to the final checkpoint or to the
    next report type, however long it runs. *)
Theorem server_error_is_retried_without_end (net : network) (fuel : nat)
    (date data_type version : string) (w : world) :
  let first := resume_page w date data_type in
  first <= 50 ->
  (forall hist, exists r,
     net hist (page_request date data_type version first) = Responded r
     /\ 500 <= status_code r < 600) ->
  exists w',
    fetch_type net fuel date data_type version w = Running w'
    /\ attempts w'
       = (attempts w ++ repeat (page_request date data_type version first) fuel)%list
    /\ sleeps w' = (sleeps w ++ concat (repeat [API_RATE_LIMIT_SLEEP; 30] fuel))%list
    /\ data_dir w' = data_dir w.
Proof.
  intros first Hfirst Hnet. unfold fetch_type. rewrite start_page_resume. fold first.
  destruct (fetch_pages_server_error net date data_type version first Hfirst Hnet
              fuel w) as (w' & -> & H).
  exists w'. split; [reflexivity|exact H].
Qed.

Lemma server_error_is_retried_without_end_witness :
  exists w',
    fetch_type net_unavailable 3 "2024-03-01" "orders" "7" empty_world = Running w'
    /\ attempts w' = repeat (get_orders_page 1) 3
    /\ sleeps w' = [1; 30; 1; 30; 1; 30]
    /\ data_dir w' = ∅.
Proof.
  apply (server_error_is_retried_without_end net_unavailable 3 "2024-03-01" "orders"
           "7" empty_world).
  - vm_compute. discriminate.
  - intros hist. eexists. split; [reflexivity|]. simpl. lia.
Defined.

(* ===================================================================== *)
(** * Part XVIII — further properties of the historical fetch and of [load_order_data] *)
(* ===================================================================== *)

Lemma fetch_data_for_date_keeps (net : network) (fuel : nat) (date : string)
    (w : world) :
  keeps_other_dates date w (world_of (fetch_data_for_date net fuel date w)).
Proof.
  unfold fetch_data_for_date.
  eapply keeps_trans; [apply keeps_mkdir|apply fetch_types_keeps].
Qed.








(** The pauses of a run that finds every date done: one of 60 s after every
    block of ten dates but the last. *)
Lemma historical_chunks_idle_sleeps (net : network) (fuel : nat) (w0 : world) :
  forall (n : nat) (date_range : list string) (processed : gset string) (w : world),
    (forall d, d ∈ date_range -> date_done w0 d) ->
    (length date_range <= n * chunk_size)%nat ->
    data_dir w = data_dir w0 ->
    load_processed_dates w0 ⊆ processed ->
    exists processed' w',
      historical_chunks net fuel n date_range processed w = Finished processed' w'
      /\ sleeps w'
         = (sleeps w
            ++ repeat 60 ((length date_range + chunk_size - 1) / chunk_size - 1))%list.
Proof.
  induction n as [|n IH]; intros date_range processed w Hdone Hlen Hdir Hsub.
  - destruct date_range; [|simpl in Hlen; lia].
    exists processed, w. split; [reflexivity|]. simpl. now rewrite app_nil_r.
  - cbn [historical_chunks].
    destruct (historical_chunk_idle net fuel w0 (take chunk_size date_range))
      with (processed := processed) (w := w) as (p1 & Hp1 & Hsub1); try assumption.
    { intros d Hd. apply Hdone.
      rewrite <- (take_drop chunk_size date_range). apply elem_of_app. now left. }
    rewrite Hp1.
    assert (Hlater : forall d, d ∈ drop chunk_size date_range -> date_done w0 d).
    { intros d Hin. apply Hdone.
      rewrite <- (take_drop chunk_size date_range). apply elem_of_app. now right. }
    assert (Hlen' : (length (drop chunk_size date_range) <= n * chunk_size)%nat)
      by (rewrite length_drop; unfold chunk_size in *; lia).
    assert (Hsub' : load_processed_dates w0 ⊆ p1) by (etrans; eassumption).
    pose proof (length_drop date_range chunk_size) as Hdrop.
    destruct (drop chunk_size date_range) as [|d later] eqn:E.
    + destruct (IH [] p1 w) as (p2 & w2 & Hp2 & Hs2); try assumption.
      exists p2, w2. split; [exact Hp2|]. rewrite Hs2. f_equal. f_equal.
      simpl in Hdrop. unfold chunk_size in *.
      assert (length date_range <= 10)%nat as Hle by lia.
      replace ((length (@nil string) + 10 - 1) / 10)%nat with 0%nat by reflexivity.
      destruct (Nat.eq_dec (length date_range) 0%nat) as [E0|Hne];
        [rewrite E0; reflexivity|].
      replace ((length date_range + 10 - 1) / 10)%nat with 1%nat; [reflexivity|].
      apply Nat.div_unique with (r := (length date_range - 1)%nat); lia.
    + destruct (IH (d :: later) p1 (pause 60 w)) as (p2 & w2 & Hp2 & Hs2);
        try assumption.
      exists p2, w2. split; [exact Hp2|]. rewrite Hs2. simpl sleeps.
      rewrite <- app_assoc. f_equal.
      change ([60] ++ ?l)%list with (60 :: l). 
      unfold chunk_size in *.
      assert (Hq : ((length date_range + 10 - 1) / 10
                    = (length (d :: later) + 10 - 1) / 10 + 1)%nat).
      { rewrite <- Nat.div_add by lia. f_equal. simpl length in *. lia. }
      rewrite Hq.
      assert (0 < (length (d :: later) + 10 - 1) / 10)%nat.
      { apply Nat.div_str_pos. simpl. lia. }
      destruct ((length (d :: later) + 10 - 1) / 10)%nat as [|q]; [lia|].
      replace (S q - 1)%nat with q by lia.
      replace (S q + 1 - 1)%nat with (S q) by lia. reflexivity.
Qed.

(** X15 — a historical run over dates that all need no fetch still pauses:
    it sleeps 60 seconds after every block of ten dates but the last, and
    does not sleep otherwise; for [n] dates these are [ceil(n / 10) - 1]
    pauses (none for an empty range). *)
Theorem historical_idle_run_pauses (net : network) (fuel : nat)
    (date_range : list string) (w : world) :
  (forall d, d ∈ date_range -> date_done w d) ->
  exists processed w',
    load_all_historical_data net fuel date_range w = Finished processed w'
    /\ sleeps w'
       = (sleeps w ++ repeat 60 ((length date_range + 9) / 10 - 1))%list.
Proof.
  intros Hdone. unfold load_all_historical_data.
  destruct (historical_chunks_idle_sleeps net fuel w
              ((length date_range + chunk_size - 1) / chunk_size)%nat
              date_range (load_processed_dates w) w)
    as (p & w' & Hrun & Hs); try assumption; try reflexivity.
  - unfold chunk_size.
    pose proof (Nat.div_mod_eq (length date_range + 10 - 1) 10).
    pose proof (Nat.mod_upper_bound (length date_range + 10 - 1) 10).
    lia.
  - exists p, w'. split; [exact Hrun|]. rewrite Hs. unfold chunk_size.
    replace (length date_range + 10 - 1)%nat with (length date_range + 9)%nat by lia.
    reflexivity.
Qed.

Lemma historical_idle_run_pauses_witness :
  exists processed w',
    load_all_historical_data net_always_200 5 eleven_days eleven_done_world
    = Finished processed w'
    /\ sleeps w' = [60].
Proof.
  apply (historical_idle_run_pauses net_always_200 5 eleven_days eleven_done_world).
  intros d Hd. left.
  change (load_processed_dates eleven_done_world)
    with (list_to_set eleven_days : gset string).
  apply elem_of_list_to_set. exact Hd.
Defined.

Lemma load_order_days_frame (net : network) (fuel : nat) :
  forall (date_range : list string) (w : world),
    let w' := world_of (load_order_days net fuel date_range w) in
    status_file w' = status_file w
    /\ (forall d, d ∉ date_range -> data_dir w' !! d = data_dir w !! d)
    /\ exists new : list request,
         attempts w' = (attempts w ++ new)%list
         /\ Forall (fun rq => exists d t v p,
                      d ∈ date_range /\ (t, v) ∈ zip data_types versions
                      /\ rq = page_request d t v p) new.
Proof.
  induction date_range as [|d0 rest IH]; intros w.
  - split; [reflexivity|]. split; [reflexivity|].
    exists []. simpl. rewrite app_nil_r. split; [reflexivity|constructor].
  - cbn [load_order_days].
    pose proof (fetch_data_for_date_keeps net fuel d0 w) as (Hs & Hd & _).
    destruct (fetch_types_keeps net fuel d0 (zip data_types versions) (mkdir d0 w))
      as (_ & new1 & Hnew1 & Hall1).
    fold (fetch_data_for_date net fuel d0 w) in Hnew1.
    assert (Ha0 : attempts (mkdir d0 w) = attempts w)
      by (unfold mkdir; now destruct (data_dir w !! d0)).
    rewrite Ha0 in Hnew1.
    assert (Hall1' : Forall (fun rq => exists d t v p,
                        d ∈ d0 :: rest /\ (t, v) ∈ zip data_types versions
                        /\ rq = page_request d t v p) new1).
    { eapply Forall_impl; [exact Hall1|]. intros rq (t & v & p & Hin & ->).
      exists d0, t, v, p. split; [left|]. split; [exact Hin|reflexivity]. }
    destruct (fetch_data_for_date net fuel d0 w) as [[] w1|w1]; simpl in *.
    + destruct (IH (pause 10 w1)) as (Hs2 & Hd2 & new2 & Hnew2 & Hall2).
      split; [now rewrite Hs2|]. split.
      { intros d Hnot. rewrite Hd2 by (intros H; apply Hnot; now right).
        simpl. apply Hd. intros ->. apply Hnot. left. }
      exists (new1 ++ new2)%list. split.
      { rewrite Hnew2. simpl. now rewrite Hnew1, app_assoc. }
      apply Forall_app. split; [exact Hall1'|].
      eapply Forall_impl; [exact Hall2|].
      intros rq (d & t & v & p & Hin & Htv & ->).
      exists d, t, v, p. split; [now right|]. split; [exact Htv|reflexivity].
    + split; [exact Hs|]. split.
      { intros d Hnot. apply Hd. intros ->. apply Hnot. left. }
      exists new1. split; [exact Hnew1|exact Hall1'].
Qed.

(** X16 — [load_order_data] over a range of dates leaves the status file of
    the historical fetch alone, changes the directory of no date outside the
    range and sends requests for pages of the reports of dates of the range
    only; with no date it does nothing at all. *)
Theorem load_order_data_stays_in_range (net : network) (fuel : nat)
    (date_range : list string) (w : world) :
  let w' := world_of (load_order_data net fuel date_range w) in
  status_file w' = status_file w
  /\ (forall d, d ∉ date_range -> data_dir w' !! d = data_dir w !! d)
  /\ (exists new : list request,
        attempts w' = (attempts w ++ new)%list
        /\ Forall (fun rq => exists d t v p,
                     d ∈ date_range /\ (t, v) ∈ zip data_types versions
                     /\ rq = page_request d t v p) new)
  /\ (date_range = [] -> load_order_data net fuel date_range w = Finished tt w).
Proof.
  intros w'. subst w'. unfold load_order_data.
  destruct date_range as [|d rest].
  - simpl. split; [reflexivity|]. split; [reflexivity|]. split; [|reflexivity].
    exists []. rewrite app_nil_r. split; [reflexivity|constructor].
  - change (length (d :: rest) =? 0)%nat with false. cbv iota.
    destruct (load_order_days_frame net fuel (d :: rest) w) as (H1 & H2 & H3).
    split; [exact H1|]. split; [exact H2|]. split; [exact H3|discriminate].
Qed.

(* ===================================================================== *)
(** * Part XIX — properties of [chunks] and of the pages of the workers *)
(* ===================================================================== *)

Lemma py_slice_inside {A} (l : list A) (lo hi : Z) :
  0 <= lo <= hi -> hi <= Z.of_nat (length l) ->
  py_slice l lo hi = take (Z.to_nat hi - Z.to_nat lo) (drop (Z.to_nat lo) l).
Proof.
  intros H1 H2. unfold py_slice, slice_index.
  destruct (Z.ltb_spec lo 0); [lia|]. destruct (Z.ltb_spec hi 0); [lia|].
  rewrite !Z.min_l by lia. f_equal. lia.
Qed.

(** Consecutive slices between the cut points [cut 0 <= cut 1 <= ...] add up
    to the part of the list before the last cut point. *)
Lemma concat_consecutive {A} (l : list A) (cut : nat -> nat) (j : nat) :
  cut O = O ->
  (forall i, (i < j)%nat -> (cut i <= cut (S i))%nat) ->
  concat (map (fun i => take (cut (S i) - cut i) (drop (cut i) l)) (seq 0 j))
  = take (cut j) l.
Proof.
  intros H0 Hmono. induction j as [|j IH].
  - simpl. now rewrite H0.
  - rewrite seq_S, map_app, concat_app, IH by (intros; apply Hmono; lia).
    simpl. rewrite app_nil_r, take_take_drop. f_equal.
    pose proof (Hmono j). lia.
Qed.

Lemma seqZ_seq (m : Z) (n : nat) :
  seqZ m (Z.of_nat n) = map (fun i => m + Z.of_nat i) (seq 0 n).
Proof.
  unfold seqZ. rewrite Nat2Z.id. apply map_ext. intros i. lia.
Qed.

Lemma chunks_facts (len n : Z) :
  0 <= len -> 0 < n ->
  0 <= len / n /\ 0 <= len mod n < n /\ len = n * (len / n) + len mod n.
Proof.
  intros Hlen Hn. pose proof (Z.mod_pos_bound len n Hn).
  pose proof (Z.div_mod len n). split; [apply Z.div_pos; lia|]. split; lia.
Qed.

Lemma chunks_cut (len n : Z) (i : nat) :
  0 <= len -> 0 < n -> Z.of_nat i <= n ->
  Z.of_nat (chunk_cut len n i)
  = Z.of_nat i * (len / n) + Z.min (Z.of_nat i) (len mod n)
  /\ Z.of_nat (chunk_cut len n i) <= len.
Proof.
  intros Hlen Hn Hi. destruct (chunks_facts len n Hlen Hn) as (Hk & Hm & Hdiv).
  unfold chunk_cut. rewrite Z2Nat.id by nia. split; [reflexivity|]. nia.
Qed.

Lemma chunks_spec {A} (lst : list A) (n : Z) :
  0 < n ->
  let cut := chunk_cut (Z.of_nat (length lst)) n in
  chunks lst n
  = Some (map (fun i => take (cut (S i) - cut i) (drop (cut i) lst))
            (seq 0 (Z.to_nat n))).
Proof.
  intros Hn cut. unfold chunks. destruct (Z.eqb_spec n 0); [lia|]. f_equal.
  unfold py_range. rewrite Z.sub_0_r.
  rewrite <- (Z2Nat.id n) at 1 by lia. rewrite seqZ_seq, map_map.
  apply map_ext_in. intros i Hi. apply in_seq in Hi.
  assert (Hlen : 0 <= Z.of_nat (length lst)) by lia.
  destruct (chunks_facts _ n Hlen Hn) as (Hk & Hm & Hdiv).
  destruct (chunks_cut _ n i Hlen Hn) as [Hc1 Hc1']; [lia|].
  destruct (chunks_cut _ n (S i) Hlen Hn) as [Hc2 Hc2']; [lia|].
  rewrite Z.add_0_l.
  replace (Z.of_nat i + 1) with (Z.of_nat (S i)) by lia.
  rewrite py_slice_inside; [subst cut; unfold chunk_cut; reflexivity| |lia].
  rewrite <- Hc1, <- Hc2. nia.
Qed.

(** X17 — for a positive [n], [chunks(lst, n)] gives exactly [n] pieces, and
    the pieces put one after the other are the list: no element is lost,
    repeated or moved. *)
Theorem chunks_partition {A} (lst : list A) (n : Z) :
  0 < n ->
  exists parts,
    chunks lst n = Some parts
    /\ length parts = Z.to_nat n
    /\ concat parts = lst.
Proof.
  intros Hn. rewrite (chunks_spec lst n Hn). eexists. split; [reflexivity|].
  split; [now rewrite length_map, length_seq|].
  assert (Hlen : 0 <= Z.of_nat (length lst)) by lia.
  destruct (chunks_facts _ n Hlen Hn) as (Hk & Hm & Hdiv).
  rewrite (concat_consecutive lst (chunk_cut (Z.of_nat (length lst)) n)).
  - apply take_ge.
    destruct (chunks_cut _ n (Z.to_nat n) Hlen Hn) as [H1 _]; [lia|].
    rewrite Z2Nat.id in H1 by lia. rewrite Z.min_r in H1 by lia. lia.
  - destruct (chunks_cut _ n 0 Hlen Hn) as [H0 _]; [lia|].
    change (Z.of_nat 0) with 0 in H0. lia.
  - intros i Hi.
    destruct (chunks_cut _ n i Hlen Hn) as [H1 _]; [lia|].
    destruct (chunks_cut _ n (S i) Hlen Hn) as [H2 _]; [lia|]. nia.
Qed.

Lemma chunks_partition_witness :
  exists parts,
    chunks [1; 2; 3; 4; 5] 2 = Some parts
    /\ length parts = 2%nat
    /\ concat parts = [1; 2; 3; 4; 5].
Proof. exact (chunks_partition [1; 2; 3; 4; 5] 2 eq_refl). Defined.

(** X18 — the pieces of [chunks(lst, n)] are balanced: piece [i] (counted
    from 0) has [len(lst) // n] elements, and one more when
    [i < len(lst) % n]; so the lengths differ by one at most and the longer
    pieces come first. *)
Theorem chunks_balanced {A} (lst : list A) (n : Z) (parts : list (list A))
    (i : nat) (part : list A) :
  0 < n ->
  chunks lst n = Some parts ->
  parts !! i = Some part ->
  Z.of_nat (length part)
  = Z.of_nat (length lst) / n
    + (if Z.of_nat i <? Z.of_nat (length lst) mod n then 1 else 0).
Proof.
  intros Hn Hparts Hi. rewrite (chunks_spec lst n Hn) in Hparts.
  injection Hparts as <-.
  rewrite list_lookup_fmap in Hi.
  destruct (seq 0 (Z.to_nat n) !! i) as [j|] eqn:Hj; [|discriminate].
  apply lookup_seq in Hj as [-> Hlt]. simpl in Hi. injection Hi as <-.
  assert (Hlen : 0 <= Z.of_nat (length lst)) by lia.
  destruct (chunks_facts _ n Hlen Hn) as (Hk & Hm & Hdiv).
  destruct (chunks_cut _ n i Hlen Hn) as [H1 H1']; [lia|].
  destruct (chunks_cut _ n (S i) Hlen Hn) as [H2 H2']; [lia|].
  rewrite length_take, length_drop.
  destruct (Z.ltb_spec (Z.of_nat i) (Z.of_nat (length lst) mod n)); nia.
Qed.

Lemma chunks_balanced_witness :
  Z.of_nat (length [1; 2; 3]) = 5 / 2 + (if 0 <? 5 mod 2 then 1 else 0).
Proof.
  exact (chunks_balanced [1; 2; 3; 4; 5] 2 [[1; 2; 3]; [4; 5]] 0 [1; 2; 3]
           eq_refl eq_refl eq_refl).
Defined.

Lemma py_slice_clamped {A} (l : list A) (lo hi : Z) :
  0 <= lo <= hi ->
  py_slice l lo hi
  = take (Nat.min (Z.to_nat hi) (length l) - Nat.min (Z.to_nat lo) (length l))
      (drop (Nat.min (Z.to_nat lo) (length l)) l).
Proof.
  intros H. unfold py_slice, slice_index.
  destruct (Z.ltb_spec lo 0); [lia|]. destruct (Z.ltb_spec hi 0); [lia|].
  f_equal; [lia|f_equal; lia].
Qed.

Lemma length_py_range (start stop : Z) :
  length (py_range start stop) = Z.to_nat (stop - start).
Proof. unfold py_range. apply length_seqZ. Qed.

(** Slices of [step] elements starting at the multiples of [step] below
    the length of the list: together they are the list, none is empty, and
    there are [ceil(len / step)] of them. *)
Lemma step_slices {A} (l : list A) (step : Z) :
  0 < step ->
  let parts := map (fun i => py_slice l i (i + step))
                 (py_range_step (Z.of_nat (length l)) step) in
  concat parts = l
  /\ Forall (fun part => part <> []) parts
  /\ Z.of_nat (length parts) = (Z.of_nat (length l) + step - 1) / step.
Proof.
  intros Hstep parts.
  set (len := Z.of_nat (length l)) in *.
  set (c := (len + step - 1) / step) in *.
  assert (Hc : step * (c - 1) < len <= step * c /\ 0 <= c).
  { subst c. pose proof (Z.div_mod (len + step - 1) step).
    pose proof (Z.mod_pos_bound (len + step - 1) step Hstep).
    assert (0 <= (len + step - 1) / step) by (apply Z.div_pos; lia).
    split; [|assumption]. nia. }
  set (cut := fun i : nat => Nat.min (Z.to_nat (Z.of_nat i * step)) (length l)).
  assert (Hparts : parts = map (fun i => take (cut (S i) - cut i) (drop (cut i) l))
                             (seq 0 (Z.to_nat c))).
  { subst parts. unfold py_range_step. fold len c. rewrite map_map.
    apply map_ext. intros i. rewrite py_slice_clamped by nia.
    subst cut. cbv beta.
    replace (Z.of_nat i * step + step) with (Z.of_nat (S i) * step) by lia.
    reflexivity. }
  split; [|split].
  - rewrite Hparts, (concat_consecutive l cut).
    + apply take_ge. subst cut. cbv beta. apply Nat.min_case_strong; nia.
    + reflexivity.
    + intros i _. subst cut. cbv beta. nia.
  - rewrite Hparts. apply Forall_forall. intros part Hin.
    apply list_elem_of_In, in_map_iff in Hin as (i & <- & Hi).
    apply in_seq in Hi. intros E.
    apply (f_equal (@length _)) in E. rewrite length_take, length_drop in E.
    subst cut. cbv beta in E. simpl in E. nia.
  - rewrite Hparts, length_map, length_seq. lia.
Qed.

(** X19 — the split of the pages among the worker processes in
    [load_variations_barcodes]: the slices hold, in order and once each, the
    pages from 2 to the last page (to page 1000 when there are more; no
    page when there is one page at most), no slice is empty, and there are
    [WORKERS] slices at most; with [WORKERS = 1] all further pages are one
    slice, for one process. *)
Theorem worker_chunks_cover_pages (total_pages : Z) :
  let parts := worker_chunks total_pages in
  concat parts = py_range 2 (Z.min total_pages 1000 + 1)
  /\ Forall (fun part => part <> []) parts
  /\ Z.of_nat (length parts) <= WORKERS
  /\ (1 < total_pages -> parts = [py_range 2 (Z.min total_pages 1000 + 1)]).
Proof.
  intros parts. subst parts. unfold worker_chunks.
  destruct (Z.leb_spec total_pages 1) as [Hle|Hgt].
  { split; [|split; [constructor|split; [unfold WORKERS; simpl; lia|lia]]].
    unfold py_range, seqZ. replace (Z.to_nat _) with O by lia. reflexivity. }
  set (T := if total_pages >? 1000 then 1000 else total_pages).
  assert (HT : T = Z.min total_pages 1000 /\ 2 <= T).
  { subst T. destruct (Z.gtb_spec total_pages 1000); lia. }
  destruct HT as [HT HT2].
  set (all_pages := py_range 2 (T + 1)).
  set (W := WORKERS).
  assert (HW : 1 <= W <= 1) by (subst W; unfold WORKERS; lia).
  set (step := Z.of_nat (length all_pages) / W + 1).
  assert (Hlen : Z.of_nat (length all_pages) = T - 1).
  { subst all_pages. rewrite length_py_range. lia. }
  assert (Hstep : 0 < step).
  { subst step. assert (0 <= Z.of_nat (length all_pages) / W) by (apply Z.div_pos; lia).
    lia. }
  destruct (step_slices all_pages step Hstep) as (Hcat & Hne & Hcount).
  (* ceil(len / step) <= W because W * step > len *)
  assert (Hbig : Z.of_nat (length all_pages) < W * step).
  { subst step. pose proof (Z.div_mod (Z.of_nat (length all_pages)) W).
    pose proof (Z.mod_pos_bound (Z.of_nat (length all_pages)) W). nia. }
  assert (Hfew : (Z.of_nat (length all_pages) + step - 1) / step < W + 1).
  { apply Z.div_lt_upper_bound; [lia|]. nia. }
  rewrite <- Hcount in Hfew.
  revert Hcat Hne Hfew.
  generalize (map (fun i => py_slice all_pages i (i + step))
                (py_range_step (Z.of_nat (length all_pages)) step)).
  intros parts Hcat Hne Hfew.
  split; [rewrite Hcat; subst all_pages; now rewrite HT|].
  split; [exact Hne|]. split; [lia|]. intros _.
  destruct parts as [|part [|part' parts]].
  - apply (f_equal (@length _)) in Hcat. simpl in Hcat. lia.
  - simpl in Hcat. rewrite app_nil_r in Hcat. subst part all_pages. now rewrite HT.
  - simpl in Hfew. lia.
Qed.

(* ===================================================================== *)
(** * Part XX — the page files from the fetch to the processing *)
(* ===================================================================== *)

Lemma string_length_app (s t : string) :
  String.length (s ++ t) = (String.length s + String.length t)%nat.
Proof.
  induction s as [|c s IH]; [reflexivity|].
  rewrite string_app_cons. simpl. now rewrite IH.
Qed.

Lemma prefix_app (s t : string) : String.prefix s (s ++ t) = true.
Proof.
  induction s as [|c s IH]; [now destruct t|].
  rewrite string_app_cons. simpl.
  destruct (ascii_dec c c); [exact IH|contradiction].
Qed.

Lemma substring_app_tail (s t : string) :
  String.substring (String.length s) (String.length t) (s ++ t) = t.
Proof.
  induction s as [|c s IH].
  - change ("" ++ t) with t. simpl.
    induction t as [|c t IHt]; [reflexivity|]. simpl. now rewrite IHt.
  - rewrite string_app_cons. simpl. exact IH.
Qed.

Lemma ends_with_app (s t : string) : ends_with t (s ++ t) = true.
Proof.
  unfold ends_with. rewrite string_length_app.
  replace (String.length s + String.length t - String.length t)%nat
    with (String.length s) by lia.
  rewrite substring_app_tail, String.eqb_refl, andb_true_r.
  apply Nat.leb_le. lia.
Qed.

Lemma is_page_csv_own (type_name middle : string) :
  is_page_csv type_name (type_name ++ "_page_" ++ middle ++ ".csv") = true.
Proof.
  unfold is_page_csv.
  rewrite <- (string_app_assoc type_name "_page_" (middle ++ ".csv")).
  rewrite prefix_app.
  rewrite <- (string_app_assoc (type_name ++ "_page_") middle ".csv").
  rewrite ends_with_app. simpl.
  apply Nat.leb_le. rewrite !string_length_app. simpl. lia.
Qed.

Lemma page_files_match_own_pattern (data_type other : string) (page : Z) :
  data_type ∈ data_types -> other ∈ data_types ->
  is_page_csv data_type (page_file data_type page) = true
  /\ is_page_csv data_type (page_file_latin1 data_type page) = true
  /\ is_page_csv data_type (metadata_file other) = false
  /\ (data_type <> other ->
      is_page_csv other (page_file data_type page) = false
      /\ is_page_csv other (page_file_latin1 data_type page) = false).
Proof.
  intros Hd Ho. split; [|split; [|split]].
  - apply is_page_csv_own.
  - unfold page_file_latin1.
    replace (data_type ++ "_page_" ++ pretty page ++ "_latin1.csv")
      with (data_type ++ "_page_" ++ (pretty page ++ "_latin1") ++ ".csv")
      by now rewrite (string_app_assoc (pretty page) "_latin1" ".csv").
    apply is_page_csv_own.
  - unfold data_types in *.
    repeat (apply elem_of_cons in Hd as [->|Hd]);
      try (apply elem_of_nil in Hd; contradiction);
      repeat (apply elem_of_cons in Ho as [->|Ho]);
      try (apply elem_of_nil in Ho; contradiction); reflexivity.
  - intros Hne. unfold data_types in *.
    repeat (apply elem_of_cons in Hd as [->|Hd]);
      try (apply elem_of_nil in Hd; contradiction);
      repeat (apply elem_of_cons in Ho as [->|Ho]);
      try (apply elem_of_nil in Ho; contradiction);
      try contradiction; split; reflexivity.
Qed.

Lemma elem_of_page_csv_files (type_name name : string) (dir : gmap string file) :
  name ∈ page_csv_files type_name dir
  <-> is_page_csv type_name name = true /\ is_Some (dir !! name).
Proof.
  unfold page_csv_files. rewrite list_elem_of_filter.
  apply and_iff_compat_l. rewrite list_elem_of_fmap. split.
  - intros ([k f] & -> & Hin). apply elem_of_map_to_list in Hin. simpl. eauto.
  - intros [f Hf]. exists (name, f). split; [reflexivity|].
    now apply elem_of_map_to_list.
Qed.

(** X20 — a page that the fetch saves is found by the processing: for each
    of the three report types the file that [fetch_data_for_date] writes
    for a page (under the plain name or, after the latin-1 fallback, under
    the [_latin1] name) holds the body of the response and matches the
    pattern [{type_name}_page_*.csv] of [process_date_directory] for its own
    type, but not for another type, although [orderItems] is the start of
    [orderItemAmounts]; and no checkpoint file matches the pattern. *)
Theorem saved_page_is_picked_up (date data_type version : string) (page : Z)
    (r : response) (w : world) :
  data_type ∈ data_types ->
  let dir := default ∅ (data_dir (save_page date data_type version page r w) !! date) in
  exists name,
    (name = page_file data_type page \/ name = page_file_latin1 data_type page)
    /\ dir !! name = Some (Page (content r))
    /\ name ∈ page_csv_files data_type dir
    /\ (forall other, other ∈ data_types -> other <> data_type ->
          name ∉ page_csv_files other dir)
    /\ (forall other, other ∈ data_types ->
          metadata_file other ∉ page_csv_files data_type dir).
Proof.
  intros Hd dir.
  set (name := if decodes_utf8 (content r) then page_file data_type page
               else page_file_latin1 data_type page).
  assert (Hname : name = page_file data_type page
                  \/ name = page_file_latin1 data_type page)
    by (subst name; destruct (decodes_utf8 _); auto).
  assert (Hown : is_page_csv data_type name = true).
  { destruct (page_files_match_own_pattern data_type data_type page Hd Hd)
      as (H1 & H2 & _). destruct Hname as [-> | ->]; assumption. }
  assert (Hmeta : forall other, other ∈ data_types ->
                    is_page_csv data_type (metadata_file other) = false).
  { intros other Ho.
    now destruct (page_files_match_own_pattern data_type other page Hd Ho)
      as (_ & _ & H3 & _). }
  assert (Hfile : dir !! name = Some (Page (content r))).
  { subst dir name. fold (file_at (save_page date data_type version page r w) date
                            (if decodes_utf8 (content r)
                             then page_file data_type page
                             else page_file_latin1 data_type page)).
    unfold save_page.
    destruct (decodes_utf8 (content r)); rewrite !file_at_write_file;
      rewrite decide_False, decide_True; auto; intros [_ E];
      pose proof (Hmeta data_type Hd) as Hm; rewrite E in Hm; congruence. }
  exists name. split; [exact Hname|]. split; [exact Hfile|]. split; [|split].
  - apply elem_of_page_csv_files. split; [exact Hown|]. rewrite Hfile. eauto.
  - intros other Ho Hne Hin. apply elem_of_page_csv_files in Hin as [Hin _].
    destruct (page_files_match_own_pattern data_type other page Hd Ho)
      as (_ & _ & _ & H4). destruct H4 as [H4 H5]; [congruence|].
    destruct Hname as [-> | ->]; congruence.
  - intros other Ho Hin. apply elem_of_page_csv_files in Hin as [Hin _].
    rewrite (Hmeta other Ho) in Hin. discriminate.
Qed.

Lemma saved_page_is_picked_up_witness :
  exists name,
    (name = page_file "orders" 1 \/ name = page_file_latin1 "orders" 1)
    /\ name ∈ page_csv_files "orders"
                (default ∅ (data_dir (save_page "2024-03-01" "orders" "7" 1
                                        small_page empty_world) !! "2024-03-01")).
Proof.
  destruct (saved_page_is_picked_up "2024-03-01" "orders" "7" 1 small_page
              empty_world)
    as (name & Hname & _ & Hin & _).
  - apply list_elem_of_In. simpl. right. left. reflexivity.
  - exists name. split; [exact Hname|exact Hin].
Defined.

(* ===================================================================== *)
(** * Part XXI — properties of the barcode functions *)
(* ===================================================================== *)

Lemma py_get_dict (v : json) (key : string) :
  is_dict v = true -> py_get v key JNull = Ok (field key v).
Proof.
  destruct v; try discriminate. intros _. simpl.
  now destruct (assoc key fields).
Qed.

Lemma barcode_row_dict (entry : json) :
  is_dict entry = true ->
  barcode_row entry
  = Ok (if has_wg_code entry then Some (barcode_columns entry) else None).
Proof.
  intros Hd. unfold barcode_row, has_wg_code, barcode_columns.
  rewrite (py_get_dict entry "wg1" Hd). cbn [mbind result_bind].
  rewrite (py_get_dict entry "wg2" Hd). cbn [mbind result_bind].
  destruct (negb (is_none (field "wg1" entry)) || negb (is_none (field "wg2" entry)));
    [|reflexivity].
  now rewrite (py_get_dict entry "variation_id" Hd).
Qed.

Lemma barcode_row_other (entry : json) :
  is_dict entry = false -> exists e, barcode_row entry = Raise e.
Proof. destruct entry; try discriminate; intros _; eexists; reflexivity. Qed.

Lemma barcode_rows_dicts (entries : list json) :
  forallb is_dict entries = true ->
  forall acc,
    barcode_rows entries acc
    = Ok (acc ++ map barcode_columns (List.filter has_wg_code entries))%list.
Proof.
  induction entries as [|e entries IH]; intros Hall acc.
  - simpl. now rewrite app_nil_r.
  - simpl in Hall. apply andb_prop in Hall as [He Hall].
    cbn [barcode_rows]. rewrite (barcode_row_dict e He). simpl.
    rewrite (IH Hall). destruct (has_wg_code e); simpl; [|reflexivity].
    now rewrite <- app_assoc.
Qed.

Lemma barcode_rows_broken (entries : list json) :
  forallb is_dict entries = false ->
  forall acc, exists e, barcode_rows entries acc = Raise e.
Proof.
  induction entries as [|x entries IH]; intros Hall acc; [discriminate|].
  simpl in Hall. cbn [barcode_rows].
  destruct (is_dict x) eqn:Hx.
  - rewrite (barcode_row_dict x Hx). simpl. apply IH. exact Hall.
  - destruct (barcode_row_other x Hx) as [e ->]. exists e. reflexivity.
Qed.

(** X21 — [process_barcodes] keeps, in the order of the file, the entries
    that have a WG1 or a WG2 code, reduced to the columns [variation_id],
    [wg1] and [wg2] (a missing one is [None]), and drops the entries with
    neither code; if one entry of the list is not an object, the exception
    is caught and no row at all is returned.  Every row it returns, whatever
    the file holds, has exactly these three columns and a [wg1] or a [wg2]
    that is not [None]. *)
Theorem process_barcodes_rows (barcode_file : json_file) :
  (forall fields entries,
     barcode_file = Content (JDict fields) ->
     assoc "entries" fields = Some (JList entries) ->
     process_barcodes barcode_file
     = if forallb is_dict entries
       then map barcode_columns (List.filter has_wg_code entries)
       else [])
  /\ Forall (fun row => keys row = ["variation_id"; "wg1"; "wg2"]
                        /\ (assoc "wg1" row <> Some JNull
                            \/ assoc "wg2" row <> Some JNull))
       (process_barcodes barcode_file).
Proof.
  assert (Hrows : forall entries,
            Forall (fun row => keys row = ["variation_id"; "wg1"; "wg2"]
                               /\ (assoc "wg1" row <> Some JNull
                                   \/ assoc "wg2" row <> Some JNull))
              (map barcode_columns (List.filter has_wg_code entries))).
  { intros entries. apply Forall_forall. intros row Hin.
    apply list_elem_of_In, in_map_iff in Hin as (e & <- & He).
    apply filter_In in He as [_ He]. split; [reflexivity|].
    unfold has_wg_code in He. simpl.
    destruct (field "wg1" e); try (left; discriminate).
    destruct (field "wg2" e); (right; discriminate) || discriminate He. }
  assert (Hlist : forall entries,
            match (_ ← json_len (JList entries);
                   items ← json_iter (JList entries);
                   barcode_rows items []) with
            | Ok r => r | Raise _ => []
            end
            = if forallb is_dict entries
              then map barcode_columns (List.filter has_wg_code entries)
              else []).
  { intros entries. simpl.
    destruct (forallb is_dict entries) eqn:Hall.
    - now rewrite (barcode_rows_dicts entries Hall []).
    - destruct (barcode_rows_broken entries Hall []) as [e ->]. reflexivity. }
  split.
  - intros fields entries -> Hentries. unfold process_barcodes, process_barcodes_body.
    simpl. rewrite Hentries. simpl.
    destruct entries as [|x entries]; [reflexivity|].
    change (negb (json_truth (JList (x :: entries)))) with false. cbv iota.
    apply Hlist.
  - destruct barcode_file as [| |data]; try constructor.
    unfold process_barcodes, process_barcodes_body.
    destruct (py_get data "entries" (JList [])) as [entries|e] eqn:Hget;
      [|constructor].
    cbn [mbind result_bind].
    destruct (negb (json_truth entries)); [constructor|].
    destruct entries as [| | | s | items | d].
    + constructor.
    + constructor.
    + constructor.
    + (* a string: its characters are no dicts *)
      simpl. destruct (list_ascii_of_string s) as [|c cs]; constructor.
    + rewrite (Hlist items).
      destruct (forallb is_dict items); [apply Hrows|constructor].
    + (* a dict: its keys are no dicts *)
      simpl. destruct d as [|[k v] d]; constructor.
Qed.

(** What the loop leaves in [wg1] and [wg2]. *)
Lemma barcode_ids_loop_spec (entries : list json) :
  forall wg1 wg2 w1 w2,
    barcode_ids_loop entries wg1 wg2 = Ok (w1, w2) ->
    forallb is_dict entries = true
    /\ w1 = default wg1 (last_id_named "WG1" entries)
    /\ w2 = default wg2 (last_id_named "WG2" entries).
Proof.
  induction entries as [|e entries IH]; intros wg1 wg2 w1 w2 H.
  - injection H as <- <-. repeat split.
  - cbn [barcode_ids_loop] in H.
    destruct (is_dict e) eqn:He.
    2:{ destruct e; try discriminate He; discriminate H. }
    rewrite (py_get_dict e "id" He) in H. cbn [mbind result_bind] in H.
    rewrite (py_get_dict e "name" He) in H. cbn [mbind result_bind] in H.
    destruct (negb (hashable (field "name" e))); [discriminate|].
    apply IH in H as (Hd & -> & ->).
    split; [simpl; now rewrite He|].
    cbn [last_id_named].
    split.
    + destruct (last_id_named "WG1" entries); [reflexivity|].
      now destruct (json_is_str (field "name" e) "WG1").
    + destruct (last_id_named "WG2" entries); [reflexivity|].
      now destruct (json_is_str (field "name" e) "WG2").
Qed.

Lemma barcode_ids_loop_dicts (entries : list json) :
  forallb is_dict entries = true ->
  forallb (fun e => hashable (field "name" e)) entries = true ->
  forall wg1 wg2, exists w1 w2, barcode_ids_loop entries wg1 wg2 = Ok (w1, w2).
Proof.
  induction entries as [|e entries IH]; intros Hd Hh wg1 wg2; [simpl; eauto|].
  simpl in Hd, Hh. apply andb_prop in Hd as [He Hd]. apply andb_prop in Hh as [Hn Hh].
  cbn [barcode_ids_loop].
  rewrite (py_get_dict e "id" He). cbn [mbind result_bind].
  rewrite (py_get_dict e "name" He). cbn [mbind result_bind].
  rewrite Hn. simpl negb. cbv iota. now apply IH.
Qed.

(** The entries the loop of [get_barcode_ids] runs through, when the call
    does not raise before the loop has ended. *)
Lemma get_barcode_ids_loop (data : json) :
  get_barcode_ids data
  = match data with
    | JDict fields =>
        match json_iter (default (JList []) (assoc "entries" fields)) with
        | Ok items =>
            match barcode_ids_loop items (JInt (-1)) (JInt (-1)) with
            | Ok (wg1, wg2) =>
                match json_lt_zero wg1 with
                | Ok false =>
                    match json_lt_zero wg2 with
                    | Ok false => Some (wg1, wg2)
                    | _ => None
                    end
                | _ => None
                end
            | Raise _ => None
            end
        | Raise _ => None
        end
    | _ => None
    end.
Proof.
  unfold get_barcode_ids. destruct data; try reflexivity. simpl.
  destruct (assoc "isLastPage" fields); cbn [mbind result_bind];
    destruct (assoc "entries" fields) as [x|]; simpl;
    try (destruct (json_iter x) as [items|]; simpl); reflexivity.
Qed.

(** X22 — [get_barcode_ids] returns the id of the last entry named [WG1]
    and the id of the last entry named [WG2] of the response, and only ids
    that are not below 0; when the entries are a list without an entry of
    one of the two names, it raises instead; and for a list of objects with
    hashable names whose last [WG1] and last [WG2] entry have integer ids
    from 0 on, it does return these two ids. *)
Theorem get_barcode_ids_last_wins (data : json) :
  (forall wg1 wg2,
     get_barcode_ids data = Some (wg1, wg2) ->
     exists entries,
       field "entries" data = JList entries
       /\ last_id_named "WG1" entries = Some wg1
       /\ last_id_named "WG2" entries = Some wg2
       /\ json_lt_zero wg1 = Ok false
       /\ json_lt_zero wg2 = Ok false)
  /\ (forall entries,
        field "entries" data = JList entries ->
        last_id_named "WG1" entries = None \/ last_id_named "WG2" entries = None ->
        get_barcode_ids data = None)
  /\ (forall entries wg1 wg2,
        is_dict data = true ->
        field "entries" data = JList entries ->
        forallb is_dict entries = true ->
        forallb (fun e => hashable (field "name" e)) entries = true ->
        last_id_named "WG1" entries = Some (JInt wg1) ->
        last_id_named "WG2" entries = Some (JInt wg2) ->
        0 <= wg1 -> 0 <= wg2 ->
        get_barcode_ids data = Some (JInt wg1, JInt wg2)).
Proof.
  rewrite get_barcode_ids_loop. split; [|split].
  - intros wg1 wg2 H. destruct data as [| | | | |fields]; try discriminate.
    assert (Hcase : exists entries,
              default (JList []) (assoc "entries" fields) = JList entries
              /\ (assoc "entries" fields = None -> entries = [])
              /\ (forall x, assoc "entries" fields = Some x -> x = JList entries)).
    { destruct (assoc "entries" fields) as [x|] eqn:Ha.
      - simpl in *. destruct x; try discriminate H.
        + revert H. destruct s; cbv; intros [=].
        + exists items. split; [reflexivity|].
          split; [intros [=]|now intros ? [= <-]].
        + revert H. destruct fields0 as [|[k v] fs]; cbv; intros [=].
      - exists []. split; [reflexivity|]. split; [reflexivity|discriminate]. }
    destruct Hcase as (entries & Hent & Hnone & Hsome).
    rewrite Hent in H. cbn [json_iter] in H.
    destruct (barcode_ids_loop entries (JInt (-1)) (JInt (-1))) as [[w1 w2]|] eqn:E;
      [|discriminate].
    apply barcode_ids_loop_spec in E as (_ & Hw1 & Hw2).
    destruct (json_lt_zero w1) as [[|]|] eqn:H1; try discriminate.
    destruct (json_lt_zero w2) as [[|]|] eqn:H2; try discriminate.
    injection H as <- <-.
    exists entries.
    destruct (last_id_named "WG1" entries) as [a|] eqn:La;
      [|subst w1; discriminate].
    destruct (last_id_named "WG2" entries) as [b|] eqn:Lb;
      [|subst w2; discriminate].
    simpl in Hw1, Hw2. subst a b.
    split; [|repeat split; assumption].
    simpl. destruct (assoc "entries" fields) as [x|] eqn:Ha.
    + now apply Hsome.
    + rewrite (Hnone eq_refl) in La. discriminate.
  - intros entries Hent Hmiss. destruct data as [| | | | |fields]; try reflexivity.
    simpl in Hent. destruct (assoc "entries" fields) as [x|]; [|discriminate].
    subst x.
    change (json_iter (default (JList []) (Some (JList entries))))
      with (Ok entries : result (list json)).
    cbv beta iota.
    destruct (barcode_ids_loop entries (JInt (-1)) (JInt (-1))) as [[w1 w2]|] eqn:E;
      [|reflexivity].
    apply barcode_ids_loop_spec in E as (_ & -> & ->).
    destruct Hmiss as [-> | ->]; simpl; [reflexivity|].
    destruct (json_lt_zero _) as [[|]|]; reflexivity.
  - intros entries wg1 wg2 Hd Hent Hall Hhash L1 L2 Hn1 Hn2.
    destruct data as [| | | | |fields]; try discriminate.
    simpl in Hent. destruct (assoc "entries" fields) as [x|]; [|discriminate].
    subst x.
    change (json_iter (default (JList []) (Some (JList entries))))
      with (Ok entries : result (list json)).
    cbv beta iota.
    destruct (barcode_ids_loop_dicts entries Hall Hhash (JInt (-1)) (JInt (-1)))
      as (w1 & w2 & E).
    rewrite E. apply barcode_ids_loop_spec in E as (_ & -> & ->).
    rewrite L1, L2. simpl.
    destruct (Z.ltb_spec wg1 0); [lia|]. destruct (Z.ltb_spec wg2 0); [lia|].
    reflexivity.
Qed.

(** Case analysis on the optional value the goal matches on. *)
Ltac case_option :=
  match goal with
  | |- context [match ?o with Some _ => _ | None => _ end] => now destruct o
  end.

Lemma variation_barcodes_loop_spec (wg1 wg2 : Z) (barcodes : list json) :
  forall d c1 c2 d' c1' c2',
    variation_barcodes_loop barcodes wg1 wg2 d c1 c2 = Ok (d', c1', c2') ->
    forallb is_dict barcodes = true
    /\ c1' = default c1 (last_code (fun i => json_eq_int i wg1) barcodes)
    /\ c2' = default c2
               (last_code (fun i => negb (json_eq_int i wg1) && json_eq_int i wg2)
                  barcodes).
Proof.
  induction barcodes as [|bc barcodes IH]; intros d c1 c2 d' c1' c2' H.
  - injection H as <- <- <-. repeat split.
  - cbn [variation_barcodes_loop] in H.
    destruct (is_dict bc) eqn:Hbc.
    2:{ destruct bc; try discriminate Hbc; discriminate H. }
    rewrite (py_get_dict bc "barcodeId" Hbc) in H. cbn [mbind result_bind] in H.
    rewrite (py_get_dict bc "code" Hbc) in H. cbn [mbind result_bind] in H.
    destruct (negb (hashable (field "barcodeId" bc))); [discriminate|].
    cbn [last_code forallb]. cbv beta. rewrite Hbc. cbn [andb].
    destruct (json_eq_int (field "barcodeId" bc) wg1) eqn:E1.
    + apply IH in H as (Hd & -> & ->). split; [exact Hd|]. cbn [negb andb]. split.
      * case_option.
      * case_option.
    + cbn [negb andb].
      destruct (json_eq_int (field "barcodeId" bc) wg2) eqn:E2.
      * apply IH in H as (Hd & -> & ->). split; [exact Hd|]. split.
        -- case_option.
        -- case_option.
      * apply IH in H as (Hd & -> & ->). split; [exact Hd|]. split.
        -- case_option.
        -- case_option.
Qed.

Lemma variation_entry_of_spec (wg1 wg2 : Z) (item : json) (e : variation_entry) :
  variation_entry_of wg1 wg2 item = Ok e -> entry_of_item wg1 wg2 item e.
Proof.
  unfold variation_entry_of, entry_of_item. intros H.
  destruct (is_dict item) eqn:Hi.
  2:{ destruct item; try discriminate Hi; discriminate H. }
  rewrite (py_get_dict item "id" Hi) in H. cbn [mbind result_bind] in H.
  destruct (py_get item "variationBarcodes" (JList [])) as [bs|]; [|discriminate].
  cbn [mbind result_bind] in H |- *.
  destruct (json_iter bs) as [barcodes|]; [|discriminate].
  cbn [mbind result_bind] in H.
  destruct (variation_barcodes_loop barcodes wg1 wg2 [] JNull JNull)
    as [[[d c1] c2]|] eqn:E; [|discriminate].
  cbn [mbind result_bind] in H. injection H as <-.
  apply variation_barcodes_loop_spec in E as (Hd & -> & ->).
  exists barcodes. repeat split. exact Hd.
Qed.

Lemma variation_entries_spec (wg1 wg2 : Z) (items : list json) :
  forall es,
    variation_entries wg1 wg2 items = Ok es ->
    Forall2 (entry_of_item wg1 wg2) items es.
Proof.
  induction items as [|item items IH]; intros es H.
  - injection H as <-. constructor.
  - cbn [variation_entries] in H.
    destruct (variation_entry_of wg1 wg2 item) as [e|] eqn:E; [|discriminate].
    cbn [mbind result_bind] in H.
    destruct (variation_entries wg1 wg2 items) as [es'|]; [|discriminate].
    cbn [mbind result_bind] in H. injection H as <-.
    constructor; [now apply variation_entry_of_spec|now apply IH].
Qed.

Lemma last_code_same_id (wg : Z) (barcodes : list json) :
  last_code (fun i => negb (json_eq_int i wg) && json_eq_int i wg) barcodes = None.
Proof.
  induction barcodes as [|bc barcodes IH]; [reflexivity|].
  cbn [last_code]. rewrite IH.
  now destruct (json_eq_int (field "barcodeId" bc) wg).
Qed.

(** X23 — the result of [load_variations_barcodes_page] always names its
    page; an error result has no entries and no [lastPage]; a result
    without error comes from a response with status 200 and a JSON body and
    has one entry for each item of the body, in order, with the id of the
    item, as [wg1] the code of the last barcode of the item with the id
    [wg1], and as [wg2] the code of the last barcode with the id [wg2] that
    has not the id [wg1] too ([None] when there is none).  So when the two
    ids are the same, every [wg2] is [None]. *)
Theorem load_variations_barcodes_page_codes (t : option json_response)
    (page wg1 wg2 : Z) :
  let result := load_variations_barcodes_page t page wg1 wg2 in
  pr_page result = page
  /\ (pr_error result = true ->
      pr_entries result = [] /\ pr_lastPage result = None)
  /\ (pr_error result = false ->
      exists r data items,
        t = Some r /\ jr_status r = 200 /\ jr_json r = Some data
        /\ (py_get data "entries" (JList []) ≫= json_iter) = Ok items
        /\ Forall2 (entry_of_item wg1 wg2) items (pr_entries result)
        /\ (wg1 = wg2 -> Forall (fun e => ve_wg2 e = JNull) (pr_entries result))).
Proof.
  intros result. subst result. unfold load_variations_barcodes_page.
  assert (Herr : pr_page (error_page page) = page
                 /\ (pr_error (error_page page) = true ->
                     pr_entries (error_page page) = []
                     /\ pr_lastPage (error_page page) = None)
                 /\ (pr_error (error_page page) = false ->
                     exists r data items,
                       t = Some r /\ jr_status r = 200 /\ jr_json r = Some data
                       /\ (py_get data "entries" (JList []) ≫= json_iter) = Ok items
                       /\ Forall2 (entry_of_item wg1 wg2) items
                            (pr_entries (error_page page))
                       /\ (wg1 = wg2 ->
                           Forall (fun e => ve_wg2 e = JNull)
                             (pr_entries (error_page page))))).
  { split; [reflexivity|]. split; [intros _; split; reflexivity|discriminate]. }
  destruct t as [r|]; [|exact Herr].
  destruct (Z.eqb_spec (jr_status r) 200) as [Hst|Hst]; [|exact Herr]. cbn [negb].
  destruct (jr_json r) as [data|] eqn:Hj; [|exact Herr].
  destruct (variations_page page wg1 wg2 data) as [res|] eqn:Hp; [|exact Herr].
  unfold variations_page in Hp.
  destruct (py_get data "lastPageNumber" (JInt 1)) as [lp|]; [|discriminate].
  cbn [mbind result_bind] in Hp.
  destruct (py_get data "totalsCount" (JInt 0)) as [tot|]; [|discriminate].
  cbn [mbind result_bind] in Hp.
  destruct (py_get data "entries" (JList [])) as [entries|] eqn:He; [|discriminate].
  cbn [mbind result_bind] in Hp.
  destruct (json_iter entries) as [items|] eqn:Hi; [|discriminate].
  cbn [mbind result_bind] in Hp.
  destruct (variation_entries wg1 wg2 items) as [es|] eqn:Hes; [|discriminate].
  cbn [mbind result_bind] in Hp. injection Hp as <-.
  apply variation_entries_spec in Hes.
  split; [reflexivity|]. split; [discriminate|]. intros _.
  exists r, data, items. split; [reflexivity|]. split; [exact Hst|].
  split; [exact Hj|]. split; [rewrite He; exact Hi|].
  split; [exact Hes|].
  intros <-. cbn [pr_entries].
  clear -Hes. induction Hes as [|item e items es He _ IH]; [constructor|].
  constructor; [|exact IH].
  destruct He as (barcodes & _ & _ & _ & _ & ->).
  now rewrite last_code_same_id.
Qed.
